(** * itsDumper: the resource-resolution pipeline of [main.js]

    A shallow embedding of [src/main.js] and the properties of its
    traversal, resolver, materializer, cookie header and name sanitizer.

    Conventions of the embedding.
    - Text is a [string]: the UTF-8 bytes of the JavaScript string.  All
      characters the program tests for are ASCII, and an ASCII byte never
      occurs inside a multi-byte UTF-8 sequence, so prefix tests, searches
      and replacements on bytes agree with those on code units.
    - A JavaScript value that may be [null] or [undefined] is an [option].
      Using such a value where the program dereferences it raises a
      [TypeError], which is the outcome [Thrown].
    - The packages the program loads ([node-fetch], [dom-parser],
      [html-entities], [path], [fs]) are not part of the repository; each
      is modelled next to its first use and the model says what it covers.
    - [main], [loginForSessionId] and [getCourses] read the environment
      and produce the school, the session id and the course list; the
      embedding starts where these are known, at
      [downloadResourcesOfCourses]. *)

From Stdlib Require Import String Ascii List Bool Arith PeanoNat NArith Lia.
From Stdlib Require Strings.Byte.
Import ListNotations.
Local Open Scope list_scope.
Local Open Scope string_scope.

Set Implicit Arguments.

(* ================================================================== *)
(** * 1. JavaScript string primitives used by the program              *)
(* ================================================================== *)

Module JsString.

(** [s.startsWith(p)] *)
Definition startsWith (s p : string) : bool := String.prefix p s.

(** [s] without its first [n] characters. *)
Fixpoint drop (n : nat) (s : string) : string :=
  match n, s with
  | O, _ => s
  | S _, EmptyString => EmptyString
  | S n', String _ t => drop n' t
  end.

(** [s.includes(p)] *)
Fixpoint includes (s p : string) : bool :=
  String.prefix p s ||
  match s with
  | EmptyString => false
  | String _ t => includes t p
  end.

(** [s.indexOf(c)] for a one-character needle; [None] stands for [-1]. *)
Fixpoint indexOf (s : string) (c : ascii) : option nat :=
  match s with
  | EmptyString => None
  | String a t =>
      if Ascii.eqb a c then Some 0
      else match indexOf t c with
           | Some i => Some (S i)
           | None => None
           end
  end.

(** [s.substring(0, e)] where [e] may be [-1]: [substring] treats a
    negative bound as [0], so the result is then the empty string. *)
Definition substring0 (s : string) (e : option nat) : string :=
  match e with
  | Some n => String.substring 0 n s
  | None => EmptyString
  end.

(** The longest prefix of [s] whose characters all satisfy [p]. *)
Fixpoint takeWhile (p : ascii -> bool) (s : string) : string :=
  match s with
  | EmptyString => EmptyString
  | String a t => if p a then String a (takeWhile p t) else EmptyString
  end.

(** [\s] on ASCII: tab, line feed, vertical tab, form feed, carriage
    return and space.  The non-ASCII white space of ECMAScript (U+00A0,
    U+FEFF, the Unicode space separators) is outside this class here. *)
Definition isSpace (c : ascii) : bool :=
  let n := nat_of_ascii c in
  (((9 <=? n) && (n <=? 13)) || (n =? 32))%nat.

(** [\S] *)
Definition nonSpace (c : ascii) : bool := negb (isSpace c).

(** [\d] *)
Definition isDigit (c : ascii) : bool :=
  let n := nat_of_ascii c in
  ((48 <=? n) && (n <=? 57))%nat.

(** Backtracking of a greedy [(\S+)] followed by the literal [post]:
    the capture shrinks from [k] characters down to one until [post]
    follows it. *)
Fixpoint greedy (post rest : string) (k : nat) : option string :=
  match k with
  | O => None
  | S k' =>
      if String.prefix post (drop k rest)
      then Some (String.substring 0 k rest)
      else greedy post rest k'
  end.

(** The attempt of [/pre(\S+)post/] at the start of [s]. *)
Definition matchHere (pre post s : string) : option string :=
  if String.prefix pre s then
    let rest := drop (String.length pre) s in
    greedy post rest (String.length (takeWhile nonSpace rest))
  else None.

(** [s.match(/pre(\S+)post/)]: capture group 1 of the leftmost match,
    [None] when [match] returns [null].  [pre] and [post] are the
    literal parts of the expression. *)
Fixpoint matchNonSpace (pre post s : string) : option string :=
  match matchHere pre post s with
  | Some g => Some g
  | None =>
      match s with
      | EmptyString => None
      | String _ t => matchNonSpace pre post t
      end
  end.

(** The attempt of [/pre(\d+)/] at the start of [s]. *)
Definition digitsHere (pre s : string) : option string :=
  if String.prefix pre s then
    match takeWhile isDigit (drop (String.length pre) s) with
    | EmptyString => None
    | d => Some d
    end
  else None.

(** [s.match(/pre(\d+)/)]: capture group 1 of the leftmost match. *)
Fixpoint matchDigits (pre s : string) : option string :=
  match digitsHere pre s with
  | Some d => Some d
  | None =>
      match s with
      | EmptyString => None
      | String _ t => matchDigits pre t
      end
  end.

(** The first entry of [table] whose key starts [s]. *)
Fixpoint lookupPrefix (table : list (string * string)) (s : string)
  : option (string * string) :=
  match table with
  | [] => None
  | (k, v) :: rest =>
      if String.prefix k s then Some (k, v) else lookupPrefix rest s
  end.

(** One left-to-right pass replacing every non-overlapping occurrence of
    a key of [table] by its value; [skip] counts the characters of the
    occurrence just replaced that are still to be passed over.  The
    output of a replacement is not scanned again. *)
Fixpoint replaceFrom (table : list (string * string)) (skip : nat)
  (s : string) : string :=
  match s with
  | EmptyString => EmptyString
  | String c t =>
      match skip with
      | S k => replaceFrom table k t
      | O =>
          match lookupPrefix table s with
          | Some (k, v) => v ++ replaceFrom table (String.length k - 1) t
          | None => String c (replaceFrom table 0 t)
          end
      end
  end.

(** [s.replace(/pat/g, rep)] for a literal, non-empty [pat]. *)
Definition replaceAll (pat rep s : string) : string :=
  replaceFrom [(pat, rep)] 0 s.

(** [s.replace(/[...]/g, rep)] for a character class [cls] and a
    one-character [rep]. *)
Fixpoint replaceClass (cls : ascii -> bool) (rep : ascii) (s : string)
  : string :=
  match s with
  | EmptyString => EmptyString
  | String c t =>
      String (if cls c then rep else c) (replaceClass cls rep t)
  end.

(** Membership of a character in a string. *)
Fixpoint occurs (c : ascii) (s : string) : bool :=
  match s with
  | EmptyString => false
  | String a t => Ascii.eqb a c || occurs c t
  end.

(** [arr.join(sep)] *)
Definition join (sep : string) (arr : list string) : string :=
  String.concat sep arr.

End JsString.
Import JsString.

(* ================================================================== *)
(** * 2. The name sanitizer                                            *)
(* ================================================================== *)

(** [Buffer.from(text, 'utf-8')]: the UTF-8 bytes of [text]. *)
Definition Buffer_from (text : string) : list Byte.byte :=
  list_byte_of_string text.

(** [buf.toString()]: the text whose UTF-8 bytes are [buf]. *)
Definition Buffer_toString (buf : list Byte.byte) : string :=
  string_of_list_byte buf.

(** The character references the model of [decode] knows: the five
    predefined ones, written with their semicolon. *)
Definition namedReferences : list (string * string) :=
  [ ("&amp;", "&");
    ("&lt;", "<");
    ("&gt;", ">");
    ("&quot;", String "034"%char EmptyString);
    ("&apos;", "'") ].

(** [decode] of the [html-entities] package: one pass over the text in
    which every character reference is replaced by the character it
    names; the replacement is not decoded again.  The package knows the
    whole HTML5 table and the numeric references; this model decodes
    [namedReferences] and leaves every other reference as it is. *)
Definition decode (text : string) : string :=
  replaceFrom namedReferences 0 text.

(** The character class of the expression in [decodeString]: slash,
    backslash, bar, double quote, colon, question mark, asterisk, angle
    brackets and braces. *)
Definition forbiddenChars : list ascii :=
  [ "/"; "\"; "|"; "034"; ":"; "?"; "*"; "<"; ">"; "{"; "}" ]%char.

Definition isForbidden (c : ascii) : bool :=
  existsb (Ascii.eqb c) forbiddenChars.

(** [decodeString(text)], main.js 357-360. *)
Definition decodeString (text : string) : string :=
  let decoded := decode (Buffer_toString (Buffer_from text)) in
  replaceClass isForbidden "_"%char decoded.

(* ================================================================== *)
(** * 3. The cookie header                                             *)
(* ================================================================== *)

(** [new Set(arr)] followed by the spread [[...set]]: a [Set] keeps its
    elements in insertion order and ignores the insertion of a value it
    already holds. *)
Definition Set_add (set : list string) (v : string) : list string :=
  if existsb (String.eqb v) set then set else (set ++ [v])%list.

Definition Set_from (arr : list string) : list string :=
  fold_left Set_add arr [].

(** The callback of [cookieArray.map]:
    [cookie.substring(0, cookie.indexOf(";"))]. *)
Definition cookiePair (cookie : string) : string :=
  substring0 cookie (indexOf cookie ";"%char).

(** The list [uniqueCookies] of [convertSetCookieToCookieString]. *)
Definition uniqueCookies (cookieArray : list string) : list string :=
  Set_from (map cookiePair cookieArray).

(** [convertSetCookieToCookieString(cookieArray)], main.js 347-351. *)
Definition convertSetCookieToCookieString (cookieArray : list string)
  : string :=
  let cookies := map cookiePair cookieArray in
  let uniqueCookies := Set_from cookies in
  join "; " uniqueCookies.

(** The name of a [name=value] pair: the text before its first [=]. *)
Definition cookieName (pair : string) : string :=
  match indexOf pair "="%char with
  | Some i => String.substring 0 i pair
  | None => pair
  end.

(* ================================================================== *)
(** * 4. The office download URL                                       *)
(* ================================================================== *)

(** [getOfficeFileDownloadUrl(webContent)], main.js 281-296.  Each
    [match(...)[1]] on a text without a match raises a [TypeError]
    ([None] here); the token lifetime is matched although it is not
    used afterwards. *)
Definition getOfficeFileDownloadUrl (webContent : string) : option string :=
  match matchNonSpace "form.action = '" "';" webContent with
  | None => None
  | Some officeUrl =>
  match matchNonSpace "accessTokenInput.value = '" "';" webContent with
  | None => None
  | Some accessToken =>
  match matchNonSpace "accessTokenTtlInput.value = '" "';" webContent with
  | None => None
  | Some accessTokenTtl =>
  match matchNonSpace "WOPISrc=" "&ui=" officeUrl with
  | None => None
  | Some wopiSrc =>
      let fileContentUrl :=
        replaceAll "\x252f" "/" (replaceAll "\x253a" ":" wopiSrc) in
      Some (fileContentUrl ++ "/contents?access_token=" ++ accessToken)
  end end end end.

(* ================================================================== *)
(** * 5. The runtime: documents, network, file system, console         *)
(* ================================================================== *)

(** ** Documents of the [dom-parser] package

    A parsed page is the list of its elements in document order; an
    element carries its attributes as written in the page (character
    references in an attribute value are not decoded by the package),
    its class names and its text content. *)
Record element := {
  el_attributes : list (string * string);
  el_classNames : list string;
  el_textContent : string
}.

Definition Dom := list element.

(** [el.getAttribute(name)], [null] when the attribute is absent. *)
Definition getAttribute (el : element) (name : string) : option string :=
  match find (fun kv => String.eqb (fst kv) name) (el_attributes el) with
  | Some kv => Some (snd kv)
  | None => None
  end.

(** [dom.getElementById(id)], [null] when no element has that id. *)
Definition getElementById (dom : Dom) (id : string) : option element :=
  find (fun el => match getAttribute el "id" with
                  | Some i => String.eqb i id
                  | None => false
                  end) dom.

(** [dom.getElementsByClassName(cls)] *)
Definition getElementsByClassName (dom : Dom) (cls : string) : list element :=
  filter (fun el => existsb (String.eqb cls) (el_classNames el)) dom.

(** ** Requests and responses of [node-fetch] *)
Inductive redirect := follow | manual.

Record request := {
  req_url : string;
  req_cookie : option string;   (* the [Cookie] header, when one is sent *)
  req_redirect : redirect
}.

Record response := {
  res_status : nat;
  res_statusText : string;
  res_location : option string;          (* [headers.get('location')] *)
  res_setCookie : option (list string);  (* [headers.raw()['set-cookie']] *)
  res_body : string                      (* [await response.text()] *)
}.

(** [response.ok]: the status is in the range 200-299. *)
Definition res_ok (r : response) : bool :=
  ((200 <=? res_status r) && (res_status r <? 300))%nat.

(** ** What the program runs against

    [network] answers a request ([None]: [fetch] rejects, the host
    cannot be reached); [parseFromString] is the parser of [dom-parser];
    [path_join] is [path.join] of the platform on two arguments. *)
Record runtime := {
  network : request -> option response;
  parseFromString : string -> Dom;
  path_join : string -> string -> string
}.

(** ** Observable effects *)
Inductive level := Log | Warn | Error.

(** What the program can raise: a [TypeError] of a lookup on [null] or
    [undefined], the rejection of [fetch], and the error of a failed
    call of the file system. *)
Inductive exn := TypeError | FetchError | SystemError.

Inductive event :=
| Fetched (req : request)                 (* a request left the program *)
| Console (l : level) (msg : string)      (* [console.log/warn/error] *)
| ExistsSync (path : string)              (* [fs.existsSync] *)
| MkdirSync (path : string)               (* [fs.mkdirSync], recursive *)
| WriteStream (path : string)             (* [fs.createWriteStream] *)
| Unhandled (e : exn).                    (* a rejection nobody handles *)

(** A resolution started by [downloadResourceFolder] and not awaited:
    the arguments of the call [downloadResourceObject(...)]. *)
Record task := {
  t_school : string;
  t_sessionId : string;
  t_elementId : string;
  t_folderPath : string
}.

(** The state the program acts on: the files and directories under the
    download location (paths compared as written), the effects so far in
    the order they happened, and the resolutions in flight. *)
Record state := {
  files : list (string * string);
  dirs : list string;
  trace : list event;
  pending : list task
}.

Definition emit (ev : event) (st : state) : state :=
  {| files := files st; dirs := dirs st;
     trace := (trace st ++ [ev])%list; pending := pending st |}.

Definition emits (evs : list event) (st : state) : state :=
  fold_left (fun s ev => emit ev s) evs st.

(** ** The monad of the program: state, exceptions, fuel *)
Inductive outcome (A : Type) :=
| Returned (a : A)     (* the call completed *)
| Thrown (e : exn)     (* the call raised, or its promise was rejected *)
| OutOfFuel.           (* the bound on the folder depth was reached *)

Arguments Returned {A} a.
Arguments Thrown {A} e.
Arguments OutOfFuel {A}.

Definition M (A : Type) : Type := state -> outcome A * state.

Definition ret {A} (a : A) : M A := fun st => (Returned a, st).

Definition throw {A} (e : exn) : M A := fun st => (Thrown e, st).

Definition bind {A B} (m : M A) (k : A -> M B) : M B :=
  fun st =>
    match m st with
    | (Returned a, st') => k a st'
    | (Thrown e, st') => (Thrown e, st')
    | (OutOfFuel, st') => (OutOfFuel, st')
    end.

Declare Scope js_scope.
Delimit Scope js_scope with js.
Notation "x <- m ;; k" := (bind m (fun x => k))
  (at level 61, m at next level, right associativity) : js_scope.
Notation "m ;; k" := (bind m (fun _ => k))
  (at level 61, right associativity) : js_scope.
Local Open Scope js_scope.

(** Dereferencing a value that may be [null]. *)
Definition nonNull {A} (v : option A) : M A :=
  match v with
  | Some a => ret a
  | None => throw TypeError
  end.

(** [for (const x of l) { body }] *)
Fixpoint forEach {A} (body : A -> M unit) (l : list A) : M unit :=
  match l with
  | [] => ret tt
  | x :: rest => body x ;; forEach body rest
  end.

Definition console (l : level) (msg : string) : M unit :=
  fun st => (Returned tt, emit (Console l msg) st).

(** ** The file system of [fs] *)
Definition fileAt (st : state) (path : string) : option string :=
  match find (fun kv => String.eqb (fst kv) path) (files st) with
  | Some kv => Some (snd kv)
  | None => None
  end.

Definition existsAt (st : state) (path : string) : bool :=
  match fileAt st path with
  | Some _ => true
  | None => existsb (String.eqb path) (dirs st)
  end.

Definition existsSync (path : string) : M bool :=
  fun st => (Returned (existsAt st path), emit (ExistsSync path) st).

(** The directories [mkdirSync(path, {recursive: true})] makes sure of:
    [path] and every prefix of it that ends before a separator. *)
Fixpoint ancestors (acc s : string) : list string :=
  match s with
  | EmptyString => [acc]
  | String c t =>
      let here :=
        if Ascii.eqb c "/"%char && negb (String.eqb acc EmptyString)
        then [acc] else [] in
      (here ++ ancestors (acc ++ String c EmptyString) t)%list
  end.

(** A file stands at [path]. *)
Definition isFile (st : state) (path : string) : bool :=
  match fileAt st path with
  | Some _ => true
  | None => false
  end.

(** [fs.mkdirSync(path, {recursive: true})]: the call raises when a
    file stands at [path] or where a directory above it has to be; it
    makes the directories that are not there otherwise. *)
Definition mkdirSync (path : string) : M unit :=
  fun st =>
    if existsb (isFile st) (ancestors EmptyString path) then
      (Thrown SystemError, emit (MkdirSync path) st)
    else
      let fresh :=
        filter (fun d => negb (existsb (String.eqb d) (dirs st)))
               (ancestors EmptyString path) in
      (Returned tt,
       emit (MkdirSync path)
         {| files := files st; dirs := (dirs st ++ fresh)%list;
            trace := trace st; pending := pending st |}).

(** The directory and the name a path is made of: the text before its
    last separator and the text after it; [None] for a path without
    separator. *)
Fixpoint splitLast (path : string) : option (string * string) :=
  match path with
  | EmptyString => None
  | String c t =>
      match splitLast t with
      | Some (dir, name) => Some (String c dir, name)
      | None =>
          if Ascii.eqb c "/"%char then Some (EmptyString, t) else None
      end
  end.

(** A name a file can have: not empty, and neither of the two names
    under which every directory holds itself and the directory above
    it. *)
Definition isFileName (name : string) : bool :=
  negb (String.eqb name EmptyString) && negb (String.eqb name ".")
  && negb (String.eqb name "..").

(** A file can be opened for writing at [path]: the path ends in a name
    a file can have, no directory stands at it, and the directory it
    names is there (the root and the working directory always are). *)
Definition opens (st : state) (path : string) : bool :=
  negb (existsb (String.eqb path) (dirs st)) &&
  match splitLast path with
  | Some (dir, name) =>
      isFileName name &&
      (String.eqb dir EmptyString || existsb (String.eqb dir) (dirs st))
  | None => isFileName path
  end.

(** [fs.createWriteStream(path)] with the body piped into it, main.js
    336-342.  When the file can be opened the stream finishes and the
    file holds the whole body.  When it cannot, the stream emits
    [error]; the stream has no listener for it, so the error is thrown
    out of the event loop and ends the process.  Nothing in the program
    catches what is raised, so the model raises here: what follows in
    the call and in its callers is not run. *)
Definition writeStream (path body : string) : M unit :=
  fun st =>
    if opens st path then
      (Returned tt,
       emit (WriteStream path)
         {| files := (path, body)
                     :: filter (fun kv => negb (String.eqb (fst kv) path))
                               (files st);
            dirs := dirs st; trace := trace st; pending := pending st |})
    else (Thrown SystemError, emit (WriteStream path) st).

(** The task a file entry starts. *)
Definition taskOf (school sessionId elementId folderPath : string) : task :=
  {| t_school := school; t_sessionId := sessionId;
     t_elementId := elementId; t_folderPath := folderPath |}.

(** The state after a call that is not awaited was started. *)
Definition started (t : task) (st : state) : state :=
  {| files := files st; dirs := dirs st; trace := trace st;
     pending := (pending st ++ [t])%list |}.

(** Starting a call that is not awaited: the caller goes on at once.
    The effects of the call, its first request included, are recorded
    when the call is settled. *)
Definition spawn (t : task) : M unit :=
  fun st => (Returned tt, started t st).

(* ================================================================== *)
(** * 6. The program                                                   *)
(* ================================================================== *)

(** main.js 11-12 *)
Definition downloadLocation : string := "./data".
Definition skipAlreadyDownloadedFiles : bool := true.

(** An entry of the course list: [Title] and [CourseId], the latter as
    the text it is interpolated as. *)
Record course := {
  Title : string;
  CourseId : string
}.

Section Program.

Variable rt : runtime.

(** [await fetch(url, options)]: the request is observed whether or not
    an answer comes back. *)
Definition fetch (req : request) : M response :=
  fun st =>
    match network rt req with
    | Some r => (Returned r, emit (Fetched req) st)
    | None => (Thrown FetchError, emit (Fetched req) st)
    end.

(** The header [ASP.NET_SessionId=${sessionId};] of the portal. *)
Definition portalCookie (sessionId : string) : string :=
  "ASP.NET_SessionId=" ++ sessionId ++ ";".

(** [downloadFile(downloadUrl, cookieString, folderPath, filename)],
    main.js 313-345. *)
Definition downloadFile (downloadUrl cookieString folderPath filename : string)
  : M unit :=
  let downloadLocation := path_join rt folderPath filename in
  present <- existsSync downloadLocation ;;
  if present && skipAlreadyDownloadedFiles then
    console Log ("Skipping file: " ++ downloadLocation)
  else
    response <- fetch {| req_url := downloadUrl;
                         req_cookie := Some cookieString;
                         req_redirect := follow |} ;;
    if negb (res_ok response) then
      console Log ("Failed to download file: " ++ res_statusText response)
    else
      folderPresent <- existsSync folderPath ;;
      (if negb folderPresent then mkdirSync folderPath else ret tt) ;;
      writeStream downloadLocation (res_body response) ;;
      console Log ("Downloaded file to " ++ downloadLocation).

(** [downloadResourceObject(school, sessionId, elementId, folderPath)],
    main.js 190-279. *)
Definition downloadResourceObject
  (school sessionId elementId folderPath : string) : M unit :=
  let url := "https://" ++ school ++
    ".itslearning.com/LearningToolElement/ViewLearningToolElement.aspx?LearningToolElementId="
    ++ elementId in
  viewResponse <- fetch {| req_url := url;
                           req_cookie := Some (portalCookie sessionId);
                           req_redirect := manual |} ;;
  if negb (res_ok viewResponse) then
    console Error ("Failed to fetch web page for resource object: "
                   ++ res_statusText viewResponse ++ " URL: " ++ url)
  else
    let viewDom := parseFromString rt (res_body viewResponse) in
    title <- nonNull (getElementById viewDom "ctl00_PageHeader_TT") ;;
    let fileName := el_textContent title in
    iframe <- nonNull (getElementById viewDom
                         "ctl00_ContentPlaceHolder_ExtensionIframe") ;;
    src <- nonNull (getAttribute iframe "src") ;;
    let iframeUrl := replaceAll "&amp;" "&" src in
    (* the session cookie of the platform domain comes with this answer *)
    iframeResponse <- fetch {| req_url := iframeUrl;
                               req_cookie := None;
                               req_redirect := manual |} ;;
    let learningObjectInstanceUrl := res_location iframeResponse in
    platformCookies <- nonNull (res_setCookie iframeResponse) ;;
    let platformCookieString :=
      convertSetCookieToCookieString platformCookies in
    (* [fetch(null)] rejects before a request is made *)
    instanceUrl <- nonNull learningObjectInstanceUrl ;;
    resourceResponse <- fetch {| req_url := instanceUrl;
                                 req_cookie := Some platformCookieString;
                                 req_redirect := follow |} ;;
    allCookies <- nonNull (res_setCookie resourceResponse) ;;
    let resourceCookies :=
      filter (fun c => includes c "ASP.NET_SessionId") allCookies in
    let resourceCookieString :=
      convertSetCookieToCookieString resourceCookies in
    let resourceDom := parseFromString rt (res_body resourceResponse) in
    let downloadAnchor := getElementById resourceDom
      "ctl00_ctl00_MainFormContent_DownloadLinkForViewType" in
    let filePreviewIframe := getElementById resourceDom
      "ctl00_ctl00_MainFormContent_PreviewIframe_FilePreviewIframe" in
    match downloadAnchor with
    | Some anchor =>
        (* direct download *)
        href <- nonNull (getAttribute anchor "href") ;;
        let downloadUrl :=
          "https://resource.itslearning.com" ++ replaceAll "&amp;" "&" href in
        (* [path.join] raises on a [null] file name, before any effect *)
        downloadFilename <- nonNull (getAttribute anchor "Download") ;;
        downloadFile downloadUrl resourceCookieString folderPath
                     downloadFilename
    | None =>
        match filePreviewIframe with
        | Some preview =>
            (* office file download; [+] renders a [null] as text *)
            let previewUrl :=
              "https://resource.itslearning.com/" ++
              match getAttribute preview "src" with
              | Some s => s
              | None => "null"
              end in
            previewResponse <- fetch {| req_url := previewUrl;
                                        req_cookie := Some resourceCookieString;
                                        req_redirect := follow |} ;;
            if negb (res_ok previewResponse) then
              console Error
                ("Failed to download file preview web page (office online): "
                 ++ res_statusText previewResponse)
            else
              officeDownloadUrl <-
                nonNull (getOfficeFileDownloadUrl (res_body previewResponse)) ;;
              downloadFile officeDownloadUrl "" folderPath fileName
        | None =>
            console Log
              ("Resource type unsupported. No direct download link available: "
               ++ fileName)
        end
    end.

(** The number [numberOfSameName] and the flag [shouldAppendId] of one
    loop iteration, main.js 166-167. *)
Definition numberOfSameName (folderEntryNames : list string) (entry : element)
  : nat :=
  length (filter (fun n => String.eqb n (el_textContent entry))
                 folderEntryNames).

Definition shouldAppendId (folderEntryNames : list string) (entry : element)
  : bool :=
  (1 <? numberOfSameName folderEntryNames entry)%nat.

(** What one loop iteration of [downloadResourceFolder] decides for an
    entry, main.js 164-178: the call it makes and the arguments that
    vary with the entry. *)
Inductive dispatch :=
| Traverse (url : string) (appendId : bool)
    (* [await downloadResourceFolder(school, url, sessionId, folderPath,
        shouldAppendId)] *)
| Resolve (elementId : string)
    (* [downloadResourceObject(school, sessionId, elementId, folderPath)] *)
| Unknown (url : string)
    (* [console.warn] *)
| Faulty.
    (* the [href] is [null], or the element id is not in the URL *)

Definition entryDispatch (folderEntryNames : list string) (entry : element)
  : dispatch :=
  match getAttribute entry "href" with
  | None => Faulty
  | Some url =>
      if startsWith url "/Folder" then
        Traverse url (shouldAppendId folderEntryNames entry)
      else if startsWith url "/LearningToolElement" then
        match matchDigits "LearningToolElementId=" url with
        | Some elementId => Resolve elementId
        | None => Faulty
        end
      else Unknown url
  end.

(** The disambiguation flag the call made for an entry carries; [None]
    when the call has no such argument. *)
Definition dispatchFlag (d : dispatch) : option bool :=
  match d with
  | Traverse _ appendId => Some appendId
  | Resolve _ | Unknown _ | Faulty => None
  end.

(** The body of the loop over [folderEntries]; [recur] is the recursive
    call with [school] and [sessionId] fixed. *)
Definition folderEntry (recur : string -> string -> bool -> M unit)
  (school sessionId folderPath : string) (folderEntryNames : list string)
  (entry : element) : M unit :=
  match entryDispatch folderEntryNames entry with
  | Traverse url appendId => recur url folderPath appendId
  | Resolve elementId =>
      spawn (taskOf school sessionId elementId folderPath)
  | Unknown url => console Warn ("Unknown folder entry type. Url: " ++ url)
  | Faulty => throw TypeError
  end.

(** The absolute URL of a folder, main.js 130-132. *)
Definition absoluteFolderUrl (school folderUrl : string) : string :=
  if startsWith folderUrl "/"
  then "https://" ++ school ++ ".itslearning.com" ++ folderUrl
  else folderUrl.

(** The name of the local directory of a folder, main.js 151-157;
    [None] when the folder id is asked for and not in the URL. *)
Definition folderNameOf (rawFolderName folderUrl : string) (appendId : bool)
  : option string :=
  let folderName := decodeString rawFolderName in
  if appendId then
    match matchDigits "FolderID=" folderUrl with
    | Some folderId => Some (folderName ++ " [" ++ folderId ++ "]")
    | None => None
    end
  else Some folderName.

(** [downloadResourceFolder(school, folderUrl, sessionId,
    parentFolderPath, appendId)], main.js 129-180.  The pages decide how
    deep the recursion goes; [fuel] bounds the depth. *)
Fixpoint downloadResourceFolder (fuel : nat)
  (school folderUrl sessionId parentFolderPath : string) (appendId : bool)
  : M unit :=
  match fuel with
  | O => fun st => (OutOfFuel, st)
  | S fuel' =>
      let folderUrl := absoluteFolderUrl school folderUrl in
      contentResponse <- fetch {| req_url := folderUrl;
                                  req_cookie := Some (portalCookie sessionId);
                                  req_redirect := follow |} ;;
      if negb (res_ok contentResponse) then
        console Error ("Failed to fetch web content for folder at "
                       ++ folderUrl)
      else
        let dom := parseFromString rt (res_body contentResponse) in
        title <- nonNull (getElementById dom "ctl00_PageHeader_TT") ;;
        let rawFolderName := el_textContent title in
        folderName <- nonNull (folderNameOf rawFolderName folderUrl appendId) ;;
        let folderPath := parentFolderPath ++ "/" ++ folderName in
        let folderEntries := getElementsByClassName dom "GridTitle" in
        let folderEntryNames := map el_textContent folderEntries in
        forEach
          (folderEntry
             (fun url path flag =>
                downloadResourceFolder fuel' school url sessionId path flag)
             school sessionId folderPath folderEntryNames)
          folderEntries
  end.

(** [downloadResourcesOfCourses(school, sessionId, courses)],
    main.js 93-119.  The [return] of line 105 leaves the loop and the
    function. *)
Fixpoint downloadResourcesOfCourses (fuel : nat)
  (school sessionId : string) (courses : list course) : M unit :=
  match courses with
  | [] => ret tt
  | course :: rest =>
      let contentUrl := "https://" ++ school ++
        ".itslearning.com/ContentArea/ContentArea.aspx?LocationID="
        ++ CourseId course ++ "&LocationType=1" in
      contentResponse <- fetch {| req_url := contentUrl;
                                  req_cookie := Some (portalCookie sessionId);
                                  req_redirect := follow |} ;;
      if negb (res_ok contentResponse) then
        console Error ("Failed to fetch web content for course "
                       ++ Title course)
      else
        let dom := parseFromString rt (res_body contentResponse) in
        resourcesAnchor <- nonNull (getElementById dom "link-resources") ;;
        let parentFolder :=
          path_join rt downloadLocation (decodeString (Title course)) in
        (* a [null] href raises at [folderUrl.startsWith] in the callee *)
        resourceFolderUrl <- nonNull (getAttribute resourcesAnchor "href") ;;
        downloadResourceFolder fuel school resourceFolderUrl sessionId
                               parentFolder false ;;
        downloadResourcesOfCourses fuel school sessionId rest
  end.

(** ** The requests the program makes, by the call that makes them *)

(** [downloadResourcesOfCourses]: the content page of a course. *)
Definition courseRequest (school sessionId courseId : string) : request :=
  {| req_url := "https://" ++ school ++
       ".itslearning.com/ContentArea/ContentArea.aspx?LocationID="
       ++ courseId ++ "&LocationType=1";
     req_cookie := Some (portalCookie sessionId);
     req_redirect := follow |}.

(** [downloadResourceFolder]: the page of a folder. *)
Definition folderRequest (school sessionId folderUrl : string) : request :=
  {| req_url := absoluteFolderUrl school folderUrl;
     req_cookie := Some (portalCookie sessionId);
     req_redirect := follow |}.

(** [downloadResourceObject]: the view hop, *)
Definition viewUrl (school elementId : string) : string :=
  "https://" ++ school ++
  ".itslearning.com/LearningToolElement/ViewLearningToolElement.aspx?LearningToolElementId="
  ++ elementId.

Definition viewRequest (school sessionId elementId : string) : request :=
  {| req_url := viewUrl school elementId;
     req_cookie := Some (portalCookie sessionId);
     req_redirect := manual |}.

(** the handoff hop to the frame of the view page, *)
Definition handoffRequest (src : string) : request :=
  {| req_url := replaceAll "&amp;" "&" src;
     req_cookie := None;
     req_redirect := manual |}.

(** the platform hop to the location the handoff answered, *)
Definition platformRequest (instanceUrl : string)
  (platformCookies : list string) : request :=
  {| req_url := instanceUrl;
     req_cookie := Some (convertSetCookieToCookieString platformCookies);
     req_redirect := follow |}.

(** the cookie header of the resource domain, *)
Definition resourceCookieStringOf (allCookies : list string) : string :=
  convertSetCookieToCookieString
    (filter (fun c => includes c "ASP.NET_SessionId") allCookies).

(** the preview page of an office file, *)
Definition previewRequest (src : option string) (cookieString : string)
  : request :=
  {| req_url := "https://resource.itslearning.com/" ++
                match src with Some s => s | None => "null" end;
     req_cookie := Some cookieString;
     req_redirect := follow |}.

(** and [downloadFile]: the payload. *)
Definition payloadRequest (downloadUrl cookieString : string) : request :=
  {| req_url := downloadUrl;
     req_cookie := Some cookieString;
     req_redirect := follow |}.

(** A resolution nobody awaits runs to its end on its own.  When it
    raises, its promise is rejected and nothing handles the rejection:
    the call of main.js 175 is neither awaited nor caught, and neither
    is [main()] at line 362.  Node (15 and later) ends the process on
    an unhandled rejection: the run stops there. *)
Definition settle (t : task) : M unit :=
  fun st =>
    match downloadResourceObject (t_school t) (t_sessionId t)
                                 (t_elementId t) (t_folderPath t) st with
    | (Thrown e, st') => (Thrown e, emit (Unhandled e) st')
    | r => r
    end.

(** The resolutions in flight, settled in the order they were started,
    up to the first one that is rejected. *)
Definition settlePending : M unit :=
  fun st =>
    forEach settle (pending st)
      {| files := files st; dirs := dirs st; trace := trace st;
         pending := [] |}.

End Program.

(** ** Vocabulary of the statements *)

(** A call that cannot reach the bound on the folder depth. *)
Definition fuelFree {A} (m : M A) : Prop :=
  forall st, fst (m st) <> OutOfFuel.

(** The resolution of [elementId] reaches the page of the platform hop:
    the view page answers with a success status and holds the title
    element [title] and a frame with a source; the handoff answers with
    cookies and a location; the platform hop answers [resourceResponse]
    with the cookies [allCookies].  [requests] are the three requests
    made on the way. *)
Inductive platformHop (rt : runtime) (school sessionId elementId : string)
  (title : element) (resourceResponse : response) (allCookies : list string)
  (requests : list request) : Prop :=
| PlatformHop (viewResponse : response) (iframe : element) (src : string)
    (iframeResponse : response) (platformCookies : list string)
    (instanceUrl : string) :
    network rt (viewRequest school sessionId elementId) = Some viewResponse ->
    res_ok viewResponse = true ->
    getElementById (parseFromString rt (res_body viewResponse))
      "ctl00_PageHeader_TT" = Some title ->
    getElementById (parseFromString rt (res_body viewResponse))
      "ctl00_ContentPlaceHolder_ExtensionIframe" = Some iframe ->
    getAttribute iframe "src" = Some src ->
    network rt (handoffRequest src) = Some iframeResponse ->
    res_setCookie iframeResponse = Some platformCookies ->
    res_location iframeResponse = Some instanceUrl ->
    network rt (platformRequest instanceUrl platformCookies)
    = Some resourceResponse ->
    res_setCookie resourceResponse = Some allCookies ->
    requests = [ viewRequest school sessionId elementId;
                 handoffRequest src;
                 platformRequest instanceUrl platformCookies ] ->
    platformHop rt school sessionId elementId title resourceResponse
                allCookies requests.

(** The elements the delivery branch looks for on that page. *)
Definition downloadAnchorOf (rt : runtime) (resourceResponse : response)
  : option element :=
  getElementById (parseFromString rt (res_body resourceResponse))
    "ctl00_ctl00_MainFormContent_DownloadLinkForViewType".

Definition filePreviewIframeOf (rt : runtime) (resourceResponse : response)
  : option element :=
  getElementById (parseFromString rt (res_body resourceResponse))
    "ctl00_ctl00_MainFormContent_PreviewIframe_FilePreviewIframe".

(** A portal that answers the pages of its folders, seen from one
    folder: the page of [folderUrl] is answered, and when the answer
    has a success status the page holds its title, every entry has a
    reference the loop can read, and every folder entry leads to a
    folder of the portal that lies deeper ([rank] decreases) and whose
    URL holds its id when the entry has a namesake. *)
Definition folderServed (rt : runtime) (school sessionId : string)
  (reachable : string -> Prop) (rank : string -> nat) (folderUrl : string)
  : Prop :=
  exists r,
    network rt (folderRequest school sessionId folderUrl) = Some r /\
    (res_ok r = true ->
     let dom := parseFromString rt (res_body r) in
     let folderEntries := getElementsByClassName dom "GridTitle" in
     (exists title, getElementById dom "ctl00_PageHeader_TT" = Some title) /\
     Forall
       (fun entry =>
          match entryDispatch (map el_textContent folderEntries) entry with
          | Traverse url appendId =>
              reachable url /\ rank url < rank folderUrl /\
              (appendId = true ->
               matchDigits "FolderID=" (absoluteFolderUrl school url) <> None)
          | Resolve _ | Unknown _ => True
          | Faulty => False
          end)
       folderEntries).

(** A call under which every file that is there keeps its content. *)
Definition keepsFiles {A} (m : M A) : Prop :=
  forall st path content,
    fileAt st path = Some content ->
    fileAt (snd (m st)) path = Some content.

(** The run of [main] once the school, the session id and the courses
    are known: the traversal, awaited, and then the resolutions it left
    in flight. *)
Definition runCourses (rt : runtime) (fuel : nat) (school sessionId : string)
  (courses : list course) : M unit :=
  bind (downloadResourcesOfCourses rt fuel school sessionId courses)
       (fun _ => settlePending rt).

(** The entries the loop of a folder handles without a recursive call:
    file entries and entries of unknown kind. *)
Definition isFlat (d : dispatch) : bool :=
  match d with
  | Resolve _ | Unknown _ => true
  | Traverse _ _ | Faulty => false
  end.

(** The resolutions the loop starts for the file entries among
    [entries], and the lines it prints for the entries of unknown kind,
    in the order of the entries. *)
Definition startedBy (school sessionId folderPath : string)
  (folderEntryNames : list string) (entries : list element) : list task :=
  flat_map
    (fun entry =>
       match entryDispatch folderEntryNames entry with
       | Resolve elementId => [taskOf school sessionId elementId folderPath]
       | _ => []
       end)
    entries.

Definition warnedBy (folderEntryNames : list string) (entries : list element)
  : list event :=
  flat_map
    (fun entry =>
       match entryDispatch folderEntryNames entry with
       | Unknown url =>
           [Console Warn ("Unknown folder entry type. Url: " ++ url)]
       | _ => []
       end)
    entries.

(* ================================================================== *)
(** * 6b. The session: [loginForSessionId] and the start of [main]     *)
(* ================================================================== *)

(** [getCourses] and the rest of [main] read the JSON bodies of the
    course cards through [response.json()], property lookups and
    [concat] on values of any shape; they are left out.  What follows is
    [loginForSessionId] and the part of [main] that settles the school
    and the session id, main.js 16-40. *)

(** The login request: method [post], its URL and its form body. *)
Record loginRequest := {
  login_url : string;
  login_body : string
}.

(** What the login and the start of [main] do, in order. *)
Inductive loginEffect :=
| Posted (req : loginRequest)
| Printed (l : level) (msg : string).

Inductive loginResult (A : Type) :=
| Obtained (a : A)       (* the value the code goes on with *)
| Raised (e : exn)       (* the call raised, or its promise was rejected *)
| Exited (code : nat).   (* [process.exit(code)] *)

Arguments Obtained {A} a.
Arguments Raised {A} e.
Arguments Exited {A} code.

(** [process.env] after [dotenv.config()]: the four variables read. *)
Record environment := {
  SCHOOL : option string;
  SESSION : option string;
  USERNAME : option string;
  PASSWORD : option string
}.

(** main.js 9 *)
Definition SCHOOL_ID : string := "".

(** A variable of the environment counts when it is set and not
    empty. *)
Definition truthy (v : option string) : bool :=
  match v with
  | Some s => negb (String.eqb s EmptyString)
  | None => false
  end.

Definition valueOf (v : option string) : string :=
  match v with
  | Some s => s
  | None => EmptyString
  end.

Section Login.

(** The answer of the portal to a login ([None]: [fetch] rejects). *)
Variable post : loginRequest -> option response.

(** The request of [loginForSessionId], main.js 52-55. *)
Definition loginRequestOf (school username password : string) : loginRequest :=
  {| login_url := "https://" ++ school ++ ".itslearning.com";
     login_body := "ctl00$ContentPlaceHolder1$Username$input=" ++ username
                   ++ "&ctl00$ContentPlaceHolder1$Password$input=" ++ password |}.

(** [loginForSessionId(school, username, password)], main.js 51-67. *)
Definition loginForSessionId (school username password : string)
  : list loginEffect * loginResult string :=
  let req := loginRequestOf school username password in
  match post req with
  | None => ([Posted req], Raised FetchError)
  | Some response =>
      match res_setCookie response with
      | None => ([Posted req], Raised TypeError)
      | Some allCookies =>
          let cookies :=
            filter (fun c => includes c "ASP.NET_SessionId") allCookies in
          match cookies with
          | [] => ([Posted req], Raised TypeError)
          | first :: _ =>
              match matchNonSpace "ASP.NET_SessionId=" ";" first with
              | None => ([Posted req], Raised TypeError)
              | Some sessionId =>
                  let line :=
                    Printed Log ("Obtained session id: " ++ sessionId) in
                  if String.eqb sessionId EmptyString then
                    ([Posted req; line;
                      Printed Error "Failed to obtain session id"],
                     Exited 1)
                  else ([Posted req; line], Obtained sessionId)
              end
          end
      end
  end.

(** The start of [main], main.js 16-40: the school and the session id
    the run goes on with. *)
Definition mainSession (env : environment)
  : list loginEffect * loginResult (string * string) :=
  let school :=
    if truthy (SCHOOL env) then valueOf (SCHOOL env) else SCHOOL_ID in
  if String.eqb school EmptyString then
    ([Printed Error "School not specified"], Exited 1)
  else if truthy (SESSION env) then
    ([], Obtained (school, valueOf (SESSION env)))
  else if negb (truthy (USERNAME env)) then
    ([Printed Error "Username not specified"], Exited 1)
  else if negb (truthy (PASSWORD env)) then
    ([Printed Error "Password not specified"], Exited 1)
  else
    match loginForSessionId school (valueOf (USERNAME env))
                            (valueOf (PASSWORD env)) with
    | (effects, Obtained sessionId) => (effects, Obtained (school, sessionId))
    | (effects, Raised e) => (effects, Raised e)
    | (effects, Exited code) => (effects, Exited code)
    end.

End Login.

(* ================================================================== *)
(** * 7. A POSIX [path.join] and a small portal to run the program on  *)
(* ================================================================== *)

Module Posix.

(** The segments of a path between its separators. *)
Fixpoint segments (acc s : string) : list string :=
  match s with
  | EmptyString => [acc]
  | String c t =>
      if Ascii.eqb c "/"%char then acc :: segments EmptyString t
      else segments (acc ++ String c EmptyString) t
  end.

(** [normalizeString] of Node: empty and [.] segments vanish, [..]
    removes the segment before it; [stack] holds the kept segments, last
    first. *)
Fixpoint normalizeSegments (allowAboveRoot : bool) (stack segs : list string)
  : list string :=
  match segs with
  | [] => rev stack
  | seg :: rest =>
      if String.eqb seg EmptyString || String.eqb seg "." then
        normalizeSegments allowAboveRoot stack rest
      else if String.eqb seg ".." then
        match stack with
        | top :: below =>
            if String.eqb top ".."
            then normalizeSegments allowAboveRoot (seg :: stack) rest
            else normalizeSegments allowAboveRoot below rest
        | [] =>
            if allowAboveRoot
            then normalizeSegments allowAboveRoot [seg] rest
            else normalizeSegments allowAboveRoot [] rest
        end
      else normalizeSegments allowAboveRoot (seg :: stack) rest
  end.

Definition endsWithSlash (s : string) : bool :=
  match rev (list_ascii_of_string s) with
  | c :: _ => Ascii.eqb c "/"%char
  | [] => false
  end.

(** [path.posix.normalize] *)
Definition normalize (path : string) : string :=
  if String.eqb path EmptyString then "." else
  let isAbsolute := startsWith path "/" in
  let trailingSeparator := endsWithSlash path in
  let p := join "/" (normalizeSegments (negb isAbsolute) []
                                       (segments EmptyString path)) in
  if String.eqb p EmptyString then
    if isAbsolute then "/" else if trailingSeparator then "./" else "."
  else
    let p := if trailingSeparator then p ++ "/" else p in
    if isAbsolute then "/" ++ p else p.

(** [path.posix.join(a, b)] *)
Definition join2 (a b : string) : string :=
  match String.eqb a EmptyString, String.eqb b EmptyString with
  | true, true => "."
  | true, false => normalize b
  | false, true => normalize a
  | false, false => normalize (a ++ "/" ++ b)
  end.

End Posix.

Module Demo.

(** A portal of one school with three courses.  Bodies are page names;
    [parser] gives each page its elements. *)

Definition school : string := "demo".
Definition sessionId : string := "S1".

Definition el (attrs : list (string * string)) (cls : list string)
  (text : string) : element :=
  {| el_attributes := attrs; el_classNames := cls; el_textContent := text |}.

Definition answer (status : nat) (text : string) (loc : option string)
  (cookies : option (list string)) (body : string) : response :=
  {| res_status := status; res_statusText := text; res_location := loc;
     res_setCookie := cookies; res_body := body |}.

Definition page (body : string) : response :=
  answer 200 "OK" None None body.

Definition portal : string := "https://demo.itslearning.com".

Definition folderHref (id : string) : string :=
  "/Folder/processfolder.aspx?FolderID=" ++ id.

Definition elementHref (id : string) : string :=
  "/LearningToolElement/ViewLearningToolElement.aspx?LearningToolElementId="
  ++ id.

Definition courseUrl (id : string) : string :=
  portal ++ "/ContentArea/ContentArea.aspx?LocationID=" ++ id
  ++ "&LocationType=1".

(** The three hops every element of the portal goes through: the view
    page, the handoff that answers 302 with the platform cookie, and the
    resource page. *)
Definition frameSrc (id : string) : string :=
  "https://platform.itslearning.com/launch?id=" ++ id ++ "&amp;lang=en".

Definition instanceUrl (id : string) : string :=
  "https://resource.itslearning.com/LearningObject/" ++ id.

Definition platformCookies (id : string) : list string :=
  [ "ASP.NET_SessionId=plat" ++ id ++ "; path=/; HttpOnly" ].

Definition resourceCookies (id : string) : list string :=
  [ "ASP.NET_SessionId=res" ++ id ++ "; path=/"; "lang=en; path=/" ].

Definition viewAnswer (id : string) : response := page ("view" ++ id).

Definition handoffAnswer (id : string) : response :=
  answer 302 "Found" (Some (instanceUrl id)) (Some (platformCookies id)) "".

Definition resourceAnswer (id : string) (status : nat) : response :=
  answer status "" None (Some (resourceCookies id)) ("resource" ++ id).

Definition hops (id : string) (status : nat) : list (string * response) :=
  [ (portal ++ elementHref id, viewAnswer id);
    ("https://platform.itslearning.com/launch?id=" ++ id ++ "&lang=en",
     handoffAnswer id);
    (instanceUrl id, resourceAnswer id status) ].

Definition requestsOf (id : string) : list request :=
  [ viewRequest school sessionId id;
    handoffRequest (frameSrc id);
    platformRequest (instanceUrl id) (platformCookies id) ].

(** The script of the preview page of element 11. *)
Definition wopiSrc : string :=
  "https\x253a\x252f\x252fresource.itslearning.com\x252fwopi\x252ffiles\x252f11".

Definition officeUrl : string :=
  "https://office.example/wv/wordviewerframe.aspx?WOPISrc=" ++ wopiSrc
  ++ "&ui=en-US".

Definition officeScript : string :=
  "form.action = '" ++ officeUrl ++ "'; accessTokenInput.value = 'tok11'; "
  ++ "accessTokenTtlInput.value = '3600';".

Definition portalPages : list (string * response) :=
  [ (courseUrl "7", page "course7");
    (courseUrl "8", answer 500 "Internal Server Error" None None "");
    (courseUrl "9", page "course9");
    (portal ++ folderHref "100", page "folder100");
    (portal ++ folderHref "101", page "folder101");
    (portal ++ folderHref "102", answer 404 "Not Found" None None "");
    (portal ++ folderHref "103", page "folder103");
    (portal ++ folderHref "900",
     answer 503 "Service Unavailable" None None "");
    (portal ++ elementHref "13", answer 404 "Not Found" None None "") ].

Definition payloads : list (string * response) :=
  [ ("https://resource.itslearning.com/x&y", page "%PDF report");
    ("https://resource.itslearning.com/preview/11", page officeScript);
    ("https://resource.itslearning.com/wopi/files/11/contents?access_token=tok11",
     page "PK docx");
    ("https://resource.itslearning.com/file/14", page "%PDF fourteen");
    ("https://resource.itslearning.com/preview/15",
     answer 403 "Forbidden" None None "");
    ("https://resource.itslearning.com/file/16", page "%PDF sixteen") ].

Definition site : list (string * response) :=
  (portalPages ++ hops "10" 200 ++ hops "11" 200 ++ hops "12" 200
   ++ hops "14" 200 ++ hops "15" 200 ++ hops "16" 500 ++ payloads)%list.

Definition server (req : request) : option response :=
  match find (fun kv => String.eqb (fst kv) (req_url req)) site with
  | Some kv => Some (snd kv)
  | None => None
  end.

Definition titled (text : string) : element :=
  el [("id", "ctl00_PageHeader_TT")] [] text.

Definition entry (text href : string) : element :=
  el [("class", "GridTitle"); ("href", href)] ["GridTitle"] text.

Definition frame (id : string) : element :=
  el [("id", "ctl00_ContentPlaceHolder_ExtensionIframe");
      ("src", frameSrc id)] [] "".

Definition viewPage (id title : string) : string * Dom :=
  ("view" ++ id, [ titled title; frame id ]).

Definition anchor (href name : string) : element :=
  el [("id", "ctl00_ctl00_MainFormContent_DownloadLinkForViewType");
      ("href", href); ("Download", name)] [] "Download".

Definition previewFrame (src : string) : element :=
  el [("id", "ctl00_ctl00_MainFormContent_PreviewIframe_FilePreviewIframe");
      ("src", src)] [] "".

Definition anchorPage (id href name : string) : string * Dom :=
  ("resource" ++ id, [ anchor href name ]).

Definition previewPage (id src : string) : string * Dom :=
  ("resource" ++ id, [ previewFrame src ]).

Definition notes101 : element := entry "Notes" (folderHref "101").
Definition notes102 : element := entry "Notes" (folderHref "102").
Definition syllabus103 : element := entry "Syllabus" (folderHref "103").
Definition slides10 : element := entry "Slides" (elementHref "10").
Definition slides11 : element := entry "Slides" (elementHref "11").
Definition quiz12 : element := entry "Quiz" (elementHref "12").

Definition folder100 : list element := [notes101; notes102; syllabus103].
Definition folder101 : list element := [slides10; slides11; quiz12].

Definition pages : list (string * Dom) :=
  [ ("course7", [ el [("id", "link-resources"); ("href", folderHref "100")]
                     [] "Resources" ]);
    ("course9", [ el [("id", "link-resources"); ("href", folderHref "900")]
                     [] "Resources" ]);
    ("folder100", titled "Week 1: Intro" :: folder100);
    ("folder101", titled "Notes" :: folder101);
    ("folder103", [ titled "Syllabus";
                    entry "Forum" "/Discussion/forum.aspx?id=4" ]);
    viewPage "10" "report";
    viewPage "11" "Plan: Q&amp;A.docx";
    viewPage "12" "Quiz 1";
    viewPage "14" "fourteen";
    viewPage "15" "fifteen";
    viewPage "16" "sixteen";
    anchorPage "10" "/x&amp;y" "report.pdf";
    previewPage "11" "preview/11";
    ("resource12", [ el [("id", "quiz")] [] "Quiz 1" ]);
    anchorPage "14" "/file/14" "a:b&amp;c.pdf";
    previewPage "15" "preview/15";
    anchorPage "16" "/file/16" "sixteen.pdf" ].

Definition parser (body : string) : Dom :=
  match find (fun kv => String.eqb (fst kv) body) pages with
  | Some kv => snd kv
  | None => []
  end.

Definition rt : runtime :=
  {| network := server; parseFromString := parser;
     path_join := Posix.join2 |}.

Definition empty : state :=
  {| files := []; dirs := []; trace := []; pending := [] |}.

(** The folders of the portal and how deep they lie above the leaves. *)
Definition folders : list string :=
  [ folderHref "100"; folderHref "101"; folderHref "102"; folderHref "103" ].

Definition reachable (url : string) : Prop := In url folders.

Definition rank (url : string) : nat :=
  if String.eqb url (folderHref "100") then 1 else 0.

(** The state of a second run: the report is there already. *)
Definition downloaded : state :=
  {| files := [("data/C/report.pdf", "old bytes")];
     dirs := ["data"; "data/C"]; trace := []; pending := [] |}.

Definition courses : list course :=
  [ {| Title := "Math: I"; CourseId := "7" |};
    {| Title := "Physics"; CourseId := "9" |} ].

(** The login page of the portal: it answers the form of the one user
    it knows with a session cookie, and any other form with a page that
    sets no cookie. *)
Definition loginAnswer (req : loginRequest) : option response :=
  if String.eqb (login_body req)
       (login_body (loginRequestOf "demo" "ada" "s3cret"))
  then Some (answer 200 "OK" None
               (Some [ "lang=en; path=/";
                       "ASP.NET_SessionId=S1; path=/; HttpOnly" ]) "")
  else Some (page "login").

Definition environmentOf (session username password : option string)
  : environment :=
  {| SCHOOL := Some "demo"; SESSION := session;
     USERNAME := username; PASSWORD := password |}.

(** A state in which one file of the first course is there already. *)
Definition resumed : state :=
  {| files := [("data/Math_ I/Week 1_ Intro/Notes [101]/report.pdf",
                "kept")];
     dirs := [ "data"; "data/Math_ I"; "data/Math_ I/Week 1_ Intro";
               "data/Math_ I/Week 1_ Intro/Notes [101]" ];
     trace := []; pending := [] |}.

(** A second portal: its folder 200 lists, between two file entries, a
    file entry whose reference holds no element id. *)
Definition stray : element :=
  entry "Stray" "/LearningToolElement/ViewLearningToolElement.aspx".

Definition folder200 : list element := [slides10; stray; slides11].

Definition brokenServer (req : request) : option response :=
  if String.eqb (req_url req) (portal ++ folderHref "200")
  then Some (page "folder200") else None.

Definition brokenParser (body : string) : Dom :=
  if String.eqb body "folder200" then titled "Broken" :: folder200 else [].

Definition broken : runtime :=
  {| network := brokenServer; parseFromString := brokenParser;
     path_join := Posix.join2 |}.

(** A third portal: the portal of the example with two more elements
    and a folder.  The platform hop of element 17 answers a page with
    neither a download anchor nor a preview frame and sets no cookie;
    the handoff hop of element 18 answers 500 and carries no header;
    folder 300 lists element 18 before element 10. *)
Definition outageSite : list (string * response) :=
  [ (portal ++ elementHref "17", viewAnswer "17");
    ("https://platform.itslearning.com/launch?id=17&lang=en",
     handoffAnswer "17");
    (instanceUrl "17", answer 200 "OK" None None "resource17");
    (portal ++ elementHref "18", viewAnswer "18");
    ("https://platform.itslearning.com/launch?id=18&lang=en",
     answer 500 "Internal Server Error" None None "");
    (portal ++ folderHref "300", page "folder300") ].

Definition outagePages : list (string * Dom) :=
  [ viewPage "17" "External link";
    ("resource17", [ el [("id", "link")] [] "External link" ]);
    viewPage "18" "eighteen";
    ("folder300", [ titled "Outage";
                    entry "Broken" (elementHref "18");
                    slides10 ]) ].

Definition outageServer (req : request) : option response :=
  match find (fun kv => String.eqb (fst kv) (req_url req)) outageSite with
  | Some kv => Some (snd kv)
  | None => server req
  end.

Definition outageParser (body : string) : Dom :=
  match find (fun kv => String.eqb (fst kv) body) outagePages with
  | Some kv => snd kv
  | None => parser body
  end.

Definition outage : runtime :=
  {| network := outageServer; parseFromString := outageParser;
     path_join := Posix.join2 |}.

End Demo.

(* ================================================================== *)
(** * 8. Properties of the string primitives                           *)
(* ================================================================== *)

Section StringFacts.

Lemma occurs_app (c : ascii) (s t : string) :
  occurs c (s ++ t) = occurs c s || occurs c t.
Proof.
  induction s as [|a s IH]; simpl.
  - reflexivity.
  - rewrite IH. now rewrite orb_assoc.
Qed.

Lemma append_empty_r (s : string) : s ++ EmptyString = s.
Proof.
  induction s as [|a s IH]; simpl; [reflexivity | now rewrite IH].
Qed.

(** A table none of whose keys starts with the first character of [s]
    finds nothing at [s]. *)
Lemma lookupPrefix_none (table : list (string * string)) (c : ascii)
  (t : string) :
  Forall (fun kv => exists a k, fst kv = String a k /\ a <> c) table ->
  lookupPrefix table (String c t) = None.
Proof.
  induction 1 as [| [k v] rest (a & k' & Hk & Hne) _ IH]; simpl.
  - reflexivity.
  - simpl in Hk. subst k. simpl.
    destruct (ascii_dec a c) as [e | _]; [contradiction | exact IH].
Qed.

(** A pass copies a stretch of text in which no key can start. *)
Lemma replaceFrom_copy (table : list (string * string)) (lead : ascii)
  (s r : string) :
  Forall (fun kv => exists k, fst kv = String lead k) table ->
  occurs lead s = false ->
  replaceFrom table 0 (s ++ r) = s ++ replaceFrom table 0 r.
Proof.
  intros Htable. induction s as [|a s IH]; simpl; intros Hocc.
  - reflexivity.
  - apply orb_false_elim in Hocc. destruct Hocc as [Ha Hs].
    rewrite (lookupPrefix_none (table := table) (c := a)).
    + now rewrite IH.
    + eapply Forall_impl; [| exact Htable].
      intros kv [k Hk]. exists lead, k. split; [exact Hk |].
      intros ->. now rewrite Ascii.eqb_refl in Ha.
Qed.

Lemma replaceClass_clean (cls : ascii -> bool) (rep : ascii) (s : string)
  (c : ascii) :
  cls rep = false -> occurs c (replaceClass cls rep s) = true ->
  cls c = false.
Proof.
  intros Hrep. induction s as [|a s IH]; simpl; [discriminate |].
  intros H. apply orb_prop in H. destruct H as [H | H]; [| now apply IH].
  apply Ascii.eqb_eq in H. subst c.
  destruct (cls a) eqn:E; [exact Hrep | exact E].
Qed.

Lemma replaceClass_idempotent (cls : ascii -> bool) (rep : ascii)
  (s : string) :
  cls rep = false ->
  replaceClass cls rep (replaceClass cls rep s) = replaceClass cls rep s.
Proof.
  intros Hrep. induction s as [|a s IH]; simpl; [reflexivity |].
  rewrite IH. destruct (cls a) eqn:E.
  - now rewrite Hrep.
  - now rewrite E.
Qed.

Lemma isForbidden_spec (c : ascii) :
  isForbidden c = true <-> In c forbiddenChars.
Proof.
  unfold isForbidden. rewrite existsb_exists. split.
  - intros (x & Hin & Heq). apply Ascii.eqb_eq in Heq. now subst.
  - intros Hin. exists c. split; [exact Hin | apply Ascii.eqb_refl].
Qed.

Lemma Buffer_roundtrip (text : string) :
  Buffer_toString (Buffer_from text) = text.
Proof. apply string_of_list_byte_of_string. Qed.

(** Text without an ampersand holds no character reference. *)
Lemma decode_without_ampersand (s : string) :
  occurs "&"%char s = false -> decode s = s.
Proof.
  intros H. unfold decode.
  rewrite <- (append_empty_r s) at 1.
  rewrite (replaceFrom_copy (lead := "&"%char)); [| | exact H].
  - simpl. apply append_empty_r.
  - unfold namedReferences. repeat constructor; eexists; reflexivity.
Qed.

Lemma decodeString_clean (x : string) (c : ascii) :
  occurs c (decodeString x) = true -> isForbidden c = false.
Proof. apply replaceClass_clean. reflexivity. Qed.

End StringFacts.

Section ReplaceFacts.

Variables (pat : string) (c : ascii).

Let table : list (string * string) := [(pat, String c EmptyString)].

Lemma lookupPrefix_single (s : string) :
  lookupPrefix table s
  = if String.prefix pat s then Some (pat, String c EmptyString) else None.
Proof. reflexivity. Qed.

Lemma prefix_cons_neq (b a : ascii) (q s : string) :
  Ascii.eqb b a = false -> String.prefix (String b q) (String a s) = false.
Proof.
  intros H. simpl. destruct (ascii_dec b a) as [-> | _]; [| reflexivity].
  now rewrite Ascii.eqb_refl in H.
Qed.

Lemma prefix_cons_eq (a : ascii) (q s : string) :
  String.prefix (String a q) (String a s) = String.prefix q s.
Proof.
  simpl. destruct (ascii_dec a a) as [_ | n]; [reflexivity | now destruct n].
Qed.

(** A text that starts with another character does not start with [q]. *)
Lemma prefix_other_char (q s : string) :
  occurs c q = false -> q <> EmptyString ->
  String.prefix q (String c s) = false.
Proof.
  intros Hocc Hne. destruct q as [|b q]; [now destruct Hne |].
  apply prefix_cons_neq. simpl in Hocc. now apply orb_false_elim in Hocc.
Qed.

(** What a pass puts out at its start without the replacement character
    was at the start of its input. *)
Lemma replaceFrom_prefix (q t : string) :
  occurs c q = false ->
  String.prefix q (replaceFrom table 0 t) = true ->
  String.prefix q t = true.
Proof.
  revert t. induction q as [|b q IH]; intros t Hocc Hpre.
  - now destruct t.
  - destruct t as [|a t]; [discriminate Hpre |].
    cbn [replaceFrom] in Hpre. rewrite lookupPrefix_single in Hpre.
    destruct (String.prefix pat (String a t)).
    + cbn [append] in Hpre.
      rewrite prefix_other_char in Hpre; [discriminate | exact Hocc |].
      discriminate.
    + simpl in Hocc. apply orb_false_elim in Hocc. destruct Hocc as [_ Hq].
      destruct (Ascii.eqb b a) eqn:E.
      * apply Ascii.eqb_eq in E. subst a.
        rewrite prefix_cons_eq in Hpre |- *. now apply IH.
      * now rewrite (@prefix_cons_neq b a q _ E) in Hpre.
Qed.

Lemma replaceFrom_prefix_cons (q : string) (a : ascii) (t : string) :
  occurs c q = false ->
  String.prefix q (String a (replaceFrom table 0 t)) = true ->
  String.prefix q (String a t) = true.
Proof.
  intros Hocc Hpre. destruct q as [|b q]; [reflexivity |].
  simpl in Hocc. apply orb_false_elim in Hocc. destruct Hocc as [_ Hq].
  destruct (Ascii.eqb b a) eqn:E.
  - apply Ascii.eqb_eq in E. subst a.
    rewrite prefix_cons_eq in Hpre |- *. now apply replaceFrom_prefix.
  - now rewrite (@prefix_cons_neq b a q _ E) in Hpre.
Qed.

(** A text that does not hold [q] does not hold it after a pass whose
    replacement character is not in [q]. *)
Lemma replaceFrom_preserves_absence (q : string) :
  occurs c q = false -> q <> EmptyString ->
  forall s k, includes s q = false ->
              includes (replaceFrom table k s) q = false.
Proof.
  intros Hocc Hne. induction s as [|a s IH]; intros k Habs.
  - now destruct k.
  - cbn [includes] in Habs. apply orb_false_elim in Habs.
    destruct Habs as [Hhere Hlater].
    destruct k as [|k]; cbn [replaceFrom]; [| now apply IH].
    rewrite lookupPrefix_single.
    destruct (String.prefix pat (String a s)).
    + cbn [append includes]. rewrite (IH _ Hlater), orb_false_r.
      now apply prefix_other_char.
    + cbn [includes]. rewrite (IH _ Hlater), orb_false_r.
      destruct (String.prefix q (String a (replaceFrom table 0 s))) eqn:E;
        [| reflexivity].
      apply replaceFrom_prefix_cons in E; [congruence | exact Hocc].
Qed.

(** After a pass whose replacement character is not in the pattern, no
    occurrence of the pattern is left. *)
Lemma replaceFrom_complete :
  occurs c pat = false -> pat <> EmptyString ->
  forall s k, includes (replaceFrom table k s) pat = false.
Proof.
  intros Hocc Hne. induction s as [|a s IH]; intros k.
  - assert (H : replaceFrom table k EmptyString = EmptyString)
      by now destruct k.
    rewrite H. cbn [includes]. rewrite orb_false_r.
    destruct pat; [now destruct Hne | reflexivity].
  - destruct k as [|k]; cbn [replaceFrom]; [| apply IH].
    rewrite lookupPrefix_single.
    destruct (String.prefix pat (String a s)) eqn:Ehere.
    + cbn [append includes]. rewrite IH, orb_false_r.
      now apply prefix_other_char.
    + cbn [includes]. rewrite IH, orb_false_r.
      destruct (String.prefix pat (String a (replaceFrom table 0 s))) eqn:E;
        [| reflexivity].
      apply replaceFrom_prefix_cons in E; [congruence | exact Hocc].
Qed.

End ReplaceFacts.

(** The content URL of an office file holds neither escaped sequence. *)
Lemma contentUrl_unescaped (wopiSrc : string) :
  let fileContentUrl :=
    replaceAll "\x252f" "/" (replaceAll "\x253a" ":" wopiSrc) in
  includes fileContentUrl "\x253a" = false /\
  includes fileContentUrl "\x252f" = false.
Proof.
  cbv zeta. unfold replaceAll. split.
  - apply replaceFrom_preserves_absence; [reflexivity | discriminate |].
    apply replaceFrom_complete; [reflexivity | discriminate].
  - apply replaceFrom_complete; [reflexivity | discriminate].
Qed.

Lemma replaceFrom_amp_here (r : string) :
  replaceFrom [("&amp;", "&")] 0 ("&amp;" ++ r)
  = "&" ++ replaceFrom [("&amp;", "&")] 0 r.
Proof. destruct r; reflexivity. Qed.

(** Escaped ampersands between stretches of text without an ampersand
    become plain ampersands, and nothing else changes: what follows a
    decoded ampersand is not decoded with it. *)
Lemma replaceAll_amp_once (segs : list string) :
  Forall (fun s => occurs "&"%char s = false) segs ->
  replaceAll "&amp;" "&" (join "&amp;" segs) = join "&" segs.
Proof.
  unfold replaceAll, join.
  induction 1 as [| x rest Hx Hrest IH]; [reflexivity |].
  destruct rest as [| y rest].
  - simpl String.concat. rewrite <- (append_empty_r x) at 1.
    rewrite (replaceFrom_copy (lead := "&"%char)); [| | exact Hx].
    + simpl. apply append_empty_r.
    + repeat constructor. eexists; reflexivity.
  - change (String.concat "&amp;" (x :: y :: rest))
      with (x ++ "&amp;" ++ String.concat "&amp;" (y :: rest)).
    change (String.concat "&" (x :: y :: rest))
      with (x ++ "&" ++ String.concat "&" (y :: rest)).
    rewrite (replaceFrom_copy (lead := "&"%char)); [| | exact Hx].
    + now rewrite replaceFrom_amp_here, IH.
    + repeat constructor. eexists; reflexivity.
Qed.

(* ================================================================== *)
(** * 9. The name sanitizer: claims C5 and C9                          *)
(* ================================================================== *)

(** C9.  For every input the sanitizer is the replacement of the
    forbidden class by an underscore, applied to the text decoded from
    its bytes and from its character references, in that order (a
    reference to an angle bracket ends as an underscore); no character
    of the forbidden set occurs in the output; and [A/B\C:D] becomes
    [A_B_C_D]. *)
Theorem decodeString_strips_forbidden :
  (forall x,
     decodeString x
     = replaceClass isForbidden "_"%char
         (decode (Buffer_toString (Buffer_from x)))) /\
  (forall x c, In c forbiddenChars -> occurs c (decodeString x) = false) /\
  decodeString "A/B\C:D" = "A_B_C_D" /\
  decodeString "Q&amp;A &lt;1&gt;" = "Q&A _1_".
Proof.
  split; [reflexivity |]. split; [| split; reflexivity].
  intros x c Hin. apply isForbidden_spec in Hin.
  destruct (occurs c (decodeString x)) eqn:E; [| reflexivity].
  apply decodeString_clean in E. congruence.
Qed.

(** C5, as stated, fails: a doubly escaped ampersand is decoded once by
    each pass, so a second pass changes the result of the first. *)
Lemma decodeString_not_idempotent :
  decodeString "&amp;amp;" = "&amp;" /\
  decodeString (decodeString "&amp;amp;") = "&" /\
  decodeString (decodeString "&amp;amp;") <> decodeString "&amp;amp;".
Proof. repeat split; try reflexivity. discriminate. Qed.

(** C5, amended.  The sanitizer is idempotent on every input whose
    sanitized form holds no character reference any more, that is, is
    left unchanged by the decoder. *)
Theorem decodeString_idempotent_when_decoded (x : string) :
  decode (decodeString x) = decodeString x ->
  decodeString (decodeString x) = decodeString x.
Proof.
  intros Hfix. unfold decodeString at 1.
  rewrite Buffer_roundtrip. cbv zeta. rewrite Hfix.
  unfold decodeString. cbv zeta.
  apply replaceClass_idempotent. reflexivity.
Qed.

Lemma decodeString_idempotent_when_decoded_witness :
  decode (decodeString "A/B\C:D") = decodeString "A/B\C:D" /\
  decodeString (decodeString "A/B\C:D") = decodeString "A/B\C:D".
Proof.
  split; [reflexivity |].
  apply (decodeString_idempotent_when_decoded "A/B\C:D"). reflexivity.
Defined.

(* ================================================================== *)
(** * 10. The cookie header: claim C6                                  *)
(* ================================================================== *)

Section CookieFacts.

Lemma existsb_eqb_In (v : string) (set : list string) :
  existsb (String.eqb v) set = true <-> In v set.
Proof.
  rewrite existsb_exists. split.
  - intros (x & Hin & Heq). apply String.eqb_eq in Heq. now subst.
  - intros Hin. exists v. split; [exact Hin | apply String.eqb_refl].
Qed.

Lemma Set_add_In (set : list string) (v x : string) :
  In x (Set_add set v) <-> In x set \/ x = v.
Proof.
  unfold Set_add. destruct (existsb (String.eqb v) set) eqn:E.
  - apply existsb_eqb_In in E. split; [now left |].
    intros [H | ->]; assumption.
  - rewrite in_app_iff. simpl. intuition congruence.
Qed.

Lemma Set_add_NoDup (set : list string) (v : string) :
  NoDup set -> NoDup (Set_add set v).
Proof.
  intros Hnd. unfold Set_add.
  destruct (existsb (String.eqb v) set) eqn:E; [exact Hnd |].
  apply NoDup_rev in Hnd. rewrite <- (rev_involutive (set ++ [v])).
  apply NoDup_rev. rewrite rev_app_distr. simpl. constructor; [| exact Hnd].
  rewrite <- in_rev. intros Hin. apply existsb_eqb_In in Hin. congruence.
Qed.

Lemma fold_Set_add_In (arr acc : list string) (x : string) :
  In x (fold_left Set_add arr acc) <-> In x acc \/ In x arr.
Proof.
  revert acc. induction arr as [|v arr IH]; intros acc; simpl.
  - tauto.
  - rewrite IH, Set_add_In. intuition congruence.
Qed.

Lemma fold_Set_add_NoDup (arr acc : list string) :
  NoDup acc -> NoDup (fold_left Set_add arr acc).
Proof.
  revert acc. induction arr as [|v arr IH]; intros acc Hnd; simpl.
  - exact Hnd.
  - apply IH. now apply Set_add_NoDup.
Qed.

(** Pairs that are all distinct are all kept, in their order. *)
Lemma fold_Set_add_distinct (arr acc : list string) :
  NoDup (acc ++ arr) -> fold_left Set_add arr acc = (acc ++ arr)%list.
Proof.
  revert acc. induction arr as [|v arr IH]; intros acc Hnd; simpl.
  - now rewrite app_nil_r.
  - assert (Hfresh : existsb (String.eqb v) acc = false).
    { destruct (existsb (String.eqb v) acc) eqn:E; [| reflexivity].
      apply existsb_eqb_In in E. apply NoDup_remove_2 in Hnd.
      destruct Hnd. apply in_or_app. now left. }
    unfold Set_add at 2. rewrite Hfresh.
    rewrite IH; rewrite <- app_assoc; [reflexivity | exact Hnd].
Qed.

End CookieFacts.




(* ================================================================== *)
(** * 11. Running the program: laws of the monad                       *)
(* ================================================================== *)

Section MonadFacts.

Variable rt : runtime.

Lemma bind_fetch {B} (req : request) (r : response) (k : response -> M B)
  (st : state) :
  network rt req = Some r ->
  bind (fetch rt req) k st = k r (emit (Fetched req) st).
Proof. intros H. unfold bind, fetch. now rewrite H. Qed.

Lemma bind_nonNull {A B} (v : option A) (a : A) (k : A -> M B) (st : state) :
  v = Some a -> bind (nonNull v) k st = k a st.
Proof. now intros ->. Qed.

Lemma bind_existsSync {B} (path : string) (k : bool -> M B) (st : state) :
  bind (existsSync path) k st
  = k (existsAt st path) (emit (ExistsSync path) st).
Proof. reflexivity. Qed.

Lemma forEach_cons_returned {A} (body : A -> M unit) (x : A) (rest : list A)
  (st st' : state) :
  body x st = (Returned tt, st') ->
  forEach body (x :: rest) st = forEach body rest st'.
Proof. intros H. simpl. unfold bind. now rewrite H. Qed.

Lemma trace_emits (evs : list event) (st : state) :
  trace (emits evs st) = (trace st ++ evs)%list.
Proof.
  revert st. induction evs as [|ev evs IH]; intros st; simpl.
  - now rewrite app_nil_r.
  - change (trace (emits evs (emit ev st)) = (trace st ++ ev :: evs)%list).
    rewrite IH. simpl. now rewrite <- app_assoc.
Qed.

Lemma files_emits (evs : list event) (st : state) :
  files (emits evs st) = files st.
Proof.
  revert st. induction evs as [|ev evs IH]; intros st; [reflexivity |].
  change (files (emits evs (emit ev st)) = files st). now rewrite IH.
Qed.

Lemma dirs_emits (evs : list event) (st : state) :
  dirs (emits evs st) = dirs st.
Proof.
  revert st. induction evs as [|ev evs IH]; intros st; [reflexivity |].
  change (dirs (emits evs (emit ev st)) = dirs st). now rewrite IH.
Qed.

(** ** Calls that cannot run out of fuel *)

Lemma fuelFree_ret {A} (a : A) : fuelFree (ret a).
Proof. intros st. discriminate. Qed.

Lemma fuelFree_throw {A} (e : exn) : fuelFree (@throw A e).
Proof. intros st. discriminate. Qed.

Lemma fuelFree_bind {A B} (m : M A) (k : A -> M B) :
  fuelFree m -> (forall a, fuelFree (k a)) -> fuelFree (bind m k).
Proof.
  intros Hm Hk st. unfold bind. specialize (Hm st).
  destruct (m st) as [[a | e |] st']; simpl in *.
  - apply Hk.
  - discriminate.
  - contradiction.
Qed.

Lemma fuelFree_fetch (req : request) : fuelFree (fetch rt req).
Proof. intros st. unfold fetch. destruct (network rt req); discriminate. Qed.

Lemma fuelFree_nonNull {A} (v : option A) : fuelFree (nonNull v).
Proof. destruct v; [apply fuelFree_ret | apply fuelFree_throw]. Qed.

Lemma fuelFree_console (l : level) (msg : string) : fuelFree (console l msg).
Proof. intros st. discriminate. Qed.

Lemma fuelFree_if {A} (b : bool) (m m' : M A) :
  fuelFree m -> fuelFree m' -> fuelFree (if b then m else m').
Proof. now destruct b. Qed.

Lemma fuelFree_mkdirSync (path : string) : fuelFree (mkdirSync path).
Proof.
  intros st. unfold mkdirSync. destruct (existsb _ _); discriminate.
Qed.

Lemma fuelFree_writeStream (path body : string) :
  fuelFree (writeStream path body).
Proof. intros st. unfold writeStream. destruct (opens _ _); discriminate. Qed.

Lemma fuelFree_downloadFile (url cookie folderPath filename : string) :
  fuelFree (downloadFile rt url cookie folderPath filename).
Proof.
  unfold downloadFile. cbv zeta.
  apply fuelFree_bind; [intros st; discriminate | intros present].
  apply fuelFree_if; [apply fuelFree_console |].
  apply fuelFree_bind; [apply fuelFree_fetch | intros response].
  apply fuelFree_if; [apply fuelFree_console |].
  apply fuelFree_bind; [intros st; discriminate | intros folderPresent].
  apply fuelFree_bind.
  - apply fuelFree_if; [apply fuelFree_mkdirSync | apply fuelFree_ret].
  - intros _. apply fuelFree_bind; [apply fuelFree_writeStream |].
    intros _. apply fuelFree_console.
Qed.

Lemma fuelFree_downloadResourceObject
  (school sessionId elementId folderPath : string) :
  fuelFree (downloadResourceObject rt school sessionId elementId folderPath).
Proof.
  unfold downloadResourceObject. cbv zeta.
  apply fuelFree_bind; [apply fuelFree_fetch | intros viewResponse].
  apply fuelFree_if; [apply fuelFree_console |].
  apply fuelFree_bind; [apply fuelFree_nonNull | intros title].
  apply fuelFree_bind; [apply fuelFree_nonNull | intros iframe].
  apply fuelFree_bind; [apply fuelFree_nonNull | intros src].
  apply fuelFree_bind; [apply fuelFree_fetch | intros iframeResponse].
  apply fuelFree_bind; [apply fuelFree_nonNull | intros platformCookies].
  apply fuelFree_bind; [apply fuelFree_nonNull | intros instanceUrl].
  apply fuelFree_bind; [apply fuelFree_fetch | intros resourceResponse].
  apply fuelFree_bind; [apply fuelFree_nonNull | intros allCookies].
  destruct (getElementById _ "ctl00_ctl00_MainFormContent_DownloadLinkForViewType")
    as [anchor |].
  - apply fuelFree_bind; [apply fuelFree_nonNull | intros href].
    apply fuelFree_bind; [apply fuelFree_nonNull | intros name].
    apply fuelFree_downloadFile.
  - destruct (getElementById _ _) as [preview |];
      [| apply fuelFree_console].
    apply fuelFree_bind; [apply fuelFree_fetch | intros previewResponse].
    apply fuelFree_if; [apply fuelFree_console |].
    apply fuelFree_bind; [apply fuelFree_nonNull | intros officeUrl].
    apply fuelFree_downloadFile.
Qed.

(** A resolution nobody awaits returns or is rejected. *)
Lemma fuelFree_settle (t : task) : fuelFree (settle rt t).
Proof.
  intros st. unfold settle.
  pose proof (@fuelFree_downloadResourceObject (t_school t) (t_sessionId t)
                (t_elementId t) (t_folderPath t) st) as Hfuel.
  destruct (downloadResourceObject rt _ _ _ _ st) as [[[] | e |] st'];
    simpl in *; [discriminate | discriminate | contradiction].
Qed.

(** A resolution that returns settles as it ran. *)
Lemma settle_returned (t : task) (st st' : state) :
  downloadResourceObject rt (t_school t) (t_sessionId t) (t_elementId t)
                         (t_folderPath t) st
  = (Returned tt, st') ->
  settle rt t st = (Returned tt, st').
Proof. intros H. unfold settle. now rewrite H. Qed.

(** A resolution that raises is an unhandled rejection. *)
Lemma settle_thrown (t : task) (e : exn) (st st' : state) :
  downloadResourceObject rt (t_school t) (t_sessionId t) (t_elementId t)
                         (t_folderPath t) st
  = (Thrown e, st') ->
  settle rt t st = (Thrown e, emit (Unhandled e) st').
Proof. intros H. unfold settle. now rewrite H. Qed.

End MonadFacts.

(* ================================================================== *)
(** * 12. The materializer: claim C8                                   *)
(* ================================================================== *)

Section Materializer.

Variable rt : runtime.
Variables downloadUrl cookieString folderPath filename : string.

Let target : string := path_join rt folderPath filename.

(** The first effect of every materialize call is the test for the
    target file: a run without [ExistsSync] holds no such call. *)
Lemma downloadFile_first_effect (st : state) :
  exists evs,
    trace (snd (downloadFile rt downloadUrl cookieString folderPath filename st))
    = (trace st ++ ExistsSync target :: evs)%list.
Proof.
  unfold downloadFile. cbv zeta. rewrite bind_existsSync. fold target.
  destruct (existsAt st target && skipAlreadyDownloadedFiles).
  - eexists. unfold console. simpl. rewrite <- app_assoc. reflexivity.
  - unfold bind at 1. unfold fetch.
    destruct (network rt _) as [response |].
    + destruct (negb (res_ok response)).
      * eexists. unfold console. simpl. repeat rewrite <- app_assoc.
        reflexivity.
      * unfold bind, existsSync, mkdirSync, writeStream, ret, console.
        repeat match goal with
               | |- context [if ?b then _ else _] => destruct b
               end;
          eexists; simpl; repeat rewrite <- app_assoc; reflexivity.
    + eexists. simpl. rewrite <- app_assoc. reflexivity.
Qed.

Lemma length_snoc (acc : string) (c : ascii) :
  String.length (acc ++ String c EmptyString) = S (String.length acc).
Proof. induction acc as [|a acc IH]; simpl; [reflexivity | now rewrite IH]. Qed.

Lemma ancestors_self (acc s : string) : In (acc ++ s) (ancestors acc s).
Proof.
  revert acc. induction s as [|c t IH]; intros acc; simpl.
  - rewrite append_empty_r. now left.
  - apply in_or_app. right.
    replace (acc ++ String c t) with ((acc ++ String c EmptyString) ++ t);
      [apply IH |].
    clear IH. induction acc as [|a acc IHacc]; simpl; [reflexivity |].
    now rewrite IHacc.
Qed.

(** No directory [mkdirSync] makes has a longer path than the one it is
    called with. *)
Lemma ancestors_length (acc s d : string) :
  In d (ancestors acc s) ->
  String.length d <= String.length acc + String.length s.
Proof.
  revert acc. induction s as [|c t IH]; intros acc; simpl.
  - intros [<- | []]. lia.
  - intros Hin. apply in_app_or in Hin. destruct Hin as [Hin | Hin].
    + destruct (Ascii.eqb c "/" && negb (String.eqb acc EmptyString));
        [| destruct Hin].
      destruct Hin as [<- | []]. lia.
    + apply IH in Hin. rewrite length_snoc in Hin. lia.
Qed.

Lemma splitLast_length (path dir name : string) :
  splitLast path = Some (dir, name) ->
  String.length path = S (String.length dir + String.length name).
Proof.
  revert dir name. induction path as [|c t IH]; intros dir name;
    cbn [splitLast]; [discriminate |].
  destruct (splitLast t) as [[dir' name'] |].
  - intros [= <- <-]. simpl. now rewrite (IH dir' name' eq_refl).
  - destruct (Ascii.eqb c "/"); [| discriminate].
    intros [= <- <-]. reflexivity.
Qed.

(** A path right in a folder is none of the directories on the way to
    the folder. *)
Lemma child_not_ancestor (path dir name : string) :
  splitLast path = Some (dir, name) ->
  ~ In path (ancestors EmptyString dir).
Proof.
  intros Hsplit Hin. apply splitLast_length in Hsplit.
  apply ancestors_length in Hin. simpl in Hin. lia.
Qed.

Lemma existsb_eqb_false (x : string) (l : list string) :
  existsb (String.eqb x) l = false <-> ~ In x l.
Proof.
  split.
  - intros H Hin. assert (Ht : existsb (String.eqb x) l = true).
    { apply existsb_exists. exists x. split; [exact Hin |].
      apply String.eqb_refl. }
    congruence.
  - intros H. destruct (existsb (String.eqb x) l) eqn:E; [| reflexivity].
    apply existsb_exists in E. destruct E as (y & Hin & Heq).
    apply String.eqb_eq in Heq. subst y. contradiction.
Qed.

(** When no file stands where the folder or a directory above it has to
    be, [mkdirSync] goes through. *)
Lemma mkdirSync_free (st : state) :
  (forall d, In d (ancestors EmptyString folderPath) -> fileAt st d = None) ->
  existsb (isFile st) (ancestors EmptyString folderPath) = false.
Proof.
  intros Hfree.
  destruct (existsb (isFile st) (ancestors EmptyString folderPath)) eqn:E;
    [| reflexivity].
  apply existsb_exists in E. destruct E as (d & Hin & Hfile).
  unfold isFile in Hfile. now rewrite (Hfree d Hin) in Hfile.
Qed.

(** The state after a download that went through: nothing was at the
    target, no file stands where the folder or a directory above it has
    to be, the target lies right in the folder, and the payload answers
    with a success status. *)
Lemma downloadFile_success_state (name : string) (r : response) (st : state) :
  existsAt st target = false ->
  (forall d, In d (ancestors EmptyString folderPath) -> fileAt st d = None) ->
  splitLast target = Some (folderPath, name) ->
  isFileName name = true ->
  network rt (payloadRequest downloadUrl cookieString) = Some r ->
  res_ok r = true ->
  exists st',
    downloadFile rt downloadUrl cookieString folderPath filename st
    = (Returned tt, st') /\
    files st'
    = (target, res_body r)
      :: filter (fun kv => negb (String.eqb (fst kv) target)) (files st) /\
    dirs st'
    = (dirs st ++
       if existsAt st folderPath then []
       else filter (fun d => negb (existsb (String.eqb d) (dirs st)))
                   (ancestors EmptyString folderPath))%list /\
    trace st'
    = (trace st ++
       [ ExistsSync target;
         Fetched (payloadRequest downloadUrl cookieString);
         ExistsSync folderPath ] ++
       (if existsAt st folderPath then [] else [MkdirSync folderPath]) ++
       [ WriteStream target;
         Console Log ("Downloaded file to " ++ target) ])%list.
Proof.
  intros Habsent Hfree Hsplit Hname Hnet Hok.
  assert (Hnodir : ~ In target (dirs st)).
  { apply existsb_eqb_false. unfold existsAt in Habsent.
    now destruct (fileAt st target). }
  assert (Hnofile : fileAt st folderPath = None).
  { apply Hfree. apply (ancestors_self EmptyString). }
  unfold downloadFile. cbv zeta. rewrite bind_existsSync. fold target.
  rewrite Habsent. cbn [andb].
  unfold payloadRequest in Hnet. erewrite bind_fetch by exact Hnet.
  rewrite Hok. cbn [negb]. rewrite bind_existsSync.
  change (existsAt (emit _ (emit _ st)) folderPath)
    with (existsAt st folderPath).
  destruct (existsAt st folderPath) eqn:Efolder; cbn [negb].
  - assert (Hdir : existsb (String.eqb folderPath) (dirs st) = true).
    { unfold existsAt in Efolder. now rewrite Hnofile in Efolder. }
    unfold bind at 1. unfold ret. unfold bind at 1. unfold writeStream.
    unfold opens. cbn [dirs emit]. rewrite Hsplit, Hname, Hdir.
    rewrite (proj2 (existsb_eqb_false target (dirs st)) Hnodir).
    rewrite orb_true_r. cbn [negb andb].
    eexists. split; [reflexivity |]. simpl.
    repeat rewrite <- app_assoc. repeat split. now rewrite app_nil_r.
  - unfold bind at 1. unfold mkdirSync.
    assert (Hmk : existsb
                    (isFile (emit (ExistsSync folderPath)
                               (emit (Fetched
                                        {| req_url := downloadUrl;
                                           req_cookie := Some cookieString;
                                           req_redirect := follow |})
                                  (emit (ExistsSync target) st))))
                    (ancestors EmptyString folderPath) = false)
      by (apply mkdirSync_free; exact Hfree).
    rewrite Hmk. cbv zeta. unfold bind at 1. unfold writeStream.
    unfold opens. cbn [dirs emit]. rewrite Hsplit, Hname.
    set (fresh := filter (fun d => negb (existsb (String.eqb d) (dirs st)))
                         (ancestors EmptyString folderPath)).
    assert (Hfresh : In folderPath fresh).
    { apply filter_In. split; [apply (ancestors_self EmptyString) |].
      unfold existsAt in Efolder. rewrite Hnofile in Efolder.
      now rewrite Efolder. }
    assert (Hdir : existsb (String.eqb folderPath) (dirs st ++ fresh) = true).
    { apply existsb_exists. exists folderPath.
      split; [apply in_or_app; now right | apply String.eqb_refl]. }
    assert (Hnew : existsb (String.eqb target) (dirs st ++ fresh) = false).
    { apply existsb_eqb_false. intros Hin. apply in_app_or in Hin.
      destruct Hin as [Hin | Hin]; [contradiction |].
      apply filter_In in Hin. destruct Hin as [Hin _].
      eapply child_not_ancestor; eassumption. }
    rewrite Hdir, Hnew, orb_true_r. cbn [negb andb].
    eexists. split; [reflexivity |]. simpl.
    repeat rewrite <- app_assoc. repeat split.
Qed.

(** Whether or not the file can be opened, the write stream is made at
    [path.join(folderPath, filename)]: the file name enters the path as
    it was handed over. *)
Lemma downloadFile_opens_target (r : response) (st : state) :
  existsAt st target = false ->
  (forall d, In d (ancestors EmptyString folderPath) -> fileAt st d = None) ->
  network rt (payloadRequest downloadUrl cookieString) = Some r ->
  res_ok r = true ->
  In (WriteStream target)
     (trace (snd (downloadFile rt downloadUrl cookieString folderPath
                               filename st))).
Proof.
  intros Habsent Hfree Hnet Hok.
  unfold downloadFile. cbv zeta. rewrite bind_existsSync. fold target.
  rewrite Habsent. cbn [andb].
  unfold payloadRequest in Hnet. erewrite bind_fetch by exact Hnet.
  rewrite Hok. cbn [negb]. rewrite bind_existsSync.
  destruct (existsAt _ folderPath); cbn [negb].
  - unfold bind at 1. unfold ret. unfold bind at 1. unfold writeStream.
    destruct (opens _ target); simpl; repeat rewrite in_app_iff; simpl;
      auto 12.
  - unfold bind at 1. unfold mkdirSync.
    match goal with
    | |- context [existsb (isFile ?s) _] => rewrite (@mkdirSync_free s Hfree)
    end.
    cbv zeta. unfold bind at 1. unfold writeStream.
    destruct (opens _ target); simpl; repeat rewrite in_app_iff; simpl;
      auto 12.
Qed.

(** When the target lies right in the folder, the body is written
    there. *)
Lemma downloadFile_writes (name : string) (response : response) (st : state) :
  existsAt st target = false ->
  (forall d, In d (ancestors EmptyString folderPath) -> fileAt st d = None) ->
  splitLast target = Some (folderPath, name) ->
  isFileName name = true ->
  network rt (payloadRequest downloadUrl cookieString) = Some response ->
  res_ok response = true ->
  fst (downloadFile rt downloadUrl cookieString folderPath filename st)
  = Returned tt /\
  fileAt (snd (downloadFile rt downloadUrl cookieString folderPath filename st))
         target
  = Some (res_body response).
Proof.
  intros Habsent Hfree Hsplit Hname Hnet Hok.
  destruct (@downloadFile_success_state name response st
              Habsent Hfree Hsplit Hname Hnet Hok)
    as (st' & Hrun & Hf & _).
  rewrite Hrun. split; [reflexivity |].
  unfold fileAt. cbn [snd]. rewrite Hf. simpl. now rewrite String.eqb_refl.
Qed.

(** C8.  When a file is at [folderPath/fileName] (the skip-existing
    policy is the constant [true] of the program), the materializer
    returns after two effects, the test for the file and the skip line:
    no request is made that was not made before the call, and files and
    directories are as before. *)
Theorem downloadFile_skips_existing (content : string) (st : state) :
  fileAt st target = Some content ->
  exists st',
    downloadFile rt downloadUrl cookieString folderPath filename st
    = (Returned tt, st') /\
    trace st' = (trace st ++ [ ExistsSync target;
                               Console Log ("Skipping file: " ++ target) ])%list /\
    (forall req, In (Fetched req) (trace st') -> In (Fetched req) (trace st)) /\
    files st' = files st /\
    fileAt st' target = Some content /\
    dirs st' = dirs st.
Proof.
  intros Hfile.
  exists (emits [ ExistsSync target;
                  Console Log ("Skipping file: " ++ target) ] st).
  split; [| split; [| split; [| split; [| split]]]].
  - unfold downloadFile. cbv zeta. rewrite bind_existsSync. fold target.
    unfold existsAt. rewrite Hfile. reflexivity.
  - apply trace_emits.
  - intros req Hin. rewrite trace_emits in Hin. apply in_app_or in Hin.
    destruct Hin as [Hin | [H | [H | []]]]; [exact Hin | |]; discriminate.
  - apply files_emits.
  - unfold fileAt. rewrite files_emits. exact Hfile.
  - apply dirs_emits.
Qed.

End Materializer.

Lemma downloadFile_skips_existing_witness :
  fileAt Demo.downloaded (path_join Demo.rt "data/C" "report.pdf")
  = Some "old bytes" /\
  exists st',
    downloadFile Demo.rt "https://resource.itslearning.com/x&y"
                 "ASP.NET_SessionId=res10" "data/C" "report.pdf"
                 Demo.downloaded
    = (Returned tt, st') /\
    trace st' = [ ExistsSync "data/C/report.pdf";
                  Console Log "Skipping file: data/C/report.pdf" ] /\
    (forall req, In (Fetched req) (trace st') -> False) /\
    files st' = [("data/C/report.pdf", "old bytes")] /\
    fileAt st' "data/C/report.pdf" = Some "old bytes" /\
    dirs st' = ["data"; "data/C"].
Proof.
  split; [reflexivity |].
  exact (@downloadFile_skips_existing Demo.rt
           "https://resource.itslearning.com/x&y" "ASP.NET_SessionId=res10"
           "data/C" "report.pdf" "old bytes" Demo.downloaded eq_refl).
Defined.

(* ================================================================== *)
(** * 13. The resolver: claims C1, C2 and C7                           *)
(* ================================================================== *)

Section Resolution.

Variable rt : runtime.
Variables school sessionId elementId folderPath : string.
Variables (title : element) (resourceResponse : response).
Variables (allCookies : list string) (requests : list request).

Hypothesis reached :
  platformHop rt school sessionId elementId title resourceResponse
              allCookies requests.

(** The run up to the delivery branch. *)
Ltac run_hops :=
  destruct reached as
    [viewResponse iframe src iframeResponse platformCookies instanceUrl
       Hview HviewOk Htitle Hiframe Hsrc Hhandoff Hcookies Hlocation
       Hplatform HallCookies Hrequests];
  subst requests;
  unfold downloadResourceObject; cbv zeta;
  unfold viewRequest, viewUrl, handoffRequest, platformRequest in *;
  erewrite bind_fetch by exact Hview;
  rewrite HviewOk; cbn [negb];
  erewrite bind_nonNull by exact Htitle;
  erewrite bind_nonNull by exact Hiframe;
  erewrite bind_nonNull by exact Hsrc;
  erewrite bind_fetch by exact Hhandoff;
  erewrite bind_nonNull by exact Hcookies;
  erewrite bind_nonNull by exact Hlocation;
  erewrite bind_fetch by exact Hplatform;
  erewrite bind_nonNull by exact HallCookies.

Lemma resolve_direct (anchor : element) (href name : string) (st : state) :
  downloadAnchorOf rt resourceResponse = Some anchor ->
  getAttribute anchor "href" = Some href ->
  getAttribute anchor "Download" = Some name ->
  downloadResourceObject rt school sessionId elementId folderPath st
  = downloadFile rt
      ("https://resource.itslearning.com" ++ replaceAll "&amp;" "&" href)
      (resourceCookieStringOf allCookies) folderPath name
      (emits (map Fetched requests) st).
Proof.
  intros Hanchor Hhref Hname. unfold downloadAnchorOf in Hanchor.
  run_hops. rewrite Hanchor.
  erewrite bind_nonNull by exact Hhref.
  erewrite bind_nonNull by exact Hname.
  reflexivity.
Qed.

Lemma resolve_preview (preview : element) (previewResponse : response)
  (officeDownloadUrl : string) (st : state) :
  downloadAnchorOf rt resourceResponse = None ->
  filePreviewIframeOf rt resourceResponse = Some preview ->
  network rt (previewRequest (getAttribute preview "src")
                             (resourceCookieStringOf allCookies))
  = Some previewResponse ->
  res_ok previewResponse = true ->
  getOfficeFileDownloadUrl (res_body previewResponse)
  = Some officeDownloadUrl ->
  downloadResourceObject rt school sessionId elementId folderPath st
  = downloadFile rt officeDownloadUrl "" folderPath (el_textContent title)
      (emits (map Fetched
                (requests ++
                 [previewRequest (getAttribute preview "src")
                                 (resourceCookieStringOf allCookies)]))
             st).
Proof.
  intros Hanchor Hpreview Hnet Hok Hurl.
  unfold downloadAnchorOf in Hanchor. unfold filePreviewIframeOf in Hpreview.
  unfold previewRequest, resourceCookieStringOf in Hnet.
  run_hops. rewrite Hanchor, Hpreview.
  erewrite bind_fetch by exact Hnet.
  rewrite Hok. cbn [negb].
  erewrite bind_nonNull by exact Hurl.
  reflexivity.
Qed.

Lemma resolve_preview_failed (preview : element) (previewResponse : response)
  (st : state) :
  downloadAnchorOf rt resourceResponse = None ->
  filePreviewIframeOf rt resourceResponse = Some preview ->
  network rt (previewRequest (getAttribute preview "src")
                             (resourceCookieStringOf allCookies))
  = Some previewResponse ->
  res_ok previewResponse = false ->
  downloadResourceObject rt school sessionId elementId folderPath st
  = (Returned tt,
     emits (map Fetched
              (requests ++
               [previewRequest (getAttribute preview "src")
                               (resourceCookieStringOf allCookies)])
            ++ [Console Error
                  ("Failed to download file preview web page (office online): "
                   ++ res_statusText previewResponse)])%list
           st).
Proof.
  intros Hanchor Hpreview Hnet Hok.
  unfold downloadAnchorOf in Hanchor. unfold filePreviewIframeOf in Hpreview.
  unfold previewRequest, resourceCookieStringOf in Hnet.
  run_hops. rewrite Hanchor, Hpreview.
  erewrite bind_fetch by exact Hnet.
  rewrite Hok. reflexivity.
Qed.

Lemma resolve_unsupported (st : state) :
  downloadAnchorOf rt resourceResponse = None ->
  filePreviewIframeOf rt resourceResponse = None ->
  downloadResourceObject rt school sessionId elementId folderPath st
  = (Returned tt,
     emits (map Fetched requests ++
            [Console Log
               ("Resource type unsupported. No direct download link available: "
                ++ el_textContent title)])%list
           st).
Proof.
  intros Hanchor Hpreview.
  unfold downloadAnchorOf in Hanchor. unfold filePreviewIframeOf in Hpreview.
  run_hops. rewrite Hanchor, Hpreview. reflexivity.
Qed.

(** C1.  On a page of the platform hop with a preview frame and no
    download anchor, whose preview page answers with a success status
    and holds the form action, the access token and the token lifetime,
    the resolver hands to the materializer the URL
    [<contentUrl>/contents?access_token=<token>], an empty cookie header
    and the text of the title element of the view page.  [contentUrl] is
    the [WOPISrc] value of the form action after the two replacements,
    and holds neither escaped sequence any more. *)
Theorem office_download_handoff (preview : element)
  (previewResponse : response) (officeUrl accessToken accessTokenTtl
  wopiSrc : string) (st : state) :
  downloadAnchorOf rt resourceResponse = None ->
  filePreviewIframeOf rt resourceResponse = Some preview ->
  network rt (previewRequest (getAttribute preview "src")
                             (resourceCookieStringOf allCookies))
  = Some previewResponse ->
  res_ok previewResponse = true ->
  matchNonSpace "form.action = '" "';" (res_body previewResponse)
  = Some officeUrl ->
  matchNonSpace "accessTokenInput.value = '" "';" (res_body previewResponse)
  = Some accessToken ->
  matchNonSpace "accessTokenTtlInput.value = '" "';"
                (res_body previewResponse)
  = Some accessTokenTtl ->
  matchNonSpace "WOPISrc=" "&ui=" officeUrl = Some wopiSrc ->
  let contentUrl :=
    replaceAll "\x252f" "/" (replaceAll "\x253a" ":" wopiSrc) in
  downloadResourceObject rt school sessionId elementId folderPath st
  = downloadFile rt (contentUrl ++ "/contents?access_token=" ++ accessToken)
      "" folderPath (el_textContent title)
      (emits (map Fetched
                (requests ++
                 [previewRequest (getAttribute preview "src")
                                 (resourceCookieStringOf allCookies)]))
             st) /\
  includes contentUrl "\x253a" = false /\
  includes contentUrl "\x252f" = false.
Proof.
  intros Hanchor Hpreview Hnet Hok Haction Htoken Httl Hwopi contentUrl.
  split; [| apply contentUrl_unescaped].
  apply resolve_preview with (previewResponse := previewResponse);
    try assumption.
  unfold getOfficeFileDownloadUrl. now rewrite Haction, Htoken, Httl, Hwopi.
Qed.

(** C2.  On a page of the platform hop with a download anchor that has
    an [href] and a [Download] attribute, the resolver hands to the
    materializer the [Download] value as it is, the cookie header of the
    resource domain, and the resource-domain base followed by the [href]
    with its escaped ampersands replaced in one pass: between stretches
    without an ampersand each [&amp;] becomes [&], once. *)
Theorem direct_download_handoff (anchor : element) (href name : string)
  (st : state) :
  downloadAnchorOf rt resourceResponse = Some anchor ->
  getAttribute anchor "href" = Some href ->
  getAttribute anchor "Download" = Some name ->
  downloadResourceObject rt school sessionId elementId folderPath st
  = downloadFile rt
      ("https://resource.itslearning.com" ++ replaceAll "&amp;" "&" href)
      (resourceCookieStringOf allCookies) folderPath name
      (emits (map Fetched requests) st) /\
  (forall segs,
     Forall (fun s => occurs "&"%char s = false) segs ->
     href = join "&amp;" segs ->
     replaceAll "&amp;" "&" href = join "&" segs).
Proof.
  intros Hanchor Hhref Hname. split.
  - now apply resolve_direct with (anchor := anchor).
  - intros segs Hsegs ->. now apply replaceAll_amp_once.
Qed.

(** The page of the platform hop holds neither element: the line, and
    nothing else. *)
Lemma resolve_unsupported_only_logs (st : state) :
  downloadAnchorOf rt resourceResponse = None ->
  filePreviewIframeOf rt resourceResponse = None ->
  let line :=
    Console Log
      ("Resource type unsupported. No direct download link available: "
       ++ el_textContent title) in
  let st' := emits (map Fetched requests ++ [line])%list st in
  downloadResourceObject rt school sessionId elementId folderPath st
  = (Returned tt, st') /\
  settle rt (taskOf school sessionId elementId folderPath) st
  = (Returned tt, st') /\
  (forall path, In (ExistsSync path) (trace st') ->
                In (ExistsSync path) (trace st)) /\
  files st' = files st /\ dirs st' = dirs st.
Proof.
  intros Hanchor Hpreview line st'.
  assert (Hrun : downloadResourceObject rt school sessionId elementId
                   folderPath st = (Returned tt, st'))
    by now apply resolve_unsupported.
  split; [exact Hrun |]. split; [| split; [| split]].
  - unfold settle, taskOf. cbn [t_school t_sessionId t_elementId t_folderPath].
    now rewrite Hrun.
  - intros path Hin. unfold st' in Hin. rewrite trace_emits in Hin.
    apply in_app_or in Hin. destruct Hin as [Hin | Hin]; [exact Hin |].
    apply in_app_or in Hin. destruct Hin as [Hin | Hin].
    + apply in_map_iff in Hin. destruct Hin as (req & Heq & _). discriminate.
    + destruct Hin as [Heq | []]. discriminate.
  - apply files_emits.
  - apply dirs_emits.
Qed.

End Resolution.

(** C7, amended.  On a page of the platform hop with neither a download
    anchor nor a preview frame, answered with a [Set-Cookie] header, the
    resolver returns after one more effect, the line that the resource
    type is unsupported: the materializer is not called (every call of
    it starts with a test for its target file, and no such test is among
    the new effects), files and directories are as before, and the call
    does not raise, so that it settles with no rejection.  The resolver
    reads the [Set-Cookie] header of the platform answer (main.js 238)
    before it looks at the page: when the answer carries none, the
    resolution raises a [TypeError] after the three requests, whatever
    the page holds; no line is printed and nothing handles the
    rejection. *)
Theorem unsupported_resource_is_logged (rt : runtime)
  (school sessionId elementId folderPath : string) :
  (forall title resourceResponse allCookies requests st,
     platformHop rt school sessionId elementId title resourceResponse
                 allCookies requests ->
     downloadAnchorOf rt resourceResponse = None ->
     filePreviewIframeOf rt resourceResponse = None ->
     let line :=
       Console Log
         ("Resource type unsupported. No direct download link available: "
          ++ el_textContent title) in
     let st' := emits (map Fetched requests ++ [line])%list st in
     downloadResourceObject rt school sessionId elementId folderPath st
     = (Returned tt, st') /\
     settle rt (taskOf school sessionId elementId folderPath) st
     = (Returned tt, st') /\
     (forall path, In (ExistsSync path) (trace st') ->
                   In (ExistsSync path) (trace st)) /\
     files st' = files st /\ dirs st' = dirs st) /\
  (forall viewResponse title iframe src iframeResponse platformCookies
          instanceUrl resourceResponse st,
     network rt (viewRequest school sessionId elementId) = Some viewResponse ->
     res_ok viewResponse = true ->
     getElementById (parseFromString rt (res_body viewResponse))
       "ctl00_PageHeader_TT" = Some title ->
     getElementById (parseFromString rt (res_body viewResponse))
       "ctl00_ContentPlaceHolder_ExtensionIframe" = Some iframe ->
     getAttribute iframe "src" = Some src ->
     network rt (handoffRequest src) = Some iframeResponse ->
     res_setCookie iframeResponse = Some platformCookies ->
     res_location iframeResponse = Some instanceUrl ->
     network rt (platformRequest instanceUrl platformCookies)
     = Some resourceResponse ->
     res_setCookie resourceResponse = None ->
     let st' :=
       emits [ Fetched (viewRequest school sessionId elementId);
               Fetched (handoffRequest src);
               Fetched (platformRequest instanceUrl platformCookies) ] st in
     downloadResourceObject rt school sessionId elementId folderPath st
     = (Thrown TypeError, st') /\
     settle rt (taskOf school sessionId elementId folderPath) st
     = (Thrown TypeError, emit (Unhandled TypeError) st') /\
     trace st'
     = (trace st ++
        [ Fetched (viewRequest school sessionId elementId);
          Fetched (handoffRequest src);
          Fetched (platformRequest instanceUrl platformCookies) ])%list).
Proof.
  split.
  - intros title resourceResponse allCookies requests st Hhop Hanchor Hpreview.
    exact (@resolve_unsupported_only_logs rt school sessionId elementId
             folderPath title resourceResponse allCookies requests Hhop st
             Hanchor Hpreview).
  - intros viewResponse title iframe src iframeResponse platformCookies
           instanceUrl resourceResponse st Hview HviewOk Htitle Hiframe Hsrc
           Hhandoff Hcookies Hlocation Hplatform Hnone st'.
    assert (Hrun : downloadResourceObject rt school sessionId elementId
                     folderPath st = (Thrown TypeError, st')).
    { unfold downloadResourceObject. cbv zeta.
      unfold viewRequest, viewUrl, handoffRequest, platformRequest in *.
      erewrite bind_fetch by exact Hview. rewrite HviewOk. cbn [negb].
      erewrite bind_nonNull by exact Htitle.
      erewrite bind_nonNull by exact Hiframe.
      erewrite bind_nonNull by exact Hsrc.
      erewrite bind_fetch by exact Hhandoff.
      erewrite bind_nonNull by exact Hcookies.
      erewrite bind_nonNull by exact Hlocation.
      erewrite bind_fetch by exact Hplatform.
      rewrite Hnone. reflexivity. }
    split; [exact Hrun |]. split; [now apply settle_thrown |].
    unfold st'. apply trace_emits.
Qed.

(** C7, as stated, fails when the platform answer sets no cookie.  The
    page of element 17 holds neither element and is answered with a
    success status and no [Set-Cookie] header: the resolution raises at
    the lookup of that header, before the page is looked at; no line is
    printed, and the rejection is handled by nothing. *)
Lemma unsupported_page_without_cookie_raises :
  let platform17 := Demo.answer 200 "OK" None None "resource17" in
  let run17 :=
    downloadResourceObject Demo.outage "demo" "S1" "17" "data/C" Demo.empty in
  network Demo.outage
    (platformRequest (Demo.instanceUrl "17") (Demo.platformCookies "17"))
  = Some platform17 /\
  res_ok platform17 = true /\
  downloadAnchorOf Demo.outage platform17 = None /\
  filePreviewIframeOf Demo.outage platform17 = None /\
  run17 = (Thrown TypeError,
           emits (map Fetched (Demo.requestsOf "17")) Demo.empty) /\
  (forall l msg, ~ In (Console l msg) (trace (snd run17))) /\
  settle Demo.outage (taskOf "demo" "S1" "17" "data/C") Demo.empty
  = (Thrown TypeError,
     emits (map Fetched (Demo.requestsOf "17") ++ [Unhandled TypeError])%list
           Demo.empty).
Proof.
  cbv zeta. repeat (split; [reflexivity |]). split; [| reflexivity].
  intros l msg Hin. vm_compute in Hin.
  repeat (destruct Hin as [Hin | Hin]; [discriminate Hin |]). exact Hin.
Qed.

(* ================================================================== *)
(** * 14. The traversal: claims C3 and C4                              *)
(* ================================================================== *)

Section Traversal.

Variable rt : runtime.
Variables school sessionId : string.

(** The recursive call as the loop of a folder at depth [fuel] sees it. *)
Let recur (fuel : nat) : string -> string -> bool -> M unit :=
  fun url path flag =>
    downloadResourceFolder rt fuel school url sessionId path flag.

Lemma numberOfSameName_count_occ (names : list string) (entry : element) :
  numberOfSameName names entry
  = count_occ string_dec names (el_textContent entry).
Proof.
  unfold numberOfSameName. induction names as [|n names IH]; simpl.
  - reflexivity.
  - destruct (String.eqb_spec n (el_textContent entry)) as [Heq | Hne];
      destruct (string_dec n (el_textContent entry)) as [Heq' | Hne'];
      simpl; congruence.
Qed.

Lemma shouldAppendId_spec (names : list string) (entry : element) :
  shouldAppendId names entry = true
  <-> 1 < count_occ string_dec names (el_textContent entry).
Proof.
  unfold shouldAppendId. rewrite numberOfSameName_count_occ.
  apply Nat.ltb_lt.
Qed.

(** A folder whose page answers with a non-success status: the request,
    the error line, and the call returns. *)
Lemma folder_fetch_failed (fuel : nat) (folderUrl parentFolderPath : string)
  (appendId : bool) (r : response) (st : state) :
  network rt (folderRequest school sessionId folderUrl) = Some r ->
  res_ok r = false ->
  downloadResourceFolder rt (S fuel) school folderUrl sessionId
                         parentFolderPath appendId st
  = (Returned tt,
     emits [ Fetched (folderRequest school sessionId folderUrl);
             Console Error ("Failed to fetch web content for folder at "
                            ++ absoluteFolderUrl school folderUrl) ] st).
Proof.
  intros Hnet Hok. unfold folderRequest in Hnet.
  cbn [downloadResourceFolder]. cbv zeta.
  erewrite bind_fetch by exact Hnet. now rewrite Hok.
Qed.

(** A folder whose page answers with a success status and holds its
    title: the loop over its entries runs under the path made of the
    parent path and the name of the folder. *)
Lemma folder_page_entries (fuel : nat) (folderUrl parentFolderPath : string)
  (appendId : bool) (r : response) (title : element) (folderName : string)
  (st : state) :
  network rt (folderRequest school sessionId folderUrl) = Some r ->
  res_ok r = true ->
  getElementById (parseFromString rt (res_body r)) "ctl00_PageHeader_TT"
  = Some title ->
  folderNameOf (el_textContent title) (absoluteFolderUrl school folderUrl)
               appendId
  = Some folderName ->
  let folderEntries :=
    getElementsByClassName (parseFromString rt (res_body r)) "GridTitle" in
  downloadResourceFolder rt (S fuel) school folderUrl sessionId
                         parentFolderPath appendId st
  = forEach (folderEntry (recur fuel) school sessionId
               (parentFolderPath ++ "/" ++ folderName)
               (map el_textContent folderEntries))
            folderEntries
            (emit (Fetched (folderRequest school sessionId folderUrl)) st).
Proof.
  intros Hnet Hok Htitle Hname. unfold folderRequest in Hnet.
  cbn [downloadResourceFolder]. cbv zeta.
  erewrite bind_fetch by exact Hnet. rewrite Hok. cbn [negb].
  erewrite bind_nonNull by exact Htitle.
  erewrite bind_nonNull by exact Hname.
  reflexivity.
Qed.

(** A course whose content page answers with a success status and holds
    the resources link: its root folder is traversed under the
    sanitized course title, and the list goes on when that call
    returns. *)
Lemma course_page_root (fuel : nat) (c : course) (rest : list course)
  (r : response) (anchor : element) (url : string) (st : state) :
  network rt (courseRequest school sessionId (CourseId c)) = Some r ->
  res_ok r = true ->
  getElementById (parseFromString rt (res_body r)) "link-resources"
  = Some anchor ->
  getAttribute anchor "href" = Some url ->
  downloadResourcesOfCourses rt fuel school sessionId (c :: rest) st
  = bind (downloadResourceFolder rt fuel school url sessionId
            (path_join rt downloadLocation (decodeString (Title c))) false)
         (fun _ => downloadResourcesOfCourses rt fuel school sessionId rest)
         (emit (Fetched (courseRequest school sessionId (CourseId c))) st).
Proof.
  intros Hnet Hok Hanchor Hhref. unfold courseRequest in Hnet.
  cbn [downloadResourcesOfCourses]. cbv zeta.
  erewrite bind_fetch by exact Hnet. rewrite Hok. cbn [negb].
  erewrite bind_nonNull by exact Hanchor.
  erewrite bind_nonNull by exact Hhref.
  reflexivity.
Qed.

(** A course whose content page answers with a non-success status: the
    error line, and the call returns without visiting the courses that
    follow (the [return] of main.js 105 is inside the loop). *)
Remark course_page_failure_ends_the_list (fuel : nat) (c : course)
  (rest : list course) (r : response) (st : state) :
  network rt (courseRequest school sessionId (CourseId c)) = Some r ->
  res_ok r = false ->
  downloadResourcesOfCourses rt fuel school sessionId (c :: rest) st
  = (Returned tt,
     emits [ Fetched (courseRequest school sessionId (CourseId c));
             Console Error ("Failed to fetch web content for course "
                            ++ Title c) ] st).
Proof.
  intros Hnet Hok. unfold courseRequest in Hnet.
  cbn [downloadResourcesOfCourses]. cbv zeta.
  erewrite bind_fetch by exact Hnet. now rewrite Hok.
Qed.

(** The view hop answers with a non-success status. *)
Lemma view_fetch_failed (elementId folderPath : string) (r : response)
  (st : state) :
  network rt (viewRequest school sessionId elementId) = Some r ->
  res_ok r = false ->
  downloadResourceObject rt school sessionId elementId folderPath st
  = (Returned tt,
     emits [ Fetched (viewRequest school sessionId elementId);
             Console Error
               ("Failed to fetch web page for resource object: "
                ++ res_statusText r ++ " URL: "
                ++ viewUrl school elementId) ] st).
Proof.
  intros Hnet Hok. unfold viewRequest, viewUrl in Hnet.
  unfold downloadResourceObject. cbv zeta.
  erewrite bind_fetch by exact Hnet. now rewrite Hok.
Qed.

Lemma folder_entry_dispatch (names : list string) (entry : element)
  (url : string) :
  getAttribute entry "href" = Some url ->
  startsWith url "/Folder" = true ->
  entryDispatch names entry = Traverse url (shouldAppendId names entry).
Proof. intros Hhref Hfolder. unfold entryDispatch. now rewrite Hhref, Hfolder. Qed.

Lemma file_entry_dispatch (names : list string) (entry : element)
  (url elementId : string) :
  getAttribute entry "href" = Some url ->
  startsWith url "/Folder" = false ->
  startsWith url "/LearningToolElement" = true ->
  matchDigits "LearningToolElementId=" url = Some elementId ->
  entryDispatch names entry = Resolve elementId.
Proof.
  intros Hhref Hfolder Hfile Hid. unfold entryDispatch.
  now rewrite Hhref, Hfolder, Hfile, Hid.
Qed.

End Traversal.

Section Containment.

Variable rt : runtime.
Variables school sessionId : string.
Variable reachable : string -> Prop.
Variable rank : string -> nat.

Hypothesis served :
  forall url, reachable url ->
              folderServed rt school sessionId reachable rank url.

Lemma forEach_returns {A} (body : A -> M unit) (l : list A) :
  (forall x, In x l -> forall st, exists st', body x st = (Returned tt, st')) ->
  forall st, exists st', forEach body l st = (Returned tt, st').
Proof.
  induction l as [|x l IH]; intros Hbody st.
  - now exists st.
  - destruct (Hbody x (or_introl eq_refl) st) as [st1 Hx].
    destruct (IH (fun y Hy => Hbody y (or_intror Hy)) st1) as [st2 Hl].
    exists st2. rewrite forEach_cons_returned with (st' := st1); assumption.
Qed.

(** On such a portal the traversal of a folder returns, whatever the
    statuses the pages below it answer with, once the fuel exceeds the
    depth of the folder. *)
Lemma traversal_completes (fuel : nat) :
  forall url parentFolderPath appendId st,
    reachable url -> rank url < fuel ->
    (appendId = true ->
     matchDigits "FolderID=" (absoluteFolderUrl school url) <> None) ->
    exists st',
      downloadResourceFolder rt fuel school url sessionId parentFolderPath
                             appendId st
      = (Returned tt, st').
Proof.
  induction fuel as [|fuel IH];
    intros url parentFolderPath appendId st Hreach Hrank Hid; [lia |].
  destruct (served Hreach) as (r & Hnet & Hpage).
  destruct (res_ok r) eqn:Hok.
  - destruct (Hpage eq_refl) as [[title Htitle] Hentries].
    assert (Hname : exists folderName,
               folderNameOf (el_textContent title)
                            (absoluteFolderUrl school url) appendId
               = Some folderName).
    { unfold folderNameOf. destruct appendId; [| eauto].
      destruct (matchDigits "FolderID=" (absoluteFolderUrl school url));
        [eauto | now destruct (Hid eq_refl)]. }
    destruct Hname as [folderName Hname].
    rewrite folder_page_entries
      with (r := r) (title := title) (folderName := folderName)
      by assumption.
    apply forEach_returns. intros entry Hin st0.
    rewrite Forall_forall in Hentries. specialize (Hentries entry Hin).
    unfold folderEntry.
    destruct (entryDispatch _ entry) as [url' flag | elementId | url' |].
    + destruct Hentries as (Hreach' & Hrank' & Hid').
      apply IH; [exact Hreach' | lia | exact Hid'].
    + eexists. reflexivity.
    + eexists. reflexivity.
    + contradiction.
  - eexists. now apply folder_fetch_failed with (r := r).
Qed.

(** A resolution in flight that is rejected, whatever the state it runs
    in, ends the run: the resolutions in flight do not all settle. *)
Lemma settlePending_rejected (t : task) (st : state) :
  In t (pending st) ->
  (forall st0, exists e, fst (settle rt t st0) = Thrown e) ->
  exists e, fst (settlePending rt st) = Thrown e.
Proof.
  intros Hin Hrej. unfold settlePending. revert Hin.
  generalize {| files := files st; dirs := dirs st; trace := trace st;
                pending := [] |}.
  generalize (pending st) as l.
  induction l as [|x l IH]; intros st0 Hin; [destruct Hin |].
  cbn [forEach]. unfold bind.
  pose proof (@fuelFree_settle rt x st0) as Hfuel.
  destruct (settle rt x st0) as [[[] | e |] st1] eqn:E; simpl in Hfuel.
  - destruct Hin as [-> | Hin]; [| now apply IH].
    destruct (Hrej st0) as [e He]. rewrite E in He. discriminate He.
  - now exists e.
  - contradiction.
Qed.

End Containment.





(* ================================================================== *)
(** * 15. File names and directory names: claim C10                    *)
(* ================================================================== *)

Section Names.

Lemma takeWhile_all (p : ascii -> bool) (s : string) (c : ascii) :
  occurs c (takeWhile p s) = true -> p c = true.
Proof.
  induction s as [|a s IH]; simpl; [discriminate |].
  destruct (p a) eqn:E; simpl; [| discriminate].
  intros H. apply orb_prop in H. destruct H as [H | H]; [| now apply IH].
  apply Ascii.eqb_eq in H. now subst.
Qed.

Lemma matchDigits_digits (pre s d : string) (c : ascii) :
  matchDigits pre s = Some d -> occurs c d = true -> isDigit c = true.
Proof.
  induction s as [|a s IH]; cbn [matchDigits]; unfold digitsHere.
  - destruct (String.prefix pre EmptyString); [| discriminate].
    destruct (takeWhile isDigit _) eqn:E; [discriminate |].
    intros [= <-] H. rewrite <- E in H. now apply takeWhile_all in H.
  - destruct (String.prefix pre (String a s)).
    + destruct (takeWhile isDigit _) eqn:E; [exact IH |].
      intros [= <-] H. rewrite <- E in H. now apply takeWhile_all in H.
    + exact IH.
Qed.

Lemma forbidden_not_digit (c : ascii) :
  In c forbiddenChars -> isDigit c = false.
Proof.
  unfold forbiddenChars. simpl.
  intros H. repeat (destruct H as [<- | H]; [reflexivity |]). destruct H.
Qed.

Lemma forbidden_not_bracket (c : ascii) :
  In c forbiddenChars -> occurs c " [" = false /\ occurs c "]" = false.
Proof.
  unfold forbiddenChars. simpl In.
  intros H.
  repeat (destruct H as [<- | H]; [split; reflexivity |]). destruct H.
Qed.

(** The name of the local directory of a folder holds no forbidden
    character. *)
Lemma folderNameOf_clean (rawFolderName folderUrl : string) (appendId : bool)
  (folderName : string) (c : ascii) :
  folderNameOf rawFolderName folderUrl appendId = Some folderName ->
  In c forbiddenChars -> occurs c folderName = false.
Proof.
  intros Hname Hin. unfold folderNameOf in Hname. cbv zeta in Hname.
  assert (Hclean : occurs c (decodeString rawFolderName) = false).
  { destruct (occurs c (decodeString rawFolderName)) eqn:E; [| reflexivity].
    apply decodeString_clean in E. apply isForbidden_spec in Hin. congruence. }
  destruct appendId.
  - destruct (matchDigits "FolderID=" folderUrl) as [folderId |] eqn:Eid;
      [| discriminate].
    injection Hname as <-. rewrite occurs_app, Hclean. cbn [orb].
    change (occurs c (" [" ++ folderId ++ "]") = false).
    rewrite !occurs_app.
    destruct (forbidden_not_bracket Hin) as [Hopen Hclose].
    rewrite Hopen, Hclose, orb_false_r. cbn [orb].
    destruct (occurs c folderId) eqn:E; [| reflexivity].
    apply (@matchDigits_digits _ _ _ _ Eid) in E.
    rewrite (forbidden_not_digit Hin) in E. discriminate.
  - injection Hname as <-. exact Hclean.
Qed.

End Names.

(** C10.  The file name the materializer receives is not sanitized: it
    is the [Download] attribute as written in the direct branch and the
    text of the title element of the view page in the preview branch,
    and the materializer makes its write stream at
    [path.join(folderPath, filename)]; when that path lies right in the
    folder the body is written there.  So a resolution can write a file
    whose name holds a colon and an undecoded character reference.  The name of the directory of a
    folder and the name of the directory of a course come out of the
    sanitizer and hold no forbidden character. *)
Theorem file_names_are_not_sanitized :
  (* the direct branch *)
  (forall rt school sessionId elementId folderPath title resourceResponse
          allCookies requests anchor href name st,
     platformHop rt school sessionId elementId title resourceResponse
                 allCookies requests ->
     downloadAnchorOf rt resourceResponse = Some anchor ->
     getAttribute anchor "href" = Some href ->
     getAttribute anchor "Download" = Some name ->
     exists url cookie st',
       downloadResourceObject rt school sessionId elementId folderPath st
       = downloadFile rt url cookie folderPath name st') /\
  (* the preview branch *)
  (forall rt school sessionId elementId folderPath title resourceResponse
          allCookies requests preview previewResponse url st,
     platformHop rt school sessionId elementId title resourceResponse
                 allCookies requests ->
     downloadAnchorOf rt resourceResponse = None ->
     filePreviewIframeOf rt resourceResponse = Some preview ->
     network rt (previewRequest (getAttribute preview "src")
                                (resourceCookieStringOf allCookies))
     = Some previewResponse ->
     res_ok previewResponse = true ->
     getOfficeFileDownloadUrl (res_body previewResponse) = Some url ->
     exists st',
       downloadResourceObject rt school sessionId elementId folderPath st
       = downloadFile rt url "" folderPath (el_textContent title) st') /\
  (* the materializer *)
  (forall rt url cookie folderPath filename r st,
     let target := path_join rt folderPath filename in
     let st' := snd (downloadFile rt url cookie folderPath filename st) in
     existsAt st target = false ->
     (forall d, In d (ancestors EmptyString folderPath) ->
                fileAt st d = None) ->
     network rt (payloadRequest url cookie) = Some r ->
     res_ok r = true ->
     In (WriteStream target) (trace st') /\
     (forall name,
        splitLast target = Some (folderPath, name) ->
        isFileName name = true ->
        fileAt st' target = Some (res_body r))) /\
  (* two files the portal of the example makes the program write *)
  (files (snd (downloadResourceObject Demo.rt "demo" "S1" "14" "data/C"
                 Demo.empty))
   = [("data/C/a:b&amp;c.pdf", "%PDF fourteen")] /\
   decodeString "a:b&amp;c.pdf" = "a_b&c.pdf" /\
   files (snd (downloadResourceObject Demo.rt "demo" "S1" "11" "data/C"
                 Demo.empty))
   = [("data/C/Plan: Q&amp;A.docx", "PK docx")] /\
   decodeString "Plan: Q&amp;A.docx" = "Plan_ Q&A.docx") /\
  (* the directory of a folder *)
  (forall rawFolderName folderUrl appendId folderName c,
     folderNameOf rawFolderName folderUrl appendId = Some folderName ->
     In c forbiddenChars -> occurs c folderName = false) /\
  (forall rt school sessionId fuel folderUrl parentFolderPath appendId r
          title folderName st,
     network rt (folderRequest school sessionId folderUrl) = Some r ->
     res_ok r = true ->
     getElementById (parseFromString rt (res_body r)) "ctl00_PageHeader_TT"
     = Some title ->
     folderNameOf (el_textContent title)
                  (absoluteFolderUrl school folderUrl) appendId
     = Some folderName ->
     let folderEntries :=
       getElementsByClassName (parseFromString rt (res_body r)) "GridTitle" in
     downloadResourceFolder rt (S fuel) school folderUrl sessionId
                            parentFolderPath appendId st
     = forEach
         (folderEntry
            (fun url path flag =>
               downloadResourceFolder rt fuel school url sessionId path flag)
            school sessionId (parentFolderPath ++ "/" ++ folderName)
            (map el_textContent folderEntries))
         folderEntries
         (emit (Fetched (folderRequest school sessionId folderUrl)) st)) /\
  (* the directory of a course *)
  (forall rt school sessionId fuel c rest r anchor url st,
     network rt (courseRequest school sessionId (CourseId c)) = Some r ->
     res_ok r = true ->
     getElementById (parseFromString rt (res_body r)) "link-resources"
     = Some anchor ->
     getAttribute anchor "href" = Some url ->
     (forall ch, In ch forbiddenChars ->
                 occurs ch (decodeString (Title c)) = false) /\
     downloadResourcesOfCourses rt fuel school sessionId (c :: rest) st
     = bind (downloadResourceFolder rt fuel school url sessionId
               (path_join rt downloadLocation (decodeString (Title c)))
               false)
            (fun _ => downloadResourcesOfCourses rt fuel school sessionId rest)
            (emit (Fetched (courseRequest school sessionId (CourseId c))) st)).
Proof.
  split; [| split; [| split; [| split; [| split; [| split]]]]].
  - intros. do 3 eexists. eapply resolve_direct; eassumption.
  - intros. eexists. eapply resolve_preview; eassumption.
  - intros rt url cookie folderPath filename r st target st'
           Habsent Hfree Hnet Hok.
    split; [now apply downloadFile_opens_target with (r := r) |].
    intros name Hsplit Hname.
    exact (proj2 (@downloadFile_writes rt url cookie folderPath filename
                    name r st Habsent Hfree Hsplit Hname Hnet Hok)).
  - repeat split; reflexivity.
  - intros. eapply folderNameOf_clean; eassumption.
  - intros. now apply folder_page_entries with (title := title).
  - intros rt school sessionId fuel c rest r anchor url st
           Hnet Hok Hanchor Hhref. split.
    + intros ch Hin.
      destruct (occurs ch (decodeString (Title c))) eqn:E; [| reflexivity].
      apply decodeString_clean in E. apply isForbidden_spec in Hin. congruence.
    + now apply course_page_root with (r := r) (anchor := anchor).
Qed.

(** A name with a separator in it is handed over as it is too: the
    write stream is made in a directory nobody has made, the file is not
    written, and the error of the stream ends the run. *)
Remark raw_name_with_separator_is_not_written :
  let run :=
    downloadFile Demo.rt "https://resource.itslearning.com/x&y"
                 "ASP.NET_SessionId=res10" "data/C" "sub/x.pdf" Demo.empty in
  fst run = Thrown SystemError /\
  files (snd run) = [] /\
  dirs (snd run) = ["data"; "data/C"] /\
  In (WriteStream "data/C/sub/x.pdf") (trace (snd run)).
Proof.
  cbv zeta. split; [reflexivity |]. split; [reflexivity |].
  split; [reflexivity |]. vm_compute. tauto.
Qed.

(* ================================================================== *)
(** * 16. The statements at work on the portal of the example          *)
(* ================================================================== *)

(** Every element of the example reaches the page of its platform hop. *)
Ltac demo_hop id :=
  apply PlatformHop with
    (viewResponse := Demo.viewAnswer id) (iframe := Demo.frame id)
    (src := Demo.frameSrc id) (iframeResponse := Demo.handoffAnswer id)
    (platformCookies := Demo.platformCookies id)
    (instanceUrl := Demo.instanceUrl id);
  reflexivity.

Lemma decodeString_strips_forbidden_witness :
  In ":"%char forbiddenChars /\
  occurs ":"%char (decodeString "A/B\C:D") = false.
Proof.
  split; [simpl; tauto |].
  apply (proj1 (proj2 decodeString_strips_forbidden) "A/B\C:D" ":"%char).
  simpl; tauto.
Defined.

Lemma direct_download_handoff_witness :
  platformHop Demo.rt "demo" "S1" "10" (Demo.titled "report")
              (Demo.resourceAnswer "10" 200) (Demo.resourceCookies "10")
              (Demo.requestsOf "10") /\
  getAttribute (Demo.anchor "/x&amp;y" "report.pdf") "href"
  = Some "/x&amp;y" /\
  getAttribute (Demo.anchor "/x&amp;y" "report.pdf") "Download"
  = Some "report.pdf" /\
  downloadResourceObject Demo.rt "demo" "S1" "10" "data/C" Demo.empty
  = downloadFile Demo.rt "https://resource.itslearning.com/x&y"
      "ASP.NET_SessionId=res10" "data/C" "report.pdf"
      (emits (map Fetched (Demo.requestsOf "10")) Demo.empty) /\
  replaceAll "&amp;" "&" "/x&amp;y" = "/x&y" /\
  replaceAll "&amp;" "&" "/x&amp;amp;y" = "/x&amp;y".
Proof.
  assert (Hhop : platformHop Demo.rt "demo" "S1" "10" (Demo.titled "report")
                   (Demo.resourceAnswer "10" 200) (Demo.resourceCookies "10")
                   (Demo.requestsOf "10")) by demo_hop "10".
  split; [exact Hhop |]. split; [reflexivity |]. split; [reflexivity |].
  destruct (@direct_download_handoff Demo.rt "demo" "S1" "10" "data/C"
              _ _ _ _ Hhop (Demo.anchor "/x&amp;y" "report.pdf")
              "/x&amp;y" "report.pdf" Demo.empty eq_refl eq_refl eq_refl)
    as [Hrun Honce].
  split; [exact Hrun |]. split.
  - apply (Honce ["/x"; "y"]); [repeat constructor | reflexivity].
  - apply (replaceAll_amp_once (segs := ["/x"; "amp;y"])). repeat constructor.
Defined.

Lemma office_download_handoff_witness :
  platformHop Demo.rt "demo" "S1" "11" (Demo.titled "Plan: Q&amp;A.docx")
              (Demo.resourceAnswer "11" 200) (Demo.resourceCookies "11")
              (Demo.requestsOf "11") /\
  matchNonSpace "WOPISrc=" "&ui=" Demo.officeUrl = Some Demo.wopiSrc /\
  downloadResourceObject Demo.rt "demo" "S1" "11" "data/C" Demo.empty
  = downloadFile Demo.rt
      "https://resource.itslearning.com/wopi/files/11/contents?access_token=tok11"
      "" "data/C" "Plan: Q&amp;A.docx"
      (emits (map Fetched
                (Demo.requestsOf "11" ++
                 [previewRequest (Some "preview/11")
                                 "ASP.NET_SessionId=res11"]))
             Demo.empty).
Proof.
  assert (Hhop : platformHop Demo.rt "demo" "S1" "11"
                   (Demo.titled "Plan: Q&amp;A.docx")
                   (Demo.resourceAnswer "11" 200) (Demo.resourceCookies "11")
                   (Demo.requestsOf "11")) by demo_hop "11".
  split; [exact Hhop |]. split; [reflexivity |].
  exact (proj1 (@office_download_handoff Demo.rt "demo" "S1" "11" "data/C"
                  _ _ _ _ Hhop (Demo.previewFrame "preview/11")
                  (Demo.page Demo.officeScript) Demo.officeUrl "tok11" "3600"
                  Demo.wopiSrc Demo.empty
                  eq_refl eq_refl eq_refl eq_refl eq_refl eq_refl eq_refl
                  eq_refl)).
Defined.

Lemma unsupported_resource_is_logged_witness :
  platformHop Demo.rt "demo" "S1" "12" (Demo.titled "Quiz 1")
              (Demo.resourceAnswer "12" 200) (Demo.resourceCookies "12")
              (Demo.requestsOf "12") /\
  downloadAnchorOf Demo.rt (Demo.resourceAnswer "12" 200) = None /\
  filePreviewIframeOf Demo.rt (Demo.resourceAnswer "12" 200) = None /\
  downloadResourceObject Demo.rt "demo" "S1" "12" "data/C" Demo.empty
  = (Returned tt,
     emits (map Fetched (Demo.requestsOf "12") ++
            [Console Log
               "Resource type unsupported. No direct download link available: Quiz 1"])%list
           Demo.empty) /\
  (* element 17: the same kind of page, answered without a cookie *)
  res_setCookie (Demo.answer 200 "OK" None None "resource17") = None /\
  downloadResourceObject Demo.outage "demo" "S1" "17" "data/C" Demo.empty
  = (Thrown TypeError,
     emits (map Fetched (Demo.requestsOf "17")) Demo.empty).
Proof.
  assert (Hhop : platformHop Demo.rt "demo" "S1" "12" (Demo.titled "Quiz 1")
                   (Demo.resourceAnswer "12" 200) (Demo.resourceCookies "12")
                   (Demo.requestsOf "12")) by demo_hop "12".
  split; [exact Hhop |]. split; [reflexivity |]. split; [reflexivity |].
  split.
  - exact (proj1 (proj1 (unsupported_resource_is_logged Demo.rt "demo" "S1"
                           "12" "data/C")
                    _ _ _ _ Demo.empty Hhop eq_refl eq_refl)).
  - split; [reflexivity |].
    exact (proj1 (proj2 (unsupported_resource_is_logged Demo.outage "demo"
                           "S1" "17" "data/C")
                    (Demo.viewAnswer "17") (Demo.titled "External link")
                    (Demo.frame "17") (Demo.frameSrc "17")
                    (Demo.handoffAnswer "17") (Demo.platformCookies "17")
                    (Demo.instanceUrl "17")
                    (Demo.answer 200 "OK" None None "resource17") Demo.empty
                    eq_refl eq_refl eq_refl eq_refl eq_refl eq_refl eq_refl
                    eq_refl eq_refl eq_refl)).
Defined.


(** The portal of the example answers the pages of its folders. *)
Lemma Demo_served (url : string) :
  Demo.reachable url ->
  folderServed Demo.rt "demo" "S1" Demo.reachable Demo.rank url.
Proof.
  unfold Demo.reachable, Demo.folders. simpl In.
  intros [<- | [<- | [<- | [<- | []]]]]; eexists; (split; [reflexivity |]);
    try discriminate; intros _; cbv zeta; (split; [eexists; reflexivity |]).
  - repeat constructor; try discriminate;
      unfold Demo.reachable; simpl; tauto.
  - repeat constructor.
  - repeat constructor.
Qed.


Lemma file_names_are_not_sanitized_witness :
  platformHop Demo.rt "demo" "S1" "14" (Demo.titled "fourteen")
              (Demo.resourceAnswer "14" 200) (Demo.resourceCookies "14")
              (Demo.requestsOf "14") /\
  (exists url cookie st',
     downloadResourceObject Demo.rt "demo" "S1" "14" "data/C" Demo.empty
     = downloadFile Demo.rt url cookie "data/C" "a:b&amp;c.pdf" st') /\
  fileAt (snd (downloadFile Demo.rt "https://resource.itslearning.com/file/14"
                 "ASP.NET_SessionId=res14" "data/C" "a:b&amp;c.pdf"
                 Demo.empty))
         "data/C/a:b&amp;c.pdf"
  = Some "%PDF fourteen" /\
  occurs ":"%char "Week 1_ Intro [100]" = false.
Proof.
  assert (Hhop : platformHop Demo.rt "demo" "S1" "14" (Demo.titled "fourteen")
                   (Demo.resourceAnswer "14" 200) (Demo.resourceCookies "14")
                   (Demo.requestsOf "14")) by demo_hop "14".
  destruct file_names_are_not_sanitized
    as (Hdirect & _ & Hwrite & _ & Hfolder & _).
  split; [exact Hhop |]. split; [| split].
  - exact (Hdirect Demo.rt "demo" "S1" "14" "data/C" _ _ _ _
             (Demo.anchor "/file/14" "a:b&amp;c.pdf") "/file/14"
             "a:b&amp;c.pdf" Demo.empty Hhop eq_refl eq_refl eq_refl).
  - apply (proj2 (Hwrite Demo.rt "https://resource.itslearning.com/file/14"
                    "ASP.NET_SessionId=res14" "data/C" "a:b&amp;c.pdf"
                    (Demo.page "%PDF fourteen") Demo.empty
                    eq_refl (fun d _ => eq_refl) eq_refl eq_refl))
      with (name := "a:b&amp;c.pdf"); reflexivity.
  - apply (Hfolder "Week 1: Intro"
             "https://demo.itslearning.com/Folder/processfolder.aspx?FolderID=100"
             true "Week 1_ Intro [100]" ":"%char); [reflexivity |].
    simpl; tauto.
Defined.

(* ================================================================== *)
(** * 17. Further properties: what the expressions capture             *)
(* ================================================================== *)

Section CaptureFacts.

Lemma prefix_append (p s : string) : String.prefix p (p ++ s) = true.
Proof.
  induction p as [|a p IH]; simpl.
  - now destruct s.
  - destruct (ascii_dec a a) as [_ | n]; [exact IH | now destruct n].
Qed.

Lemma prefix_drop (p s : string) :
  String.prefix p s = true -> p ++ drop (String.length p) s = s.
Proof.
  revert s. induction p as [|a p IH]; intros s H; [reflexivity |].
  destruct s as [|b s]; [discriminate H |]. simpl in H.
  destruct (ascii_dec a b) as [<- | _]; [| discriminate H].
  simpl. now rewrite IH.
Qed.

Lemma drop_append (p s : string) : drop (String.length p) (p ++ s) = s.
Proof. induction p as [|a p IH]; [reflexivity | exact IH]. Qed.

Lemma substring_drop (k : nat) (s : string) :
  String.substring 0 k s ++ drop k s = s.
Proof.
  revert s. induction k as [|k IH]; intros s.
  - now destruct s.
  - destruct s as [|a s]; [reflexivity |]. simpl. now rewrite IH.
Qed.

Lemma substring_length (k : nat) (s : string) :
  k <= String.length s -> String.length (String.substring 0 k s) = k.
Proof.
  revert s. induction k as [|k IH]; intros s Hk.
  - now destruct s.
  - destruct s as [|a s]; simpl in *; [lia |]. rewrite IH; lia.
Qed.

Lemma takeWhile_length (p : ascii -> bool) (s : string) :
  String.length (takeWhile p s) <= String.length s.
Proof.
  induction s as [|a s IH]; simpl; [lia |].
  destruct (p a); simpl; lia.
Qed.

(** The first [k] characters of a text lie in its longest run of [p]
    when the run has [k] characters or more. *)
Lemma substring_in_run (p : ascii -> bool) (k : nat) (s : string) (c : ascii) :
  k <= String.length (takeWhile p s) ->
  occurs c (String.substring 0 k s) = true -> p c = true.
Proof.
  revert s. induction k as [|k IH]; intros s Hk Hocc.
  - now destruct s.
  - destruct s as [|a s]; [discriminate Hocc |]. simpl in Hk, Hocc.
    destruct (p a) eqn:E; simpl in Hk; [| lia].
    apply orb_prop in Hocc. destruct Hocc as [H | H].
    + apply Ascii.eqb_eq in H. now subst.
    + eapply IH; [| exact H]. lia.
Qed.

Lemma takeWhile_append (p : ascii -> bool) (g s : string) :
  (forall c, occurs c g = true -> p c = true) ->
  String.length g <= String.length (takeWhile p (g ++ s)).
Proof.
  induction g as [|a g IH]; intros Hg; simpl; [lia |].
  rewrite (Hg a) by (simpl; now rewrite Ascii.eqb_refl).
  simpl. apply le_n_S. apply IH. intros c Hc. apply Hg. simpl.
  now rewrite Hc, orb_true_r.
Qed.

(** What the backtracking returns: one character or more, out of the
    run, with [post] right after. *)
Lemma greedy_sound (post rest : string) (n : nat) (g : string) :
  greedy post rest n = Some g ->
  exists k, 1 <= k <= n /\ g = String.substring 0 k rest /\
            String.prefix post (drop k rest) = true.
Proof.
  induction n as [|n IH]; cbn [greedy]; [discriminate |].
  destruct (String.prefix post (drop (S n) rest)) eqn:E.
  - intros [= <-]. exists (S n). repeat split; [lia | lia | exact E].
  - intros H. destruct (IH H) as (k & Hk & Hg & Hp).
    exists k. repeat split; [lia | lia | exact Hg | exact Hp].
Qed.

(** The backtracking finds a capture when there is one to find. *)
Lemma greedy_finds (post rest : string) (n k : nat) :
  1 <= k <= n -> String.prefix post (drop k rest) = true ->
  greedy post rest n <> None.
Proof.
  induction n as [|n IH]; intros Hk Hp; [lia |]. cbn [greedy].
  destruct (String.prefix post (drop (S n) rest)) eqn:E; [discriminate |].
  apply IH; [| exact Hp].
  destruct (Nat.eq_dec k (S n)) as [-> | Hne]; [congruence | lia].
Qed.

Lemma matchHere_sound (pre post s g : string) :
  matchHere pre post s = Some g ->
  g <> EmptyString /\
  (forall c, occurs c g = true -> nonSpace c = true) /\
  exists b, s = pre ++ g ++ post ++ b.
Proof.
  unfold matchHere. destruct (String.prefix pre s) eqn:Epre; [| discriminate].
  cbv zeta. intros H. apply greedy_sound in H.
  destruct H as (k & Hk & Hg & Hp).
  set (rest := drop (String.length pre) s) in *.
  assert (Hlen : k <= String.length rest).
  { pose proof (takeWhile_length nonSpace rest). lia. }
  split; [| split].
  - intros ->. symmetry in Hg. apply (f_equal String.length) in Hg.
    rewrite substring_length in Hg by exact Hlen. simpl in Hg. lia.
  - intros c Hc. subst g.
    eapply substring_in_run; [| exact Hc]. lia.
  - exists (drop (String.length post) (drop k rest)).
    rewrite (prefix_drop _ _ Hp). subst g. rewrite substring_drop.
    unfold rest. now rewrite prefix_drop.
Qed.

Lemma matchHere_complete (pre post g b : string) :
  g <> EmptyString ->
  (forall c, occurs c g = true -> nonSpace c = true) ->
  matchHere pre post (pre ++ g ++ post ++ b) <> None.
Proof.
  intros Hne Hg. unfold matchHere. rewrite prefix_append, drop_append.
  cbv zeta. apply greedy_finds with (k := String.length g).
  - split; [| now apply takeWhile_append].
    destruct g; [now destruct Hne | simpl; lia].
  - rewrite drop_append. apply prefix_append.
Qed.

(** The capture of [/pre(\S+)post/] is text of the searched text: one
    character or more, none of them white space, with [pre] right before
    it and [post] right after it. *)
Lemma matchNonSpace_sound (pre post s g : string) :
  matchNonSpace pre post s = Some g ->
  g <> EmptyString /\
  (forall c, occurs c g = true -> nonSpace c = true) /\
  exists a b, s = a ++ pre ++ g ++ post ++ b.
Proof.
  induction s as [|c s IH]; cbn [matchNonSpace].
  - destruct (matchHere pre post EmptyString) as [g' |] eqn:E;
      [| discriminate].
    intros [= ->]. destruct (matchHere_sound _ _ _ E) as (H1 & H2 & b & H3).
    repeat split; [exact H1 | exact H2 |]. now exists EmptyString, b.
  - destruct (matchHere pre post (String c s)) as [g' |] eqn:E.
    + intros [= ->]. destruct (matchHere_sound _ _ _ E) as (H1 & H2 & b & H3).
      repeat split; [exact H1 | exact H2 |]. now exists EmptyString, b.
    + intros H. destruct (IH H) as (H1 & H2 & a & b & H3).
      repeat split; [exact H1 | exact H2 |].
      exists (String c a), b. simpl. now rewrite H3.
Qed.

(** And the search finds a capture wherever such text is. *)
Lemma matchNonSpace_complete (pre post a g b : string) :
  g <> EmptyString ->
  (forall c, occurs c g = true -> nonSpace c = true) ->
  matchNonSpace pre post (a ++ pre ++ g ++ post ++ b) <> None.
Proof.
  intros Hne Hg. induction a as [|c a IH].
  - simpl append. pose proof (matchHere_complete pre post b Hne Hg) as H.
    destruct (pre ++ g ++ post ++ b) as [|x t] eqn:E; cbn [matchNonSpace];
      destruct (matchHere pre post _); congruence.
  - simpl append. cbn [matchNonSpace].
    destruct (matchHere pre post _); [discriminate | exact IH].
Qed.

(** A text that holds [p] nowhere is no text around [p]. *)
Lemma includes_append (a p b : string) : includes (a ++ p ++ b) p = true.
Proof.
  induction a as [|c a IH]; simpl append.
  - destruct (p ++ b) as [|x t] eqn:E; cbn [includes];
      rewrite <- E, prefix_append; reflexivity.
  - cbn [includes]. rewrite IH. apply orb_true_r.
Qed.

End CaptureFacts.

(* ================================================================== *)
(** * 18. Further properties: the office URL, cookies and names        *)
(* ================================================================== *)

(** X1.  Whatever URL the preview page gives, it is built from text of
    that page: the access token stands in the page between
    [accessTokenInput.value = '] and [';], the form action between
    [form.action = '] and [';], the [WOPISrc] value in the form action
    before [&ui=]; token and value are not empty and hold no white
    space. *)
Theorem office_url_is_built_from_page_text (webContent url : string) :
  getOfficeFileDownloadUrl webContent = Some url ->
  exists officeUrl accessToken wopiSrc,
    url = replaceAll "\x252f" "/" (replaceAll "\x253a" ":" wopiSrc)
          ++ "/contents?access_token=" ++ accessToken /\
    (exists a b,
        webContent = a ++ "form.action = '" ++ officeUrl ++ "';" ++ b) /\
    (exists a b,
        webContent
        = a ++ "accessTokenInput.value = '" ++ accessToken ++ "';" ++ b) /\
    (exists a b, officeUrl = a ++ "WOPISrc=" ++ wopiSrc ++ "&ui=" ++ b) /\
    accessToken <> EmptyString /\ wopiSrc <> EmptyString /\
    (forall c, occurs c accessToken = true -> isSpace c = false) /\
    (forall c, occurs c wopiSrc = true -> isSpace c = false).
Proof.
  unfold getOfficeFileDownloadUrl.
  destruct (matchNonSpace "form.action = '" "';" webContent)
    as [officeUrl |] eqn:Eurl; [| discriminate].
  destruct (matchNonSpace "accessTokenInput.value = '" "';" webContent)
    as [accessToken |] eqn:Etok; [| discriminate].
  destruct (matchNonSpace "accessTokenTtlInput.value = '" "';" webContent)
    as [accessTokenTtl |]; [| discriminate].
  destruct (matchNonSpace "WOPISrc=" "&ui=" officeUrl)
    as [wopiSrc |] eqn:Esrc; [| discriminate].
  cbv zeta. intros [= <-].
  destruct (matchNonSpace_sound _ _ _ Eurl) as (_ & _ & Hurl).
  destruct (matchNonSpace_sound _ _ _ Etok) as (Htok1 & Htok2 & Htok3).
  destruct (matchNonSpace_sound _ _ _ Esrc) as (Hsrc1 & Hsrc2 & Hsrc3).
  exists officeUrl, accessToken, wopiSrc.
  split; [reflexivity |]. split; [exact Hurl |]. split; [exact Htok3 |].
  split; [exact Hsrc3 |]. split; [exact Htok1 |]. split; [exact Hsrc1 |].
  split; intros c Hc.
  - apply Htok2 in Hc. unfold nonSpace in Hc. now destruct (isSpace c).
  - apply Hsrc2 in Hc. unfold nonSpace in Hc. now destruct (isSpace c).
Qed.

(** X2.  A preview page that lacks one of the three script values gives
    no URL: the call raises.  This holds for the token lifetime too,
    which the URL does not use. *)
Theorem office_url_needs_every_script_value (webContent : string) :
  includes webContent "form.action = '" = false \/
  includes webContent "accessTokenInput.value = '" = false \/
  includes webContent "accessTokenTtlInput.value = '" = false ->
  getOfficeFileDownloadUrl webContent = None.
Proof.
  assert (Hnone : forall pre, includes webContent pre = false ->
                              matchNonSpace pre "';" webContent = None).
  { intros pre Hinc.
    destruct (matchNonSpace pre "';" webContent) as [g |] eqn:E;
      [| reflexivity].
    destruct (matchNonSpace_sound _ _ _ E) as (_ & _ & a & b & Hw).
    rewrite Hw, includes_append in Hinc. discriminate Hinc. }
  unfold getOfficeFileDownloadUrl. intros [H | [H | H]].
  - now rewrite (Hnone _ H).
  - rewrite (Hnone _ H). now destruct (matchNonSpace _ _ webContent).
  - rewrite (Hnone _ H).
    destruct (matchNonSpace "form.action = '" "';" webContent);
      [| reflexivity].
    now destruct (matchNonSpace "accessTokenInput.value = '" "';" webContent).
Qed.

Section CookieCut.

Lemma indexOf_none (s : string) (c : ascii) :
  occurs c s = false -> indexOf s c = None.
Proof.
  induction s as [|a s IH]; simpl; [reflexivity |].
  intros H. apply orb_false_elim in H. destruct H as [Ha Hs].
  now rewrite Ha, IH.
Qed.

Lemma indexOf_append (p rest : string) (c : ascii) :
  occurs c p = false ->
  indexOf (p ++ String c rest) c = Some (String.length p).
Proof.
  induction p as [|a p IH]; simpl.
  - now rewrite Ascii.eqb_refl.
  - intros H. apply orb_false_elim in H. destruct H as [Ha Hp].
    now rewrite Ha, IH.
Qed.

Lemma substring_append (p rest : string) :
  String.substring 0 (String.length p) (p ++ rest) = p.
Proof.
  induction p as [|a p IH]; simpl; [now destruct rest | now rewrite IH].
Qed.

End CookieCut.

(** X3.  The pair kept of a [Set-Cookie] value is the text before its
    first semicolon: the attributes are dropped, whatever they are. *)
Theorem cookie_pair_is_text_before_first_semicolon (pair attributes : string) :
  occurs ";"%char pair = false ->
  cookiePair (pair ++ String ";"%char attributes) = pair /\
  convertSetCookieToCookieString [pair ++ String ";"%char attributes] = pair.
Proof.
  intros H.
  assert (Hcut : cookiePair (pair ++ String ";"%char attributes) = pair).
  { unfold cookiePair. rewrite indexOf_append by exact H.
    apply substring_append. }
  split; [exact Hcut |].
  unfold convertSetCookieToCookieString. cbv zeta. simpl map. rewrite Hcut.
  reflexivity.
Qed.

(** X4.  A [Set-Cookie] value that carries no attribute has no semicolon,
    and its cookie is lost: [indexOf] answers -1 and the pair kept is the
    empty text. *)
Theorem cookie_without_attributes_is_lost (cookie : string) :
  occurs ";"%char cookie = false ->
  cookiePair cookie = EmptyString /\
  convertSetCookieToCookieString [cookie] = EmptyString.
Proof.
  intros H.
  assert (Hcut : cookiePair cookie = EmptyString).
  { unfold cookiePair. now rewrite indexOf_none. }
  split; [exact Hcut |].
  unfold convertSetCookieToCookieString. cbv zeta. simpl map. rewrite Hcut.
  reflexivity.
Qed.

(** X5.  [Set-Cookie] values whose pairs were seen before change nothing:
    the header is the one of the values before them. *)
Theorem cookie_header_ignores_repeated_pairs (seen later : list string) :
  (forall cookie, In cookie later ->
                  In (cookiePair cookie) (map cookiePair seen)) ->
  convertSetCookieToCookieString (seen ++ later)
  = convertSetCookieToCookieString seen.
Proof.
  intros H. unfold convertSetCookieToCookieString. cbv zeta. f_equal.
  unfold Set_from. rewrite map_app, fold_left_app.
  assert (Hacc : forall x, In x (map cookiePair later) ->
                           In x (fold_left Set_add (map cookiePair seen) [])).
  { intros x Hx. apply in_map_iff in Hx. destruct Hx as (c & <- & Hc).
    apply fold_Set_add_In. right. now apply H. }
  revert Hacc. generalize (fold_left Set_add (map cookiePair seen) []).
  induction (map cookiePair later) as [|v l IH]; intros acc Hacc;
    [reflexivity |].
  simpl. assert (Hv : Set_add acc v = acc).
  { unfold Set_add.
    now rewrite (proj2 (existsb_eqb_In v acc) (Hacc v (or_introl eq_refl))). }
  rewrite Hv. apply IH. intros x Hx. apply Hacc. now right.
Qed.

(** X6.  A name that holds no ampersand and no forbidden character is
    kept as it is. *)
Theorem decodeString_keeps_plain_names (text : string) :
  occurs "&"%char text = false ->
  (forall c, occurs c text = true -> isForbidden c = false) ->
  decodeString text = text.
Proof.
  intros Hamp Hok. unfold decodeString. cbv zeta.
  rewrite Buffer_roundtrip, decode_without_ampersand by exact Hamp.
  induction text as [|a t IH]; simpl; [reflexivity |].
  rewrite (Hok a) by (simpl; now rewrite Ascii.eqb_refl).
  rewrite IH; [reflexivity | |].
  - simpl in Hamp. now apply orb_false_elim in Hamp.
  - intros c Hc. apply Hok. simpl. now rewrite Hc, orb_true_r.
Qed.

Section FolderId.

Lemma digitsHere_sound (pre s d : string) :
  digitsHere pre s = Some d ->
  d <> EmptyString /\ exists b, s = pre ++ d ++ b.
Proof.
  unfold digitsHere. destruct (String.prefix pre s) eqn:Epre; [| discriminate].
  destruct (takeWhile isDigit (drop (String.length pre) s)) as [|x t] eqn:E;
    [discriminate |].
  intros [= <-]. split; [discriminate |].
  exists (drop (String.length (String x t)) (drop (String.length pre) s)).
  rewrite <- E.
  assert (Hrun : forall r, takeWhile isDigit r
                           ++ drop (String.length (takeWhile isDigit r)) r = r).
  { induction r as [|a r IH]; simpl; [reflexivity |].
    destruct (isDigit a); simpl; [now rewrite IH | reflexivity]. }
  rewrite Hrun. symmetry. now apply prefix_drop.
Qed.

Lemma matchDigits_sound (pre s d : string) :
  matchDigits pre s = Some d ->
  d <> EmptyString /\ exists a b, s = a ++ pre ++ d ++ b.
Proof.
  induction s as [|c s IH]; cbn [matchDigits].
  - destruct (digitsHere pre EmptyString) as [d' |] eqn:E; [| discriminate].
    intros [= ->]. destruct (digitsHere_sound _ _ E) as (H1 & b & H2).
    split; [exact H1 |]. now exists EmptyString, b.
  - destruct (digitsHere pre (String c s)) as [d' |] eqn:E.
    + intros [= ->]. destruct (digitsHere_sound _ _ E) as (H1 & b & H2).
      split; [exact H1 |]. now exists EmptyString, b.
    + intros H. destruct (IH H) as (H1 & a & b & H2).
      split; [exact H1 |]. exists (String c a), b. simpl. now rewrite H2.
Qed.

Lemma takeWhile_exact (p : ascii -> bool) (d b : string) :
  (forall c, occurs c d = true -> p c = true) ->
  (forall c t, b = String c t -> p c = false) ->
  takeWhile p (d ++ b) = d.
Proof.
  intros Hd Hb. induction d as [|a d IH]; simpl.
  - destruct b as [|c t]; [reflexivity |]. simpl. now rewrite (Hb c t).
  - rewrite (Hd a) by (simpl; now rewrite Ascii.eqb_refl).
    rewrite IH; [reflexivity |].
    intros c Hc. apply Hd. simpl. now rewrite Hc, orb_true_r.
Qed.

Lemma indexOf_after (a t : string) (c : ascii) :
  occurs c a = false ->
  indexOf (a ++ t) c
  = match indexOf t c with
    | Some i => Some (String.length a + i)
    | None => None
    end.
Proof.
  induction a as [|x a IH]; simpl.
  - now destruct (indexOf t c).
  - intros H. apply orb_false_elim in H. destruct H as [Hx Ha].
    rewrite Hx, IH by exact Ha. now destruct (indexOf t c).
Qed.

Lemma prefix_indexOf (p s : string) (c : ascii) (i : nat) :
  String.prefix p s = true -> indexOf p c = Some i -> indexOf s c = Some i.
Proof.
  revert s i. induction p as [|a p IH]; intros s i Hp Hi; [discriminate Hi |].
  destruct s as [|b s]; [discriminate Hp |]. simpl in Hp.
  destruct (ascii_dec a b) as [<- | _]; [| discriminate Hp].
  simpl in Hi |- *. destruct (Ascii.eqb a c); [exact Hi |].
  destruct (indexOf p c) as [j |] eqn:Ej; [| discriminate Hi].
  now rewrite (IH s j Hp eq_refl).
Qed.

(** The parameter is found where it stands when no [=] comes before
    it. *)
Lemma matchDigits_first_parameter (a d b : string) :
  occurs "="%char a = false ->
  d <> EmptyString ->
  (forall c, occurs c d = true -> isDigit c = true) ->
  (forall c t, b = String c t -> isDigit c = false) ->
  matchDigits "FolderID=" (a ++ "FolderID=" ++ d ++ b) = Some d.
Proof.
  intros Ha Hne Hd Hb.
  assert (Hhere : digitsHere "FolderID=" ("FolderID=" ++ d ++ b) = Some d).
  { unfold digitsHere. rewrite prefix_append, drop_append.
    rewrite takeWhile_exact by assumption.
    destruct d; [now destruct Hne | reflexivity]. }
  induction a as [|x a IH].
  - change (EmptyString ++ "FolderID=" ++ d ++ b)
      with (String "F" ("olderID=" ++ d ++ b)).
    cbn [matchDigits].
    change (String "F" ("olderID=" ++ d ++ b)) with ("FolderID=" ++ d ++ b).
    now rewrite Hhere.
  - change (String x a ++ "FolderID=" ++ d ++ b)
      with (String x (a ++ "FolderID=" ++ d ++ b)).
    cbn [matchDigits].
    assert (Hno : digitsHere "FolderID=" (String x (a ++ "FolderID=" ++ d ++ b))
                  = None).
    { unfold digitsHere.
      destruct (String.prefix "FolderID="
                  (String x (a ++ "FolderID=" ++ d ++ b))) eqn:Ep;
        [| reflexivity].
      apply (prefix_indexOf _ _ "="%char (i := 8)) in Ep; [| reflexivity].
      change (String x (a ++ "FolderID=" ++ d ++ b))
        with (String x a ++ "FolderID=" ++ d ++ b) in Ep.
      rewrite indexOf_after in Ep by exact Ha.
      change (indexOf ("FolderID=" ++ d ++ b) "="%char)
        with (Some 8) in Ep.
      injection Ep as Ep. simpl in Ep. lia. }
    rewrite Hno. apply IH. simpl in Ha.
    now apply orb_false_elim in Ha.
Qed.

End FolderId.

(** X7.  The name of a folder that is told apart from a sibling of the
    same name ends with the folder's number in brackets: digits, one or
    more, that stand in the folder's URL right after [FolderID=]. *)
Theorem disambiguated_name_carries_folder_id
  (rawFolderName folderUrl folderName : string) :
  folderNameOf rawFolderName folderUrl true = Some folderName ->
  exists folderId,
    folderName = decodeString rawFolderName ++ " [" ++ folderId ++ "]" /\
    folderId <> EmptyString /\
    (forall c, occurs c folderId = true -> isDigit c = true) /\
    exists a b, folderUrl = a ++ "FolderID=" ++ folderId ++ b.
Proof.
  unfold folderNameOf. cbv zeta.
  destruct (matchDigits "FolderID=" folderUrl) as [folderId |] eqn:E;
    [| discriminate].
  intros [= <-]. exists folderId. split; [reflexivity |].
  destruct (matchDigits_sound _ _ E) as (Hne & Hin).
  split; [exact Hne |]. split; [| exact Hin].
  intros c Hc. exact (@matchDigits_digits _ _ _ c E Hc).
Qed.

(** X8.  A folder URL whose first parameter is [FolderID=<digits>] gives
    the name [<name> [<digits>]], with all the digits of the number. *)
Theorem folder_id_is_the_whole_number
  (rawFolderName a folderId b : string) :
  occurs "="%char a = false ->
  folderId <> EmptyString ->
  (forall c, occurs c folderId = true -> isDigit c = true) ->
  (forall c t, b = String c t -> isDigit c = false) ->
  folderNameOf rawFolderName (a ++ "FolderID=" ++ folderId ++ b) true
  = Some (decodeString rawFolderName ++ " [" ++ folderId ++ "]").
Proof.
  intros Ha Hne Hd Hb. unfold folderNameOf. cbv zeta.
  now rewrite matchDigits_first_parameter.
Qed.

(** X9.  Without [FolderID=] in its URL a folder cannot be told apart:
    the name is not built and the call raises; a folder that needs no
    such mark gets its name whatever its URL. *)
Theorem disambiguated_name_needs_folder_id (rawFolderName folderUrl : string) :
  includes folderUrl "FolderID=" = false ->
  folderNameOf rawFolderName folderUrl true = None /\
  folderNameOf rawFolderName folderUrl false
  = Some (decodeString rawFolderName).
Proof.
  intros H. split; [| reflexivity]. unfold folderNameOf. cbv zeta.
  destruct (matchDigits "FolderID=" folderUrl) as [d |] eqn:E; [| reflexivity].
  destruct (matchDigits_sound _ _ E) as (_ & a & b & Hurl).
  rewrite Hurl, includes_append in H. discriminate H.
Qed.

(* ================================================================== *)
(** * 19. Further properties: what a run does to the files             *)
(* ================================================================== *)

Section FileSystemFacts.

Variable rt : runtime.

Lemma find_filter_other (path target : string) (l : list (string * string)) :
  path <> target ->
  find (fun kv => String.eqb (fst kv) path)
       (filter (fun kv => negb (String.eqb (fst kv) target)) l)
  = find (fun kv => String.eqb (fst kv) path) l.
Proof.
  intros Hne. induction l as [|kv l IH]; [reflexivity |]. simpl.
  destruct (String.eqb_spec (fst kv) target) as [Ht | Ht]; simpl.
  - destruct (String.eqb_spec (fst kv) path) as [Hp | Hp]; [congruence |].
    exact IH.
  - destruct (String.eqb (fst kv) path); [reflexivity | exact IH].
Qed.

(** What [downloadFile] does to the files and the directories: it
    writes no file and at most makes directories, or it writes the body
    at the target, with the directories [mkdirSync] made. *)
Lemma downloadFile_fs (url cookie folderPath filename : string) (st : state) :
  let target := path_join rt folderPath filename in
  let st' := snd (downloadFile rt url cookie folderPath filename st) in
  (files st' = files st /\ exists fresh, dirs st' = (dirs st ++ fresh)%list) \/
  (exists r fresh,
      existsAt st target = false /\
      network rt (payloadRequest url cookie) = Some r /\
      res_ok r = true /\
      files st'
      = (target, res_body r)
        :: filter (fun kv => negb (String.eqb (fst kv) target)) (files st) /\
      dirs st' = (dirs st ++ fresh)%list).
Proof.
  assert (Hsame : forall (o : outcome unit) s,
            files s = files st -> dirs s = dirs st ->
            (files (snd (o, s)) = files st /\
             exists fresh, dirs (snd (o, s)) = (dirs st ++ fresh)%list)).
  { intros o s Hf Hd. split; [exact Hf |]. exists []. simpl.
    now rewrite app_nil_r. }
  cbv zeta. unfold downloadFile. cbv zeta. rewrite bind_existsSync.
  destruct (existsAt st (path_join rt folderPath filename)) eqn:Epresent;
    cbn [andb skipAlreadyDownloadedFiles];
    [left; now apply Hsame |].
  destruct (network rt (payloadRequest url cookie)) as [r |] eqn:Enet.
  - pose proof Enet as Hnet. unfold payloadRequest in Hnet.
    erewrite bind_fetch by exact Hnet.
    destruct (res_ok r) eqn:Eok; cbn [negb]; [| left; now apply Hsame].
    rewrite bind_existsSync.
    destruct (existsAt _ folderPath); cbn [negb].
    + unfold bind, ret, writeStream, console. cbv beta iota.
      destruct (opens _ _); cbv beta iota.
      * right. exists r, []. repeat split; try assumption.
        simpl. now rewrite app_nil_r.
      * left. now apply Hsame.
    + unfold bind, mkdirSync, writeStream, console. cbv beta iota.
      destruct (existsb _ _); cbv beta iota zeta;
        [left; now apply Hsame |].
      destruct (opens _ _); cbv beta iota.
      * right. exists r. eexists. repeat split; try assumption.
      * left. split; [reflexivity | eexists; reflexivity].
  - left. unfold payloadRequest in Enet. unfold bind, fetch.
    rewrite Enet. now apply Hsame.
Qed.

Lemma keepsFiles_downloadFile (url cookie folderPath filename : string) :
  keepsFiles (downloadFile rt url cookie folderPath filename).
Proof.
  intros st path content Hfile.
  destruct (downloadFile_fs url cookie folderPath filename st)
    as [[Hf _] | (r & fresh & Habsent & _ & _ & Hf & _)];
    unfold fileAt in *; rewrite Hf; [exact Hfile |].
  assert (Hne : path <> path_join rt folderPath filename).
  { intros ->. unfold existsAt, fileAt in Habsent.
    destruct (find _ (files st)); discriminate. }
  simpl. destruct (String.eqb_spec (path_join rt folderPath filename) path)
    as [Heq | _]; [congruence |].
  now rewrite find_filter_other.
Qed.

Lemma keepsFiles_ret {A} (a : A) : keepsFiles (ret a).
Proof. intros st path content H. exact H. Qed.

Lemma keepsFiles_throw {A} (e : exn) : keepsFiles (@throw A e).
Proof. intros st path content H. exact H. Qed.

Lemma keepsFiles_bind {A B} (m : M A) (k : A -> M B) :
  keepsFiles m -> (forall a, keepsFiles (k a)) -> keepsFiles (bind m k).
Proof.
  intros Hm Hk st path content Hfile. unfold bind.
  specialize (Hm st path content Hfile).
  destruct (m st) as [[a | e |] st1]; simpl in *; [| exact Hm | exact Hm].
  now apply Hk.
Qed.

Lemma keepsFiles_fetch (req : request) : keepsFiles (fetch rt req).
Proof.
  intros st path content H. unfold fetch.
  destruct (network rt req); exact H.
Qed.

Lemma keepsFiles_nonNull {A} (v : option A) : keepsFiles (nonNull v).
Proof. destruct v; [apply keepsFiles_ret | apply keepsFiles_throw]. Qed.

Lemma keepsFiles_console (l : level) (msg : string) :
  keepsFiles (console l msg).
Proof. intros st path content H. exact H. Qed.

Lemma keepsFiles_if {A} (b : bool) (m m' : M A) :
  keepsFiles m -> keepsFiles m' -> keepsFiles (if b then m else m').
Proof. now destruct b. Qed.

Lemma keepsFiles_forEach {A} (body : A -> M unit) (l : list A) :
  (forall x, keepsFiles (body x)) -> keepsFiles (forEach body l).
Proof.
  intros Hbody. induction l as [|x l IH]; [apply keepsFiles_ret |].
  apply keepsFiles_bind; [apply Hbody | intros _; exact IH].
Qed.

Lemma keepsFiles_downloadResourceObject
  (school sessionId elementId folderPath : string) :
  keepsFiles (downloadResourceObject rt school sessionId elementId folderPath).
Proof.
  unfold downloadResourceObject. cbv zeta.
  apply keepsFiles_bind; [apply keepsFiles_fetch | intros viewResponse].
  apply keepsFiles_if; [apply keepsFiles_console |].
  apply keepsFiles_bind; [apply keepsFiles_nonNull | intros title].
  apply keepsFiles_bind; [apply keepsFiles_nonNull | intros iframe].
  apply keepsFiles_bind; [apply keepsFiles_nonNull | intros src].
  apply keepsFiles_bind; [apply keepsFiles_fetch | intros iframeResponse].
  apply keepsFiles_bind; [apply keepsFiles_nonNull | intros platformCookies].
  apply keepsFiles_bind; [apply keepsFiles_nonNull | intros instanceUrl].
  apply keepsFiles_bind; [apply keepsFiles_fetch | intros resourceResponse].
  apply keepsFiles_bind; [apply keepsFiles_nonNull | intros allCookies].
  destruct (getElementById _ "ctl00_ctl00_MainFormContent_DownloadLinkForViewType")
    as [anchor |].
  - apply keepsFiles_bind; [apply keepsFiles_nonNull | intros href].
    apply keepsFiles_bind; [apply keepsFiles_nonNull | intros name].
    apply keepsFiles_downloadFile.
  - destruct (getElementById _ _) as [preview |];
      [| apply keepsFiles_console].
    apply keepsFiles_bind; [apply keepsFiles_fetch | intros previewResponse].
    apply keepsFiles_if; [apply keepsFiles_console |].
    apply keepsFiles_bind; [apply keepsFiles_nonNull | intros officeUrl].
    apply keepsFiles_downloadFile.
Qed.

Lemma keepsFiles_settle (t : task) : keepsFiles (settle rt t).
Proof.
  intros st path content Hfile. unfold settle.
  pose proof (@keepsFiles_downloadResourceObject (t_school t) (t_sessionId t)
                (t_elementId t) (t_folderPath t) st path content Hfile) as H.
  destruct (downloadResourceObject rt _ _ _ _ st) as [[[] | e |] st'];
    exact H.
Qed.

Lemma keepsFiles_settlePending : keepsFiles (settlePending rt).
Proof.
  intros st path content Hfile. unfold settlePending.
  apply (keepsFiles_forEach (settle rt) (pending st) keepsFiles_settle).
  exact Hfile.
Qed.

Lemma keepsFiles_folderEntry (recur : string -> string -> bool -> M unit)
  (school sessionId folderPath : string) (names : list string)
  (entry : element) :
  (forall url path flag, keepsFiles (recur url path flag)) ->
  keepsFiles (folderEntry recur school sessionId folderPath names entry).
Proof.
  intros Hrecur. unfold folderEntry.
  destruct (entryDispatch names entry) as [url flag | elementId | url |].
  - apply Hrecur.
  - intros st path content H. exact H.
  - apply keepsFiles_console.
  - apply keepsFiles_throw.
Qed.

Lemma keepsFiles_downloadResourceFolder (fuel : nat)
  (school folderUrl sessionId parentFolderPath : string) (appendId : bool) :
  keepsFiles (downloadResourceFolder rt fuel school folderUrl sessionId
                                     parentFolderPath appendId).
Proof.
  revert folderUrl parentFolderPath appendId.
  induction fuel as [|fuel IH]; intros folderUrl parentFolderPath appendId.
  - intros st path content H. exact H.
  - cbn [downloadResourceFolder]. cbv zeta.
    apply keepsFiles_bind; [apply keepsFiles_fetch | intros contentResponse].
    apply keepsFiles_if; [apply keepsFiles_console |].
    apply keepsFiles_bind; [apply keepsFiles_nonNull | intros title].
    apply keepsFiles_bind; [apply keepsFiles_nonNull | intros folderName].
    apply keepsFiles_forEach. intros entry.
    apply keepsFiles_folderEntry. intros url path flag. apply IH.
Qed.

Lemma keepsFiles_downloadResourcesOfCourses (fuel : nat)
  (school sessionId : string) (courses : list course) :
  keepsFiles (downloadResourcesOfCourses rt fuel school sessionId courses).
Proof.
  induction courses as [|c rest IH]; [apply keepsFiles_ret |].
  cbn [downloadResourcesOfCourses]. cbv zeta.
  apply keepsFiles_bind; [apply keepsFiles_fetch | intros contentResponse].
  apply keepsFiles_if; [apply keepsFiles_console |].
  apply keepsFiles_bind; [apply keepsFiles_nonNull | intros anchor].
  apply keepsFiles_bind; [apply keepsFiles_nonNull | intros url].
  apply keepsFiles_bind; [apply keepsFiles_downloadResourceFolder |].
  intros _. exact IH.
Qed.

End FileSystemFacts.

(** X10.  [downloadFile] changes no file but its target, and removes no
    directory. *)
Theorem downloadFile_changes_only_its_target (rt : runtime)
  (downloadUrl cookieString folderPath filename : string) (st : state)
  (path : string) :
  path <> path_join rt folderPath filename ->
  let st' :=
    snd (downloadFile rt downloadUrl cookieString folderPath filename st) in
  fileAt st' path = fileAt st path /\
  (forall d, In d (dirs st) -> In d (dirs st')).
Proof.
  intros Hne. cbv zeta.
  destruct (downloadFile_fs rt downloadUrl cookieString folderPath filename st)
    as [[Hf [fresh Hd]] | (r & fresh & _ & _ & _ & Hf & Hd)];
    unfold fileAt; rewrite Hf, Hd.
  - split; [reflexivity | intros d Hin; apply in_or_app; now left].
  - split; [| intros d Hin; apply in_or_app; now left].
    simpl. destruct (String.eqb_spec (path_join rt folderPath filename) path)
      as [Heq | _]; [congruence |].
    now rewrite find_filter_other.
Qed.

(** X11.  When nothing is at the target, no file stands where the
    folder or a directory above it has to be, the target lies right in
    the folder (the joined path is the folder path, a separator and a
    name a file can have), and the payload answers with a success
    status, the call returns with the body at the target and the folder
    in place; [mkdirSync] is called only when the folder was not there,
    and after the payload was fetched. *)
Theorem downloadFile_creates_folder_and_file (rt : runtime)
  (downloadUrl cookieString folderPath filename name : string)
  (r : response) (st : state) :
  let target := path_join rt folderPath filename in
  existsAt st target = false ->
  (forall d, In d (ancestors EmptyString folderPath) -> fileAt st d = None) ->
  splitLast target = Some (folderPath, name) ->
  isFileName name = true ->
  network rt (payloadRequest downloadUrl cookieString) = Some r ->
  res_ok r = true ->
  exists st',
    downloadFile rt downloadUrl cookieString folderPath filename st
    = (Returned tt, st') /\
    fileAt st' target = Some (res_body r) /\
    existsAt st' folderPath = true /\
    trace st'
    = (trace st ++
       [ ExistsSync target;
         Fetched (payloadRequest downloadUrl cookieString);
         ExistsSync folderPath ] ++
       (if existsAt st folderPath then [] else [MkdirSync folderPath]) ++
       [ WriteStream target;
         Console Log ("Downloaded file to " ++ target) ])%list.
Proof.
  cbv zeta. intros Habsent Hfree Hsplit Hname Hnet Hok.
  destruct (@downloadFile_success_state rt downloadUrl cookieString folderPath
              filename name r st Habsent Hfree Hsplit Hname Hnet Hok)
    as (st' & Hrun & Hf & Hd & Ht).
  exists st'. split; [exact Hrun |].
  assert (Hfile : fileAt st' (path_join rt folderPath filename)
                  = Some (res_body r)).
  { unfold fileAt. rewrite Hf. simpl. now rewrite String.eqb_refl. }
  split; [exact Hfile |]. split; [| exact Ht].
  unfold existsAt. destruct (fileAt st' folderPath) eqn:Efolder;
    [reflexivity |].
  rewrite Hd. rewrite existsb_app. apply orb_true_iff.
  destruct (existsAt st folderPath) eqn:Ebefore.
  - left. unfold existsAt in Ebefore.
    destruct (fileAt st folderPath) as [c |] eqn:Eold; [| exact Ebefore].
    pose proof (@keepsFiles_downloadFile rt downloadUrl cookieString
                  folderPath filename st folderPath c Eold) as Hkept.
    rewrite Hrun in Hkept. simpl in Hkept. congruence.
  - right. unfold existsAt in Ebefore.
    destruct (fileAt st folderPath); [discriminate |].
    apply existsb_exists. exists folderPath.
    split; [| apply String.eqb_refl].
    apply filter_In. split; [apply (ancestors_self EmptyString) |].
    now rewrite Ebefore.
Qed.

(** X12.  When the payload answers with a non-success status the call
    returns after a line at the level of [console.log] that carries the
    status text: nothing is written and no folder is made. *)
Theorem failed_payload_writes_nothing (rt : runtime)
  (downloadUrl cookieString folderPath filename : string)
  (r : response) (st : state) :
  let target := path_join rt folderPath filename in
  existsAt st target = false ->
  network rt (payloadRequest downloadUrl cookieString) = Some r ->
  res_ok r = false ->
  exists st',
    downloadFile rt downloadUrl cookieString folderPath filename st
    = (Returned tt, st') /\
    trace st'
    = (trace st ++
       [ ExistsSync target;
         Fetched (payloadRequest downloadUrl cookieString);
         Console Log ("Failed to download file: " ++ res_statusText r) ])%list /\
    files st' = files st /\ dirs st' = dirs st.
Proof.
  cbv zeta. intros Habsent Hnet Hok.
  unfold downloadFile. cbv zeta. rewrite bind_existsSync.
  rewrite Habsent. cbn [andb].
  unfold payloadRequest in Hnet. erewrite bind_fetch by exact Hnet.
  rewrite Hok. cbn [negb].
  eexists. split; [reflexivity |]. simpl.
  repeat rewrite <- app_assoc. repeat split.
Qed.

(** X13.  A download that went through (nothing was at the target, no
    file stood where the folder or a directory above it has to be, the
    target lies right in the folder, the payload answered with a success
    status) is not made again: a second call for the same folder and
    file name, whatever its URL and its cookie header, returns after the
    test for the file and the skip line. *)
Theorem second_download_is_skipped (rt : runtime)
  (downloadUrl cookieString folderPath filename name : string)
  (r : response) (st : state) (downloadUrl' cookieString' : string) :
  let target := path_join rt folderPath filename in
  existsAt st target = false ->
  (forall d, In d (ancestors EmptyString folderPath) -> fileAt st d = None) ->
  splitLast target = Some (folderPath, name) ->
  isFileName name = true ->
  network rt (payloadRequest downloadUrl cookieString) = Some r ->
  res_ok r = true ->
  let st1 :=
    snd (downloadFile rt downloadUrl cookieString folderPath filename st) in
  downloadFile rt downloadUrl' cookieString' folderPath filename st1
  = (Returned tt,
     emits [ ExistsSync target;
             Console Log ("Skipping file: " ++ target) ] st1) /\
  fileAt (emits [ ExistsSync target;
                  Console Log ("Skipping file: " ++ target) ] st1) target
  = Some (res_body r).
Proof.
  cbv zeta. intros Habsent Hfree Hsplit Hname Hnet Hok.
  destruct (@downloadFile_writes rt downloadUrl cookieString folderPath
              filename name r st Habsent Hfree Hsplit Hname Hnet Hok)
    as [_ Hfile].
  set (st1 := snd (downloadFile rt downloadUrl cookieString folderPath
                     filename st)) in *.
  split.
  - unfold downloadFile at 1. cbv zeta. rewrite bind_existsSync.
    unfold existsAt. rewrite Hfile. reflexivity.
  - unfold fileAt in *. rewrite files_emits. exact Hfile.
Qed.

(** X14.  A resolution never changes a file that is there: whatever the
    portal answers, every file keeps its content. *)
Theorem resolution_keeps_existing_files (rt : runtime)
  (school sessionId elementId folderPath : string) (st : state)
  (path content : string) :
  fileAt st path = Some content ->
  fileAt (snd (downloadResourceObject rt school sessionId elementId
                                      folderPath st)) path
  = Some content.
Proof. apply keepsFiles_downloadResourceObject. Qed.

(** X15.  A run over the courses, the resolutions it starts included,
    never changes a file that is there: what an earlier run has
    downloaded is kept as it is. *)
Theorem run_keeps_existing_files (rt : runtime) (fuel : nat)
  (school sessionId : string) (courses : list course) (st : state)
  (path content : string) :
  fileAt st path = Some content ->
  fileAt (snd (runCourses rt fuel school sessionId courses st)) path
  = Some content.
Proof.
  revert st path content.
  change (keepsFiles (runCourses rt fuel school sessionId courses)).
  unfold runCourses. apply keepsFiles_bind.
  - apply keepsFiles_downloadResourcesOfCourses.
  - intros _. apply keepsFiles_settlePending.
Qed.

(* ================================================================== *)
(** * 20. Further properties: the loop over the entries and the courses *)
(* ================================================================== *)

Section LoopFacts.

Variable rt : runtime.
Variables school sessionId folderPath : string.
Variable recur : string -> string -> bool -> M unit.
Variable names : list string.

(** The loop over entries that need no recursive call: it returns, the
    resolutions are started and the lines printed in the order of the
    entries, and nothing else happens. *)
Lemma forEach_flat (entries : list element) (st : state) :
  Forall (fun entry => isFlat (entryDispatch names entry) = true) entries ->
  exists st',
    forEach (folderEntry recur school sessionId folderPath names) entries st
    = (Returned tt, st') /\
    pending st'
    = (pending st ++ startedBy school sessionId folderPath names entries)%list /\
    trace st' = (trace st ++ warnedBy names entries)%list /\
    files st' = files st /\ dirs st' = dirs st.
Proof.
  intros Hflat. revert st.
  induction Hflat as [|entry entries Hentry _ IH]; intros st.
  - exists st. simpl. now rewrite !app_nil_r.
  - cbn [forEach]. unfold bind at 1. unfold folderEntry at 1.
    unfold startedBy, warnedBy. cbn [flat_map].
    fold (startedBy school sessionId folderPath names entries).
    fold (warnedBy names entries).
    destruct (entryDispatch names entry) as [url flag | elementId | url |];
      try discriminate Hentry.
    + destruct (IH (started (taskOf school sessionId elementId folderPath) st))
        as (st' & Hrun & Hp & Ht & Hf & Hd).
      exists st'. split; [exact Hrun |]. rewrite Hp, Ht, Hf, Hd. simpl.
      now rewrite <- app_assoc.
    + destruct (IH (emit (Console Warn
                            ("Unknown folder entry type. Url: " ++ url)) st))
        as (st' & Hrun & Hp & Ht & Hf & Hd).
      exists st'. split; [exact Hrun |]. rewrite Hp, Ht, Hf, Hd. simpl.
      now rewrite <- app_assoc.
Qed.

(** The loop stops at an entry it cannot read: the entries after it are
    not looked at. *)
Lemma forEach_faulty (before after : list element) (bad : element)
  (st : state) :
  Forall (fun entry => isFlat (entryDispatch names entry) = true) before ->
  entryDispatch names bad = Faulty ->
  exists st',
    forEach (folderEntry recur school sessionId folderPath names)
            (before ++ bad :: after)%list st
    = (Thrown TypeError, st') /\
    pending st'
    = (pending st ++ startedBy school sessionId folderPath names before)%list /\
    trace st' = (trace st ++ warnedBy names before)%list /\
    files st' = files st /\ dirs st' = dirs st.
Proof.
  intros Hflat Hbad. revert st.
  induction Hflat as [|entry entries Hentry Hrest IH]; intros st.
  - exists st. cbn [app forEach]. unfold bind, folderEntry. rewrite Hbad.
    simpl. now rewrite !app_nil_r.
  - assert (Hone : Forall (fun entry => isFlat (entryDispatch names entry)
                                         = true) [entry])
      by (constructor; [exact Hentry | constructor]).
    destruct (forEach_flat st Hone) as (st1 & Hrun1 & Hp1 & Ht1 & Hf1 & Hd1).
    cbn [forEach] in Hrun1. unfold bind in Hrun1.
    destruct (folderEntry recur school sessionId folderPath names entry st)
      as [[[] | e |] st1'] eqn:Eentry; try discriminate Hrun1.
    injection Hrun1 as ->.
    destruct (IH st1) as (st' & Hrun & Hp & Ht & Hf & Hd).
    exists st'. split.
    + cbn [app forEach]. unfold bind at 1. rewrite Eentry. exact Hrun.
    + rewrite Hp, Ht, Hf, Hd, Hp1, Ht1, Hf1, Hd1.
      unfold startedBy, warnedBy. cbn [flat_map].
      rewrite !app_nil_r, <- !app_assoc. repeat split.
Qed.

End LoopFacts.

(** X16.  A folder whose page lists file entries and entries of unknown
    kind only: the call returns, one resolution is started for every
    file entry, in the order of the page and under the path of the
    folder, and one warning is printed for every entry of unknown kind;
    the call makes the one request for the page. *)
Theorem flat_folder_starts_its_files_in_order (rt : runtime)
  (school sessionId : string) (fuel : nat)
  (folderUrl parentFolderPath : string) (appendId : bool) (r : response)
  (title : element) (folderName : string) (st : state) :
  network rt (folderRequest school sessionId folderUrl) = Some r ->
  res_ok r = true ->
  getElementById (parseFromString rt (res_body r)) "ctl00_PageHeader_TT"
  = Some title ->
  folderNameOf (el_textContent title) (absoluteFolderUrl school folderUrl)
               appendId
  = Some folderName ->
  let entries :=
    getElementsByClassName (parseFromString rt (res_body r)) "GridTitle" in
  let names := map el_textContent entries in
  Forall (fun entry => isFlat (entryDispatch names entry) = true) entries ->
  exists st',
    downloadResourceFolder rt (S fuel) school folderUrl sessionId
                           parentFolderPath appendId st
    = (Returned tt, st') /\
    pending st'
    = (pending st ++
       startedBy school sessionId (parentFolderPath ++ "/" ++ folderName)
                 names entries)%list /\
    trace st'
    = (trace st ++ Fetched (folderRequest school sessionId folderUrl)
                   :: warnedBy names entries)%list.
Proof.
  intros Hnet Hok Htitle Hname entries names Hflat.
  pose proof (@folder_page_entries rt school sessionId fuel folderUrl
                parentFolderPath appendId r title folderName st
                Hnet Hok Htitle Hname) as Hrun.
  cbv beta zeta in Hrun. rewrite Hrun. fold entries. fold names.
  destruct (@forEach_flat school sessionId
              (parentFolderPath ++ "/" ++ folderName)
              (fun url path flag =>
                 downloadResourceFolder rt fuel school url sessionId path flag)
              names entries
              (emit (Fetched (folderRequest school sessionId folderUrl)) st)
              Hflat)
    as (st' & Hloop & Hp & Ht & _ & _).
  exists st'. split; [exact Hloop |]. split; [exact Hp |].
  rewrite Ht. simpl. now rewrite <- app_assoc.
Qed.

(** X17.  A file entry the loop cannot read (no reference, or no element
    id in it) raises out of the folder: the entries before it are
    handled, the entries after it are not looked at. *)
Theorem malformed_entry_stops_the_folder (rt : runtime)
  (school sessionId : string) (fuel : nat)
  (folderUrl parentFolderPath : string) (appendId : bool) (r : response)
  (title : element) (folderName : string)
  (before after : list element) (bad : element) (st : state) :
  network rt (folderRequest school sessionId folderUrl) = Some r ->
  res_ok r = true ->
  getElementById (parseFromString rt (res_body r)) "ctl00_PageHeader_TT"
  = Some title ->
  folderNameOf (el_textContent title) (absoluteFolderUrl school folderUrl)
               appendId
  = Some folderName ->
  getElementsByClassName (parseFromString rt (res_body r)) "GridTitle"
  = (before ++ bad :: after)%list ->
  let names := map el_textContent (before ++ bad :: after)%list in
  Forall (fun entry => isFlat (entryDispatch names entry) = true) before ->
  entryDispatch names bad = Faulty ->
  exists st',
    downloadResourceFolder rt (S fuel) school folderUrl sessionId
                           parentFolderPath appendId st
    = (Thrown TypeError, st') /\
    pending st'
    = (pending st ++
       startedBy school sessionId (parentFolderPath ++ "/" ++ folderName)
                 names before)%list /\
    trace st'
    = (trace st ++ Fetched (folderRequest school sessionId folderUrl)
                   :: warnedBy names before)%list.
Proof.
  intros Hnet Hok Htitle Hname Hentries names Hflat Hbad.
  pose proof (@folder_page_entries rt school sessionId fuel folderUrl
                parentFolderPath appendId r title folderName st
                Hnet Hok Htitle Hname) as Hrun.
  cbv beta zeta in Hrun. rewrite Hrun, Hentries. fold names.
  destruct (@forEach_faulty school sessionId
              (parentFolderPath ++ "/" ++ folderName)
              (fun url path flag =>
                 downloadResourceFolder rt fuel school url sessionId path flag)
              names before after bad
              (emit (Fetched (folderRequest school sessionId folderUrl)) st)
              Hflat Hbad)
    as (st' & Hloop & Hp & Ht & _ & _).
  exists st'. split; [exact Hloop |]. split; [exact Hp |].
  rewrite Ht. simpl. now rewrite <- app_assoc.
Qed.

(** X18.  A course whose content page answers with a non-success status
    ends the run: the error line is printed and the courses after it
    are not asked for, whatever they hold. *)
Theorem failed_course_page_ends_the_run (rt : runtime) (fuel : nat)
  (school sessionId : string) (c : course) (rest : list course)
  (r : response) (st : state) :
  pending st = [] ->
  network rt (courseRequest school sessionId (CourseId c)) = Some r ->
  res_ok r = false ->
  exists st',
    runCourses rt fuel school sessionId (c :: rest) st = (Returned tt, st') /\
    trace st'
    = (trace st ++
       [ Fetched (courseRequest school sessionId (CourseId c));
         Console Error ("Failed to fetch web content for course "
                        ++ Title c) ])%list /\
    files st' = files st /\ dirs st' = dirs st /\ pending st' = [].
Proof.
  intros Hpending Hnet Hok. unfold runCourses, bind.
  unfold courseRequest in Hnet.
  cbn [downloadResourcesOfCourses]. cbv zeta.
  erewrite bind_fetch by exact Hnet. rewrite Hok. cbn [negb].
  unfold console, settlePending. cbn [pending emit]. rewrite Hpending.
  eexists. split; [reflexivity |]. simpl.
  rewrite <- app_assoc. repeat split.
Qed.

(* ================================================================== *)
(** * 21. Further properties: the session                              *)
(* ================================================================== *)

Section LoginFacts.

Variable post : loginRequest -> option response.
Variables school username password : string.

Let req : loginRequest := loginRequestOf school username password.

(** The ways a login ends: the fetch is rejected, a lookup fails, or an
    id was cut from the first session cookie. *)
Lemma loginForSessionId_cases :
  loginForSessionId post school username password
  = ([Posted req], Raised FetchError) \/
  loginForSessionId post school username password
  = ([Posted req], Raised TypeError) \/
  exists response allCookies first others sessionId,
    post req = Some response /\
    res_setCookie response = Some allCookies /\
    filter (fun c => includes c "ASP.NET_SessionId") allCookies
    = first :: others /\
    matchNonSpace "ASP.NET_SessionId=" ";" first = Some sessionId /\
    loginForSessionId post school username password
    = ([Posted req; Printed Log ("Obtained session id: " ++ sessionId)],
       Obtained sessionId).
Proof.
  unfold loginForSessionId. cbv zeta. fold req.
  destruct (post req) as [response |] eqn:Epost; [| now left].
  destruct (res_setCookie response) as [allCookies |] eqn:Ecookies;
    [| right; now left].
  destruct (filter _ allCookies) as [|first others] eqn:Efilter;
    [right; now left |].
  destruct (matchNonSpace "ASP.NET_SessionId=" ";" first)
    as [sessionId |] eqn:Ematch; [| right; now left].
  right. right. exists response, allCookies, first, others, sessionId.
  destruct (matchNonSpace_sound _ _ _ Ematch) as (Hne & _).
  destruct (String.eqb_spec sessionId EmptyString) as [Heq | _];
    [contradiction |].
  repeat split; assumption.
Qed.

End LoginFacts.

(** X19.  The session id a login returns is text of the first cookie of
    the answer that holds [ASP.NET_SessionId]: it stands there between
    [ASP.NET_SessionId=] and a semicolon, it is not empty and holds no
    white space, and it is printed on the console. *)
Theorem login_session_id_is_cut_from_the_cookie
  (post : loginRequest -> option response)
  (school username password : string) (effects : list loginEffect)
  (sessionId : string) :
  loginForSessionId post school username password
  = (effects, Obtained sessionId) ->
  exists response allCookies first others a b,
    post (loginRequestOf school username password) = Some response /\
    res_setCookie response = Some allCookies /\
    filter (fun c => includes c "ASP.NET_SessionId") allCookies
    = first :: others /\
    first = a ++ "ASP.NET_SessionId=" ++ sessionId ++ ";" ++ b /\
    sessionId <> EmptyString /\
    (forall c, occurs c sessionId = true -> isSpace c = false) /\
    effects = [ Posted (loginRequestOf school username password);
                Printed Log ("Obtained session id: " ++ sessionId) ].
Proof.
  intros Hrun.
  destruct (loginForSessionId_cases post school username password)
    as [H | [H | (response & allCookies & first & others & id
                  & Hpost & Hcookies & Hfilter & Hmatch & H)]];
    rewrite H in Hrun; try discriminate Hrun.
  injection Hrun as <- <-.
  destruct (matchNonSpace_sound _ _ _ Hmatch) as (Hne & Hns & a & b & Hfirst).
  exists response, allCookies, first, others, a, b.
  repeat split; try assumption.
  intros c Hc. apply Hns in Hc. unfold nonSpace in Hc.
  now destruct (isSpace c).
Qed.

(** X20.  A login never ends the process: the test for an empty session
    id cannot succeed, since the expression captures one character or
    more; the line [Failed to obtain session id] is never printed. *)
Theorem login_never_exits (post : loginRequest -> option response)
  (school username password : string) (code : nat) :
  snd (loginForSessionId post school username password) <> Exited code /\
  ~ In (Printed Error "Failed to obtain session id")
       (fst (loginForSessionId post school username password)).
Proof.
  destruct (loginForSessionId_cases post school username password)
    as [H | [H | (response & allCookies & first & others & id
                  & _ & _ & _ & _ & H)]];
    rewrite H; (split; [discriminate |]); simpl; intuition discriminate.
Qed.

(** X21.  An answer without a session cookie (no [Set-Cookie] header, or
    none of its values holds [ASP.NET_SessionId]) makes the login raise
    after the request: no line is printed and the process is not
    ended. *)
Theorem login_without_session_cookie_raises
  (post : loginRequest -> option response)
  (school username password : string) (response : response) :
  post (loginRequestOf school username password) = Some response ->
  (forall allCookies c,
      res_setCookie response = Some allCookies -> In c allCookies ->
      includes c "ASP.NET_SessionId" = false) ->
  loginForSessionId post school username password
  = ([Posted (loginRequestOf school username password)], Raised TypeError).
Proof.
  intros Hpost Hnone. unfold loginForSessionId. cbv zeta. rewrite Hpost.
  destruct (res_setCookie response) as [allCookies |]; [| reflexivity].
  assert (Hfilter : filter (fun c => includes c "ASP.NET_SessionId") allCookies
                    = []).
  { specialize (Hnone allCookies).
    induction allCookies as [|c l IH]; [reflexivity |]. simpl.
    rewrite (Hnone c eq_refl (or_introl eq_refl)).
    apply IH. intros c' _ Hin. apply (Hnone c' eq_refl). now right. }
  now rewrite Hfilter.
Qed.

Section SessionCookie.

Lemma run_before_space (v attributes : string) :
  (forall c, occurs c v = true -> isSpace c = false) ->
  String.length
    (takeWhile nonSpace (v ++ String ";" (String " " attributes)))
  = S (String.length v).
Proof.
  induction v as [|a v IH]; intros Hv; [reflexivity |]. simpl.
  unfold nonSpace at 1.
  rewrite (Hv a) by (simpl; now rewrite Ascii.eqb_refl). simpl.
  rewrite IH; [reflexivity |].
  intros c Hc. apply Hv. simpl. now rewrite Hc, orb_true_r.
Qed.

Lemma drop_past_semicolon (v t : string) :
  drop (S (String.length v)) (v ++ String ";" t) = t.
Proof. induction v as [|a v IH]; [reflexivity | exact IH]. Qed.

(** In a cookie written [name=value; attributes] the expression stops at
    the semicolon that has the space after it. *)
Lemma matchNonSpace_value (pre v attributes : string) :
  v <> EmptyString ->
  (forall c, occurs c v = true -> isSpace c = false) ->
  matchNonSpace pre ";" (pre ++ v ++ String ";" (String " " attributes))
  = Some v.
Proof.
  intros Hne Hv.
  assert (Hhere : matchHere pre ";"
                    (pre ++ v ++ String ";" (String " " attributes))
                  = Some v).
  { unfold matchHere. rewrite prefix_append, drop_append. cbv zeta.
    rewrite run_before_space by exact Hv. cbn [greedy].
    rewrite drop_past_semicolon. cbn [String.prefix].
    destruct (ascii_dec ";" " ") as [Heq | _]; [discriminate Heq |].
    destruct v as [|a v]; [now destruct Hne |].
    cbn [String.length greedy].
    change (drop (S (String.length v))
              (String a v ++ String ";" (String " " attributes)))
      with (drop (String.length (String a v))
              (String a v ++ String ";" (String " " attributes))).
    rewrite drop_append. cbn [String.prefix].
    destruct (ascii_dec ";" ";") as [_ | Hneq]; [| now destruct Hneq].
    change (S (String.length v)) with (String.length (String a v)).
    now rewrite substring_append. }
  destruct (pre ++ v ++ String ";" (String " " attributes));
    cbn [matchNonSpace]; now rewrite Hhere.
Qed.

End SessionCookie.

(** X22.  When the first cookie of the answer that holds
    [ASP.NET_SessionId] is written [ASP.NET_SessionId=<value>;
    <attributes>], with a space after the semicolon and a value of
    ASCII characters other than white space, the login returns the
    value, whatever the other cookies are. *)
Theorem login_reads_the_session_cookie
  (post : loginRequest -> option response)
  (school username password : string) (response : response)
  (allCookies others : list string) (value attributes : string) :
  post (loginRequestOf school username password) = Some response ->
  res_setCookie response = Some allCookies ->
  filter (fun c => includes c "ASP.NET_SessionId") allCookies
  = ("ASP.NET_SessionId=" ++ value ++ String ";" (String " " attributes))
    :: others ->
  value <> EmptyString ->
  (forall c, occurs c value = true ->
             isSpace c = false /\ (nat_of_ascii c < 128)%nat) ->
  loginForSessionId post school username password
  = ([ Posted (loginRequestOf school username password);
       Printed Log ("Obtained session id: " ++ value) ],
     Obtained value).
Proof.
  intros Hpost Hcookies Hfilter Hne Hvalue.
  unfold loginForSessionId. cbv zeta. rewrite Hpost, Hcookies, Hfilter.
  rewrite matchNonSpace_value;
    [| exact Hne | intros c Hc; exact (proj1 (Hvalue c Hc))].
  destruct (String.eqb_spec value EmptyString) as [Heq | _];
    [contradiction | reflexivity].
Qed.

(** X23.  The start of [main] sends the credentials only when it has to:
    a login request is made only when a school is set, no session id is
    set, and a user name and a password are set; it is then the one
    request of the login, made of these values. *)
Theorem credentials_are_posted_only_without_session
  (post : loginRequest -> option response) (env : environment)
  (req : loginRequest) :
  In (Posted req) (fst (mainSession post env)) ->
  truthy (SCHOOL env) = true /\
  truthy (SESSION env) = false /\
  truthy (USERNAME env) = true /\
  truthy (PASSWORD env) = true /\
  req = loginRequestOf (valueOf (SCHOOL env)) (valueOf (USERNAME env))
                       (valueOf (PASSWORD env)).
Proof.
  unfold mainSession. cbv zeta.
  destruct (truthy (SCHOOL env)) eqn:Eschool.
  - destruct (String.eqb (valueOf (SCHOOL env)) EmptyString);
      [simpl; intuition discriminate |].
    destruct (truthy (SESSION env)); [simpl; tauto |].
    destruct (truthy (USERNAME env)); cbn [negb];
      [| simpl; intuition discriminate].
    destruct (truthy (PASSWORD env)); cbn [negb];
      [| simpl; intuition discriminate].
    intros Hin.
    assert (Hreq : req = loginRequestOf (valueOf (SCHOOL env))
                           (valueOf (USERNAME env)) (valueOf (PASSWORD env))).
    { destruct (loginForSessionId_cases post (valueOf (SCHOOL env))
                  (valueOf (USERNAME env)) (valueOf (PASSWORD env)))
        as [H | [H | (response & allCookies & first & others & id
                      & _ & _ & _ & _ & H)]];
        rewrite H in Hin; simpl in Hin;
        intuition (try discriminate; congruence). }
    repeat split; assumption.
  - unfold SCHOOL_ID. simpl. intuition discriminate.
Qed.

(** X24.  A login goes through whenever the first cookie of the answer
    that holds [ASP.NET_SessionId] has, anywhere in it, a non-empty text
    of ASCII characters other than white space between
    [ASP.NET_SessionId=] and a semicolon: an id is returned and
    printed. *)
Theorem login_succeeds_when_an_id_is_delimited
  (post : loginRequest -> option response)
  (school username password : string) (response : response)
  (allCookies others : list string) (first a g b : string) :
  post (loginRequestOf school username password) = Some response ->
  res_setCookie response = Some allCookies ->
  filter (fun c => includes c "ASP.NET_SessionId") allCookies
  = first :: others ->
  first = a ++ "ASP.NET_SessionId=" ++ g ++ ";" ++ b ->
  g <> EmptyString ->
  (forall c, occurs c g = true ->
             isSpace c = false /\ (nat_of_ascii c < 128)%nat) ->
  exists sessionId,
    loginForSessionId post school username password
    = ([ Posted (loginRequestOf school username password);
         Printed Log ("Obtained session id: " ++ sessionId) ],
       Obtained sessionId).
Proof.
  intros Hpost Hcookies Hfilter Hfirst Hne Hg.
  unfold loginForSessionId. cbv zeta. rewrite Hpost, Hcookies, Hfilter.
  destruct (matchNonSpace "ASP.NET_SessionId=" ";" first)
    as [sessionId |] eqn:Ematch.
  - exists sessionId.
    destruct (matchNonSpace_sound _ _ _ Ematch) as (Hid & _).
    destruct (String.eqb_spec sessionId EmptyString) as [Heq | _];
      [contradiction | reflexivity].
  - exfalso. rewrite Hfirst in Ematch. revert Ematch.
    apply matchNonSpace_complete; [exact Hne |].
    intros c Hc. unfold nonSpace. now rewrite (proj1 (Hg c Hc)).
Qed.

(* ================================================================== *)
(** * 22. The further properties at work on the portal of the example  *)
(* ================================================================== *)

(** Every character of a text written out has the property. *)
Ltac by_chars :=
  let c := fresh "c" in
  let H := fresh "H" in
  intros c H; cbn [occurs] in H;
  repeat (apply orb_prop in H;
          destruct H as [H | H];
          [apply Ascii.eqb_eq in H; subst c;
           first [ reflexivity
                 | split; [reflexivity | apply Nat.ltb_lt; reflexivity] ] |]);
  discriminate H.

Lemma office_url_is_built_from_page_text_witness :
  getOfficeFileDownloadUrl Demo.officeScript
  = Some "https://resource.itslearning.com/wopi/files/11/contents?access_token=tok11"
  /\
  exists officeUrl accessToken wopiSrc,
    "https://resource.itslearning.com/wopi/files/11/contents?access_token=tok11"
    = replaceAll "\x252f" "/" (replaceAll "\x253a" ":" wopiSrc)
      ++ "/contents?access_token=" ++ accessToken /\
    (exists a b,
        Demo.officeScript = a ++ "form.action = '" ++ officeUrl ++ "';" ++ b) /\
    (exists a b,
        Demo.officeScript
        = a ++ "accessTokenInput.value = '" ++ accessToken ++ "';" ++ b) /\
    (exists a b, officeUrl = a ++ "WOPISrc=" ++ wopiSrc ++ "&ui=" ++ b) /\
    accessToken <> EmptyString /\ wopiSrc <> EmptyString /\
    (forall c, occurs c accessToken = true -> isSpace c = false) /\
    (forall c, occurs c wopiSrc = true -> isSpace c = false).
Proof.
  split; [reflexivity |].
  exact (@office_url_is_built_from_page_text Demo.officeScript
           "https://resource.itslearning.com/wopi/files/11/contents?access_token=tok11"
           eq_refl).
Defined.

Lemma office_url_needs_every_script_value_witness :
  includes "form.action = 'https://o/?WOPISrc=w&ui=en'; accessTokenInput.value = 't';"
           "accessTokenTtlInput.value = '" = false /\
  getOfficeFileDownloadUrl
    "form.action = 'https://o/?WOPISrc=w&ui=en'; accessTokenInput.value = 't';"
  = None.
Proof.
  split; [reflexivity |].
  apply office_url_needs_every_script_value. right. right. reflexivity.
Defined.

Lemma cookie_pair_is_text_before_first_semicolon_witness :
  cookiePair "ASP.NET_SessionId=abc; path=/; HttpOnly"
  = "ASP.NET_SessionId=abc" /\
  convertSetCookieToCookieString ["ASP.NET_SessionId=abc; path=/; HttpOnly"]
  = "ASP.NET_SessionId=abc".
Proof.
  exact (@cookie_pair_is_text_before_first_semicolon
           "ASP.NET_SessionId=abc" " path=/; HttpOnly" eq_refl).
Defined.

Lemma cookie_without_attributes_is_lost_witness :
  cookiePair "lang=en" = EmptyString /\
  convertSetCookieToCookieString ["lang=en"] = EmptyString.
Proof. exact (@cookie_without_attributes_is_lost "lang=en" eq_refl). Defined.

Lemma cookie_header_ignores_repeated_pairs_witness :
  convertSetCookieToCookieString
    ([ "a=1; path=/"; "b=2; path=/" ] ++ [ "b=2; secure"; "a=1; path=/x" ])
  = convertSetCookieToCookieString [ "a=1; path=/"; "b=2; path=/" ].
Proof.
  apply cookie_header_ignores_repeated_pairs.
  intros cookie [<- | [<- | []]]; simpl; tauto.
Defined.

Lemma decodeString_keeps_plain_names_witness :
  decodeString "Notes 1" = "Notes 1".
Proof.
  apply decodeString_keeps_plain_names; [reflexivity | by_chars].
Defined.

Lemma disambiguated_name_carries_folder_id_witness :
  exists folderId,
    "Notes [101]" = decodeString "Notes" ++ " [" ++ folderId ++ "]" /\
    folderId <> EmptyString /\
    (forall c, occurs c folderId = true -> isDigit c = true) /\
    exists a b,
      Demo.portal ++ Demo.folderHref "101" = a ++ "FolderID=" ++ folderId ++ b.
Proof.
  exact (@disambiguated_name_carries_folder_id "Notes"
           (Demo.portal ++ Demo.folderHref "101") "Notes [101]" eq_refl).
Defined.

Lemma folder_id_is_the_whole_number_witness :
  folderNameOf "Notes"
    "https://demo.itslearning.com/Folder/processfolder.aspx?FolderID=482&page=2"
    true
  = Some "Notes [482]".
Proof.
  apply (@folder_id_is_the_whole_number "Notes"
           "https://demo.itslearning.com/Folder/processfolder.aspx?"
           "482" "&page=2").
  - reflexivity.
  - discriminate.
  - by_chars.
  - intros c t [= <- _]. reflexivity.
Defined.

Lemma disambiguated_name_needs_folder_id_witness :
  folderNameOf "Notes" "/Folder/processfolder.aspx?id=5" true = None /\
  folderNameOf "Notes" "/Folder/processfolder.aspx?id=5" false = Some "Notes".
Proof.
  exact (@disambiguated_name_needs_folder_id "Notes"
           "/Folder/processfolder.aspx?id=5" eq_refl).
Defined.

Lemma downloadFile_changes_only_its_target_witness :
  fileAt (snd (downloadFile Demo.rt "https://resource.itslearning.com/x&y"
                 "ASP.NET_SessionId=res10" "data/C" "report.pdf" Demo.resumed))
         "data/Math_ I/Week 1_ Intro/Notes [101]/report.pdf"
  = Some "kept" /\
  fileAt (snd (downloadFile Demo.rt "https://resource.itslearning.com/x&y"
                 "ASP.NET_SessionId=res10" "data/C" "report.pdf" Demo.resumed))
         "data/C/report.pdf"
  = Some "%PDF report".
Proof.
  split; [| reflexivity].
  refine (proj1 (@downloadFile_changes_only_its_target Demo.rt
                   "https://resource.itslearning.com/x&y"
                   "ASP.NET_SessionId=res10" "data/C" "report.pdf"
                   Demo.resumed
                   "data/Math_ I/Week 1_ Intro/Notes [101]/report.pdf" _)).
  vm_compute. discriminate.
Defined.

Lemma downloadFile_creates_folder_and_file_witness :
  exists st',
    downloadFile Demo.rt "https://resource.itslearning.com/x&y"
                 "ASP.NET_SessionId=res10" "data/C" "report.pdf" Demo.empty
    = (Returned tt, st') /\
    fileAt st' "data/C/report.pdf" = Some "%PDF report" /\
    existsAt st' "data/C" = true /\
    trace st'
    = [ ExistsSync "data/C/report.pdf";
        Fetched (payloadRequest "https://resource.itslearning.com/x&y"
                                "ASP.NET_SessionId=res10");
        ExistsSync "data/C";
        MkdirSync "data/C";
        WriteStream "data/C/report.pdf";
        Console Log "Downloaded file to data/C/report.pdf" ].
Proof.
  exact (@downloadFile_creates_folder_and_file Demo.rt
           "https://resource.itslearning.com/x&y" "ASP.NET_SessionId=res10"
           "data/C" "report.pdf" "report.pdf" (Demo.page "%PDF report")
           Demo.empty eq_refl (fun d _ => eq_refl) eq_refl
           eq_refl eq_refl eq_refl).
Defined.

Lemma failed_payload_writes_nothing_witness :
  exists st',
    downloadFile Demo.rt "https://resource.itslearning.com/preview/15" ""
                 "data/C" "fifteen.docx" Demo.empty
    = (Returned tt, st') /\
    trace st'
    = [ ExistsSync "data/C/fifteen.docx";
        Fetched (payloadRequest "https://resource.itslearning.com/preview/15"
                                "");
        Console Log "Failed to download file: Forbidden" ] /\
    files st' = [] /\ dirs st' = [].
Proof.
  exact (@failed_payload_writes_nothing Demo.rt
           "https://resource.itslearning.com/preview/15" ""
           "data/C" "fifteen.docx"
           (Demo.answer 403 "Forbidden" None None "") Demo.empty
           eq_refl eq_refl eq_refl).
Defined.

Lemma second_download_is_skipped_witness :
  let st1 :=
    snd (downloadFile Demo.rt "https://resource.itslearning.com/x&y"
           "ASP.NET_SessionId=res10" "data/C" "report.pdf" Demo.empty) in
  downloadFile Demo.rt "https://resource.itslearning.com/file/14" ""
               "data/C" "report.pdf" st1
  = (Returned tt,
     emits [ ExistsSync "data/C/report.pdf";
             Console Log "Skipping file: data/C/report.pdf" ] st1) /\
  fileAt (emits [ ExistsSync "data/C/report.pdf";
                  Console Log "Skipping file: data/C/report.pdf" ] st1)
         "data/C/report.pdf"
  = Some "%PDF report".
Proof.
  exact (@second_download_is_skipped Demo.rt
           "https://resource.itslearning.com/x&y" "ASP.NET_SessionId=res10"
           "data/C" "report.pdf" "report.pdf" (Demo.page "%PDF report")
           Demo.empty "https://resource.itslearning.com/file/14" ""
           eq_refl (fun d _ => eq_refl) eq_refl
           eq_refl eq_refl eq_refl).
Defined.

Lemma resolution_keeps_existing_files_witness :
  fileAt (snd (downloadResourceObject Demo.rt Demo.school Demo.sessionId
                 "10" "data/C" Demo.downloaded))
         "data/C/report.pdf"
  = Some "old bytes".
Proof.
  exact (@resolution_keeps_existing_files Demo.rt Demo.school Demo.sessionId
           "10" "data/C" Demo.downloaded "data/C/report.pdf" "old bytes"
           eq_refl).
Defined.

Lemma run_keeps_existing_files_witness :
  fileAt (snd (runCourses Demo.rt 5 Demo.school Demo.sessionId Demo.courses
                 Demo.resumed))
         "data/Math_ I/Week 1_ Intro/Notes [101]/report.pdf"
  = Some "kept".
Proof.
  exact (@run_keeps_existing_files Demo.rt 5 Demo.school Demo.sessionId
           Demo.courses Demo.resumed
           "data/Math_ I/Week 1_ Intro/Notes [101]/report.pdf" "kept"
           eq_refl).
Defined.

Lemma flat_folder_starts_its_files_in_order_witness :
  exists st',
    downloadResourceFolder Demo.rt 1 Demo.school (Demo.folderHref "101")
                           Demo.sessionId "data/M" true Demo.empty
    = (Returned tt, st') /\
    pending st'
    = [ taskOf Demo.school Demo.sessionId "10" "data/M/Notes [101]";
        taskOf Demo.school Demo.sessionId "11" "data/M/Notes [101]";
        taskOf Demo.school Demo.sessionId "12" "data/M/Notes [101]" ] /\
    trace st'
    = [ Fetched (folderRequest Demo.school Demo.sessionId
                               (Demo.folderHref "101")) ].
Proof.
  refine (@flat_folder_starts_its_files_in_order Demo.rt Demo.school
            Demo.sessionId 0 (Demo.folderHref "101") "data/M" true
            (Demo.page "folder101") (Demo.titled "Notes") "Notes [101]"
            Demo.empty eq_refl eq_refl eq_refl eq_refl _).
  repeat constructor.
Defined.

Lemma malformed_entry_stops_the_folder_witness :
  exists st',
    downloadResourceFolder Demo.broken 1 Demo.school (Demo.folderHref "200")
                           Demo.sessionId "data/M" false Demo.empty
    = (Thrown TypeError, st') /\
    pending st'
    = [ taskOf Demo.school Demo.sessionId "10" "data/M/Broken" ] /\
    trace st'
    = [ Fetched (folderRequest Demo.school Demo.sessionId
                               (Demo.folderHref "200")) ].
Proof.
  refine (@malformed_entry_stops_the_folder Demo.broken Demo.school
            Demo.sessionId 0 (Demo.folderHref "200") "data/M" false
            (Demo.page "folder200") (Demo.titled "Broken") "Broken"
            [Demo.slides10] [Demo.slides11] Demo.stray
            Demo.empty eq_refl eq_refl eq_refl eq_refl eq_refl _ eq_refl).
  repeat constructor.
Defined.

Lemma failed_course_page_ends_the_run_witness :
  exists st',
    runCourses Demo.rt 5 Demo.school Demo.sessionId
      ({| Title := "Chemistry"; CourseId := "8" |} :: Demo.courses) Demo.empty
    = (Returned tt, st') /\
    trace st'
    = [ Fetched (courseRequest Demo.school Demo.sessionId "8");
        Console Error "Failed to fetch web content for course Chemistry" ] /\
    files st' = [] /\ dirs st' = [] /\ pending st' = [].
Proof.
  exact (@failed_course_page_ends_the_run Demo.rt 5 Demo.school Demo.sessionId
           {| Title := "Chemistry"; CourseId := "8" |} Demo.courses
           (Demo.answer 500 "Internal Server Error" None None "") Demo.empty
           eq_refl eq_refl eq_refl).
Defined.

Lemma login_session_id_is_cut_from_the_cookie_witness :
  exists response allCookies first others a b,
    Demo.loginAnswer (loginRequestOf "demo" "ada" "s3cret") = Some response /\
    res_setCookie response = Some allCookies /\
    filter (fun c => includes c "ASP.NET_SessionId") allCookies
    = first :: others /\
    first = a ++ "ASP.NET_SessionId=" ++ "S1" ++ ";" ++ b /\
    "S1" <> EmptyString /\
    (forall c, occurs c "S1" = true -> isSpace c = false) /\
    [ Posted (loginRequestOf "demo" "ada" "s3cret");
      Printed Log "Obtained session id: S1" ]
    = [ Posted (loginRequestOf "demo" "ada" "s3cret");
        Printed Log ("Obtained session id: " ++ "S1") ].
Proof.
  exact (@login_session_id_is_cut_from_the_cookie Demo.loginAnswer
           "demo" "ada" "s3cret"
           [ Posted (loginRequestOf "demo" "ada" "s3cret");
             Printed Log "Obtained session id: S1" ]
           "S1" eq_refl).
Defined.

Lemma login_without_session_cookie_raises_witness :
  loginForSessionId Demo.loginAnswer "demo" "ada" "guess"
  = ([Posted (loginRequestOf "demo" "ada" "guess")], Raised TypeError).
Proof.
  apply (@login_without_session_cookie_raises Demo.loginAnswer
           "demo" "ada" "guess" (Demo.page "login")).
  - reflexivity.
  - intros allCookies c H. discriminate H.
Defined.

Lemma login_reads_the_session_cookie_witness :
  loginForSessionId Demo.loginAnswer "demo" "ada" "s3cret"
  = ([ Posted (loginRequestOf "demo" "ada" "s3cret");
       Printed Log "Obtained session id: S1" ],
     Obtained "S1").
Proof.
  apply (@login_reads_the_session_cookie Demo.loginAnswer
           "demo" "ada" "s3cret"
           (Demo.answer 200 "OK" None
              (Some [ "lang=en; path=/";
                      "ASP.NET_SessionId=S1; path=/; HttpOnly" ]) "")
           [ "lang=en; path=/"; "ASP.NET_SessionId=S1; path=/; HttpOnly" ]
           [] "S1" "path=/; HttpOnly").
  - reflexivity.
  - reflexivity.
  - reflexivity.
  - discriminate.
  - by_chars.
Defined.

Lemma credentials_are_posted_only_without_session_witness :
  let env := Demo.environmentOf None (Some "ada") (Some "s3cret") in
  truthy (SCHOOL env) = true /\
  truthy (SESSION env) = false /\
  truthy (USERNAME env) = true /\
  truthy (PASSWORD env) = true /\
  loginRequestOf "demo" "ada" "s3cret"
  = loginRequestOf (valueOf (SCHOOL env)) (valueOf (USERNAME env))
                   (valueOf (PASSWORD env)).
Proof.
  apply (@credentials_are_posted_only_without_session Demo.loginAnswer
           (Demo.environmentOf None (Some "ada") (Some "s3cret"))
           (loginRequestOf "demo" "ada" "s3cret")).
  left. reflexivity.
Defined.

Lemma login_succeeds_when_an_id_is_delimited_witness :
  exists sessionId,
    loginForSessionId
      (fun _ => Some (Demo.answer 200 "OK" None
                        (Some ["theme=dark; ASP.NET_SessionId=S7;"]) ""))
      "demo" "ada" "s3cret"
    = ([ Posted (loginRequestOf "demo" "ada" "s3cret");
         Printed Log ("Obtained session id: " ++ sessionId) ],
       Obtained sessionId).
Proof.
  apply (@login_succeeds_when_an_id_is_delimited
           (fun _ => Some (Demo.answer 200 "OK" None
                             (Some ["theme=dark; ASP.NET_SessionId=S7;"]) ""))
           "demo" "ada" "s3cret"
           (Demo.answer 200 "OK" None
              (Some ["theme=dark; ASP.NET_SessionId=S7;"]) "")
           ["theme=dark; ASP.NET_SessionId=S7;"] []
           "theme=dark; ASP.NET_SessionId=S7;" "theme=dark; " "S7" "").
  - reflexivity.
  - reflexivity.
  - reflexivity.
  - reflexivity.
  - discriminate.
  - by_chars.
Defined.
